(** * pdf_engine: document transformation pipeline and version state machine

    A shallow embedding of [app/indexing.py], [app/latex.py], [app/llm.py]
    and [app/tasks.py], and the properties of the pipeline proved on it.

    Conventions of the embedding:
    - a Python [str] is a list of Unicode code points ([str]); literals are
      written with [utf8], which decodes the UTF-8 bytes of a Rocq string;
    - a [datetime] is a number of microseconds ([Z]); [total_seconds()]
      compared with [120] is the comparison of the microsecond count with
      [120 * 10^6], which is exact at the resolution of [datetime];
    - the database is a record of tables, the file system a finite map from
      paths to contents; a [db_session] commits on normal exit and rolls the
      tables back when its body raises;
    - what the outside world answers (the language model, the LaTeX engine,
      the PDF text extractor, the clock) is read from an environment [Env],
      as a function of the history of external calls made so far;
    - logging is not modelled: it changes no state the properties speak of. *)

From stdpp Require Import base numbers list strings gmap pretty sorting.

Local Open Scope Z_scope.

(** ** Python strings *)

Abbreviation char := N (only parsing).
Abbreviation str := (list N) (only parsing).

Definition bytes_of_string (s : string) : list N :=
  Ascii.N_of_ascii <$> String.list_ascii_of_string s.

Fixpoint utf8_decode (bs : list N) : str :=
  match bs with
  | [] => []
  | b0 :: r0 =>
      if (b0 <? 128)%N then b0 :: utf8_decode r0
      else if (b0 <? 224)%N then
        match r0 with
        | b1 :: r1 => ((b0 - 192) * 64 + (b1 - 128))%N :: utf8_decode r1
        | [] => []
        end
      else if (b0 <? 240)%N then
        match r0 with
        | b1 :: b2 :: r2 =>
            ((b0 - 224) * 4096 + (b1 - 128) * 64 + (b2 - 128))%N
              :: utf8_decode r2
        | _ => []
        end
      else
        match r0 with
        | b1 :: b2 :: b3 :: r3 =>
            ((b0 - 240) * 262144 + (b1 - 128) * 4096
               + (b2 - 128) * 64 + (b3 - 128))%N :: utf8_decode r3
        | _ => []
        end
  end.

(** A string literal of the source. *)
Definition utf8 (s : string) : str := utf8_decode (bytes_of_string s).

(** ["\n"] *)
Definition nl : str := [10%N].

(** [str(n)] for an [int]. *)
Definition str_of_Z (n : Z) : str := utf8 (pretty n).
Definition str_of_nat (n : nat) : str := utf8 (pretty n).

(** [str.isspace] on one character: the code points CPython's
    [_PyUnicode_IsWhitespace] accepts. *)
Definition py_isspace (c : char) : bool :=
  ((9 <=? c) && (c <=? 13) || (28 <=? c) && (c <=? 32)
   || (c =? 133) || (c =? 160) || (c =? 5760)
   || (8192 <=? c) && (c <=? 8202)
   || (c =? 8232) || (c =? 8233) || (c =? 8239) || (c =? 8287)
   || (c =? 12288))%N.

Fixpoint drop_while {A} (p : A -> bool) (l : list A) : list A :=
  match l with
  | [] => []
  | x :: l' => if p x then drop_while p l' else l
  end.

Definition lstrip (s : str) : str := drop_while py_isspace s.
Definition rstrip (s : str) : str := reverse (drop_while py_isspace (reverse s)).
(** [s.strip()] *)
Definition strip (s : str) : str := rstrip (lstrip s).

(** [s[start:end]] for [0 <= start], [0 <= end]. *)
Definition slice {A} (start end_ : nat) (s : list A) : list A :=
  take (end_ - start) (drop start s).

(** [s[-n:]] for [n > 0]: the last [n] characters, all of [s] when shorter. *)
Definition last_chars {A} (n : nat) (s : list A) : list A :=
  drop (length s - n) s.

(** [needle in hay] *)
Fixpoint str_contains (needle hay : str) : bool :=
  bool_decide (take (length needle) hay = needle)
  || match hay with
     | [] => false
     | _ :: hay' => str_contains needle hay'
     end.

(** [s.lower()], on the ASCII letters. It is applied to settings that are
    compared with ASCII literals, none of whose letters is the lower case of
    a character outside ASCII. *)
Definition lower (s : str) : str :=
  (fun c => if ((65 <=? c) && (c <=? 90))%N then (c + 32)%N else c) <$> s.

(** [a or b] on strings: the empty string is falsy. *)
Definition str_or (a b : str) : str :=
  match a with [] => b | _ => a end.

(** ** app/indexing.py *)

(** The body of [while start < len(t)] in [chunk_text]. [fuel] bounds the
    number of iterations; [chunk_loop_fuel] below shows that [length t]
    iterations are enough whenever [max_chars > 0], so the loop is left
    through its guard. *)
Fixpoint chunk_loop (fuel : nat) (t : str) (max_chars : nat)
    (start : nat) (chunks : list str) : list str :=
  match fuel with
  | O => chunks
  | S fuel' =>
      if (start <? length t)%nat then
        let end_ := (length t `min` (start + max_chars))%nat in
        chunk_loop fuel' t max_chars end_ (chunks ++ [slice start end_ t])
      else chunks
  end.

Definition chunk_text (text : str) (max_chars : nat) : list str :=
  let t := strip text in
  match t with
  | [] => []
  | _ => chunk_loop (length t) t max_chars 0 []
  end.

(** A row of the FTS5 table [chunks_fts]. *)
Record Chunk := mkChunk {
  c_doc_id : Z;
  c_kind : str;
  chunk_id : str;
  content : str
}.

Global Instance Chunk_eq_dec : EqDecision Chunk.
Proof. solve_decision. Defined.

(** [WHERE doc_id = :doc_id AND kind = :kind] *)
Definition chunk_of (doc_id : Z) (kind : str) (c : Chunk) : bool :=
  bool_decide (c_doc_id c = doc_id) && bool_decide (c_kind c = kind).

(** [DELETE FROM chunks_fts WHERE doc_id = :doc_id AND kind = :kind] *)
Definition fts_delete (conn : list Chunk) (doc_id : Z) (kind : str)
    : list Chunk :=
  List.filter (fun c => negb (chunk_of doc_id kind c)) conn.

(** [for i, c in enumerate(rows): INSERT ...], starting the count at [i]. *)
Fixpoint fts_insert_rows (conn : list Chunk) (doc_id : Z) (kind : str)
    (i : nat) (rows : list str) : list Chunk :=
  match rows with
  | [] => conn
  | c :: rows' =>
      fts_insert_rows (conn ++ [mkChunk doc_id kind (str_of_nat i) c])
        doc_id kind (S i) rows'
  end.

(** [chunk_text(text)]: [max_chars] has its default, 1000. *)
Definition fts_rebuild (conn : list Chunk) (doc_id : Z) (kind : str)
    (text : str) : list Chunk :=
  let conn := fts_delete conn doc_id kind in
  let rows := chunk_text text 1000 in
  fts_insert_rows conn doc_id kind 0 rows.


(** ** Exceptions and results *)

(** The exceptions the pipeline tells apart: [LatexCompileError] (caught by
    name in [transform_tex_task]), [RuntimeError] (raised by [app/llm.py]),
    and any other subclass of [Exception], with its class name. The argument
    [msg] is [str(e)]. *)
Inductive exn :=
| LatexCompileError (msg : str)
| RuntimeError (msg : str)
| OtherException (cls : str) (msg : str).

(** [str(e)] *)
Definition exn_str (e : exn) : str :=
  match e with
  | LatexCompileError m | RuntimeError m | OtherException _ m => m
  end.

Inductive result (A : Type) :=
| Ok (a : A)
| Raise (e : exn).
Arguments Ok {A} a.
Arguments Raise {A} e.

(** ** app/models.py *)

Abbreviation blob := (list N) (only parsing).

Record Document := mkDocument {
  d_id : Z;
  owner_id : Z;
  filename : str;
  d_size : Z;
  original_path : str;
  extracted_text : option str;
  status : str;
  last_error : option str;
  editor_open : bool;
  editor_heartbeat_at : option Z;
  d_created_at : Z;
  d_updated_at : Z
}.

Record Version := mkVersion {
  v_id : Z;
  v_doc_id : Z;
  kind : str;
  tex_source : str;
  pdf_path : str;
  plain_text : str;
  v_created_at : Z;
  v_updated_at : Z
}.

Global Instance Document_eq_dec : EqDecision Document.
Proof. solve_decision. Defined.
Global Instance Version_eq_dec : EqDecision Version.
Proof. solve_decision. Defined.

Definition set_extracted_text (x : option str) (d : Document) : Document :=
  mkDocument (d_id d) (owner_id d) (filename d) (d_size d) (original_path d)
    x (status d) (last_error d) (editor_open d) (editor_heartbeat_at d)
    (d_created_at d) (d_updated_at d).
Definition set_status (x : str) (d : Document) : Document :=
  mkDocument (d_id d) (owner_id d) (filename d) (d_size d) (original_path d)
    (extracted_text d) x (last_error d) (editor_open d)
    (editor_heartbeat_at d) (d_created_at d) (d_updated_at d).
Definition set_last_error (x : option str) (d : Document) : Document :=
  mkDocument (d_id d) (owner_id d) (filename d) (d_size d) (original_path d)
    (extracted_text d) (status d) x (editor_open d) (editor_heartbeat_at d)
    (d_created_at d) (d_updated_at d).
Definition set_updated_at (x : Z) (d : Document) : Document :=
  mkDocument (d_id d) (owner_id d) (filename d) (d_size d) (original_path d)
    (extracted_text d) (status d) (last_error d) (editor_open d)
    (editor_heartbeat_at d) (d_created_at d) x.

(** ** The state of the world *)

(** What the program asked of the outside, oldest first. [EvCompile] marks a
    call of [compile_tex_to_pdf], [EvRun] one [subprocess.run] of the LaTeX
    engine, [EvPost] one [requests.post] to [/chat/completions],
    [EvRemove] one [os.remove] and [EvCopy] one [shutil.copyfile]. *)
Inductive Event :=
| EvPost (model_id : str) (messages : list (str * str))
| EvPickModels
| EvCompile (tex_source out_pdf_path : str) (toc : bool)
| EvRun (tex_source : str)
| EvRemove (path : str)
| EvCopy (src dst : str).

Global Instance Event_eq_dec : EqDecision Event.
Proof. solve_decision. Defined.

Record World := mkWorld {
  documents : gmap Z Document;
  versions : list Version;
  chunks_fts : list Chunk;
  files : gmap str blob;
  history : list Event
}.

Definition set_documents (x : gmap Z Document) (w : World) : World :=
  mkWorld x (versions w) (chunks_fts w) (files w) (history w).
Definition set_versions (x : list Version) (w : World) : World :=
  mkWorld (documents w) x (chunks_fts w) (files w) (history w).
Definition set_chunks_fts (x : list Chunk) (w : World) : World :=
  mkWorld (documents w) (versions w) x (files w) (history w).
Definition set_files (x : gmap str blob) (w : World) : World :=
  mkWorld (documents w) (versions w) (chunks_fts w) x (history w).
Definition record (ev : Event) (w : World) : World :=
  mkWorld (documents w) (versions w) (chunks_fts w) (files w)
    (history w ++ [ev]).

(** ** The monad of the jobs: state and exceptions *)

Definition M (A : Type) : Type := World -> result A * World.

Global Instance M_ret : MRet M := fun A (a : A) w => (Ok a, w).
Global Instance M_bind : MBind M := fun A B (f : A -> M B) (m : M A) w =>
  match m w with
  | (Ok a, w') => f a w'
  | (Raise e, w') => (Raise e, w')
  end.

Definition raise {A} (e : exn) : M A := fun w => (Raise e, w).
Definition gets {A} (f : World -> A) : M A := fun w => (Ok (f w), w).
Definition modify (f : World -> World) : M unit := fun w => (Ok tt, f w).

(** [try: body except Exception as e: handler e] *)
Definition try_except {A} (body : M A) (handler : exn -> M A) : M A :=
  fun w =>
    match body w with
    | (Ok a, w') => (Ok a, w')
    | (Raise e, w') => handler e w'
    end.

(** [with db_session() as s: body] of [app/db.py]: commit on normal exit
    (an early [return] included); on an exception roll the tables back and
    raise it again. Files and the history are not rolled back. *)
Definition db_session {A} (body : M A) : M A :=
  fun w =>
    match body w with
    | (Ok a, w') => (Ok a, w')
    | (Raise e, w') =>
        (Raise e,
         mkWorld (documents w) (versions w) (chunks_fts w) (files w')
           (history w'))
    end.

(** [s.get(Document, doc_id)] *)
Definition get_document (doc_id : Z) : M (option Document) :=
  gets (fun w => documents w !! doc_id).

(** The attribute writes on a loaded [Document], flushed at commit. *)
Definition update_document (doc_id : Z) (f : Document -> Document) : M unit :=
  modify (fun w => set_documents (alter f doc_id (documents w)) w).

(** ** The environment: settings, the outside world, pure text helpers *)

(** What [requests.post] returns: [r.ok], [r.status_code], [r.text], and
    what [r.json()] gives: it raises, or it returns a value [j], kept here
    as [str(j)] together with [j["choices"][0]["message"]["content"]] when
    that path exists. *)
Record Response := mkResponse {
  r_ok : bool;
  status_code : Z;
  r_text : str;
  r_json : result (str * option str)
}.

(** What [subprocess.run] returns, and the file [main.pdf] of the scratch
    directory after the run. *)
Record CompletedProcess := mkCompletedProcess {
  returncode : Z;
  stdout : str;
  main_pdf : option blob
}.

Record Env := mkEnv {
  (* app/config.py *)
  generated_dir : str;
  latex_max_runs : Z;
  llm_provider : str;
  openrouter_api_key : str;
  openrouter_model : str;
  (* the outside world, answering after a given history *)
  utcnow : list Event -> Z;
  requests_post : list Event -> str -> list (str * str) -> result Response;
  pick_models : list Event -> result (list str);
  subprocess_run : list Event -> str -> option blob -> CompletedProcess;
  (* app/pdf_extract.py, on the content of the file at the path *)
  extract_text_from_pdf : option blob -> result str;
  (* regular-expression rewriting of app/tex_utils.py, app/tex_convert.py,
     app/prompting.py and [_text_to_tex_body_no_change]: total functions on
     strings, whose values the properties below do not depend on *)
  extract_body : str -> str;
  make_full_tex : str -> bool -> str;
  tex_to_text : str -> str;
  build_user_prompt : str -> bool -> bool -> bool -> bool -> str -> str;
  text_to_tex_body_no_change : str -> str
}.

(** [datetime.utcnow()] *)
Definition now (E : Env) : M Z := gets (fun w => utcnow E (history w)).

(** [os.path.exists(p)] *)
Definition os_path_exists (p : str) : M bool :=
  gets (fun w => bool_decide (is_Some (files w !! p))).

(** [os.remove(p)] of an existing file. *)
Definition os_remove (p : str) : M unit :=
  modify (fun w => record (EvRemove p) (set_files (delete p (files w)) w)).

(** [shutil.copyfile(src, dst)] of an existing file. *)
Definition shutil_copyfile (src dst : str) : M unit :=
  modify (fun w =>
    record (EvCopy src dst)
      (set_files (from_option (fun b => <[dst := b]> (files w)) (files w)
                    (files w !! src)) w)).

(** ** app/latex.py *)

(** [for i in range(runs)] of [compile_tex_to_pdf]; [pdf] is [main.pdf] in
    the scratch directory, [last_out] the variable of the source. Returns
    [last_out] and [main.pdf] after the last pass. *)
Fixpoint compile_passes (E : Env) (runs : nat) (tex_source : str)
    (pdf : option blob) (last_out : str) : M (str * option blob) :=
  match runs with
  | O => mret (last_out, pdf)
  | S runs' => fun w =>
      let proc := subprocess_run E (history w) tex_source pdf in
      let w := record (EvRun tex_source) w in
      let last_out := last_chars 8000 (stdout proc) in
      if bool_decide (returncode proc ≠ 0)
      then (Raise (LatexCompileError last_out), w)
      else compile_passes E runs' tex_source (main_pdf proc) last_out w
  end.

(** [runs] of [compile_tex_to_pdf]. *)
Definition compile_runs (E : Env) (toc : bool) : Z :=
  let max_runs := 1 `max` (5 `min` latex_max_runs E) in
  let runs := if toc then 2 else 1 in
  runs `min` max_runs.

(** The scratch directory is fresh and removed in the [finally] clause: it
    is local to the call, and only [out_pdf_path] changes in the file
    system. *)
Definition compile_tex_to_pdf (E : Env) (tex_source out_pdf_path : str)
    (toc : bool) : M unit :=
  modify (record (EvCompile tex_source out_pdf_path toc));;
  '(last_out, pdf_src) ←
    compile_passes E (Z.to_nat (compile_runs E toc)) tex_source None [];
  match pdf_src with
  | None =>
      raise (LatexCompileError
               (utf8 "PDF not produced. Output:" ++ nl ++ last_out))
  | Some b =>
      modify (fun w => set_files (<[out_pdf_path := b]> (files w)) w)
  end.

(** ** app/llm.py *)

Definition _post_chat (E : Env) (model_id : str)
    (messages : list (str * str)) : M str :=
  fun w =>
    let w' := record (EvPost model_id messages) w in
    match requests_post E (history w) model_id messages with
    | Raise e => (Raise e, w')
    | Ok r =>
        if negb (r_ok r) then
          (Raise (RuntimeError
                    (utf8 "OpenRouter error " ++ str_of_Z (status_code r)
                       ++ utf8 ": " ++ take 2000 (r_text r))), w')
        else
          match r_json r with
          | Raise e => (Raise e, w')
          | Ok (_, Some content) => (Ok content, w')
          | Ok (j, None) =>
              (Raise (RuntimeError
                        (utf8 "OpenRouter response parse error: "
                           ++ take 500 j)), w')
          end
    end.

(** ["No endpoints found" in last_err or '"code":404' in last_err] *)
Definition no_endpoints (last_err : str) : bool :=
  str_contains (utf8 "No endpoints found") last_err
  || str_contains ([34%N] ++ utf8 "code" ++ [34%N] ++ utf8 ":404") last_err.

(** [for mid in ...: try ... except Exception as e: ...] and the [raise]
    after it. Both branches of the test on the error text only log, and
    [continue]. *)
Fixpoint call_llm_loop (E : Env) (candidates : list str)
    (messages : list (str * str)) (last_err : str) : M (str * str) :=
  match candidates with
  | [] => raise (RuntimeError (str_or last_err (utf8 "LLM failed")))
  | mid :: candidates' =>
      try_except
        (out ← _post_chat E mid messages; mret (out, mid))
        (fun e =>
           let last_err := exn_str e in
           if no_endpoints last_err
           then call_llm_loop E candidates' messages last_err
           else call_llm_loop E candidates' messages last_err)
  end.

(** [pick_models()] *)
Definition pick_models_call (E : Env) : M (list str) :=
  fun w =>
    (pick_models E (history w), record EvPickModels w).

(** [model_candidates] of [call_llm_tex]: the configured model, or the
    ranked catalog when the setting is empty or ["auto"]. *)
Definition model_candidates (E : Env) : M (list str) :=
  let requested := strip (openrouter_model E) in
  if bool_decide (requested ≠ [])
     && bool_decide (lower requested ≠ utf8 "auto")
  then mret [requested]
  else pick_models_call E.

Definition call_llm_tex (E : Env) (system_prompt user_prompt : str)
    : M (str * str) :=
  let provider := strip (lower (llm_provider E)) in
  if bool_decide (provider = utf8 "none") then
    raise (RuntimeError (utf8 "LLM_PROVIDER=none (disabled)"))
  else if bool_decide (provider ≠ utf8 "openrouter") then
    raise (RuntimeError (utf8 "Unsupported LLM_PROVIDER: " ++ provider))
  else if bool_decide (openrouter_api_key E = []) then
    raise (RuntimeError (utf8 "OPENROUTER_API_KEY is empty"))
  else
    model_candidates ← model_candidates E;
    let messages :=
      [(utf8 "system", system_prompt); (utf8 "user", user_prompt)] in
    call_llm_loop E (take 6 model_candidates) messages [].

(** ** app/tasks.py *)

(** [_editor_active(doc)], with [now] the value of [datetime.utcnow()]
    read inside it; times are in microseconds, so [age < 120] (seconds)
    reads [age < 120000000]. *)
Definition _editor_active (now : Z) (doc : Document) : bool :=
  if negb (editor_open doc) then false
  else
    match editor_heartbeat_at doc with
    | None => false
    | Some heartbeat =>
        let age := now - heartbeat in
        age <? 120 * 1000000
    end.

Definition draft : str := utf8 "draft".
Definition saved : str := utf8 "saved".
Definition original : str := utf8 "original".
Definition processing : str := utf8 "processing".
Definition ready : str := utf8 "ready".
Definition error : str := utf8 "error".

(** [str(Path(settings.generated_dir) / f"doc_{doc_id}_{kind}.pdf")], with
    [generated_dir E] the directory as [pathlib] prints it; directories are
    not modelled, so [mkdir] does nothing. *)
Definition _generated_pdf_path (E : Env) (doc_id : Z) (kind : str) : str :=
  generated_dir E ++ utf8 "/" ++ utf8 "doc_" ++ str_of_Z doc_id
    ++ utf8 "_" ++ kind ++ utf8 ".pdf".

Definition _delete_version_files (v : Version) : M unit :=
  try_except
    (ex ← os_path_exists (pdf_path v);
     if bool_decide (pdf_path v ≠ []) && ex
     then os_remove (pdf_path v)
     else mret tt)
    (fun _ => mret tt).

(** [s.query(Version).filter(Version.doc_id == doc_id,
    Version.kind == kind).first()] *)
Definition version_of (doc_id : Z) (k : str) (v : Version) : bool :=
  bool_decide (v_doc_id v = doc_id) && bool_decide (kind v = k).

Definition query_version (doc_id : Z) (k : str) : M (option Version) :=
  gets (fun w => List.find (version_of doc_id k) (versions w)).

(** [s.delete(v)]: the row with the primary key of [v]. *)
Definition delete_version (v : Version) : M unit :=
  modify (fun w =>
    set_versions
      (List.filter (fun v' => bool_decide (v_id v' ≠ v_id v)) (versions w)) w).

(** The attribute writes [f] on the loaded [Version] [v], flushed at commit:
    an [UPDATE] of the row with its primary key. *)
Definition update_row (v : Version) (f : Version -> Version) (v' : Version)
    : Version :=
  if bool_decide (v_id v' = v_id v) then f v' else v'.

Definition update_version (v : Version) (f : Version -> Version) : M unit :=
  modify (fun w => set_versions (update_row v f <$> versions w) w).

(** The primary key an [INSERT] assigns: one more than the largest. *)
Definition fresh_version_id (vs : list Version) : Z :=
  1 + foldr (fun v m => v_id v `max` m) 0 vs.

(** [s.add(Version(...))] *)
Definition add_version (doc_id : Z) (k tex pdf plain : str) (t : Z) : M unit :=
  modify (fun w =>
    set_versions
      (versions w
         ++ [mkVersion (fresh_version_id (versions w)) doc_id k tex pdf
               plain t t]) w).

(** [fts_rebuild(s.connection(), doc_id, kind, text)] *)
Definition fts_rebuild_call (doc_id : Z) (k text : str) : M unit :=
  modify (fun w =>
    set_chunks_fts (fts_rebuild (chunks_fts w) doc_id k text) w).

(** The first session of every job: [status = "processing"], [last_error =
    None]. Returns [false] when the document does not exist (the job
    returns). *)
Definition mark_processing (E : Env) (doc_id : Z) : M bool :=
  db_session
    (doc ← get_document doc_id;
     match doc with
     | None => mret false
     | Some _ =>
         t ← now E;
         update_document doc_id
           (fun d => set_updated_at t
                       (set_last_error None (set_status processing d)));;
         mret true
     end).

(** The [except Exception as e] session of the jobs: [message] is what the
    job stores of [str(e)]. *)
Definition mark_error (E : Env) (doc_id : Z) (message : str) : M unit :=
  db_session
    (doc ← get_document doc_id;
     match doc with
     | None => mret tt
     | Some _ =>
         t ← now E;
         update_document doc_id
           (fun d => set_updated_at t
                       (set_last_error (Some message) (set_status error d)))
     end).

Definition process_pdf_task (E : Env) (doc_id : Z) : M unit :=
  found ← mark_processing E doc_id;
  if negb found then mret tt
  else
    try_except
      (db_session
         (doc ← get_document doc_id;
          match doc with
          | None => mret tt
          | Some doc =>
              text ← (fun w =>
                (extract_text_from_pdf E (files w !! original_path doc), w));
              t ← now E;
              update_document doc_id
                (fun d => set_updated_at t
                            (set_status ready
                               (set_extracted_text (Some text) d)));;
              fts_rebuild_call doc_id original text
          end))
      (fun e =>
         (* no [raise] after the handler *)
         mark_error E doc_id (exn_str e)).

(** [input_payload = doc.extracted_text or ""], and when that is empty the
    text extracted from the original, cached on the document. *)
Definition load_extracted_text (E : Env) (doc_id : Z) (doc : Document)
    : M str :=
  match default [] (extracted_text doc) with
  | [] =>
      input_payload ← (fun w =>
        (extract_text_from_pdf E (files w !! original_path doc), w));
      update_document doc_id (set_extracted_text (Some input_payload));;
      mret input_payload
  | input_payload => mret input_payload
  end.

Definition system_prompt : str :=
  utf8 "Ты опытный редактор документов. Твоя задача — улучшить текст согласно требованиям и вернуть LaTeX документ. "
  ++ utf8 "Сохраняй смысл и содержание текста. Не добавляй выдуманных фактов. "
  ++ utf8 "Возвращай только LaTeX.".

Definition repair_system : str :=
  utf8 "Исправь LaTeX так, чтобы он компилировался. "
  ++ utf8 "Не меняй смысл текста. Верни только исправленный LaTeX документ.".

Definition repair_user (ce : exn) (full_tex : str) : str :=
  utf8 "ОШИБКА КОМПИЛЯЦИИ:" ++ nl
  ++ exn_str ce
  ++ nl ++ nl ++ utf8 "ТЕКУЩИЙ LaTeX:" ++ nl ++ utf8 "<<<" ++ nl
  ++ full_tex
  ++ nl ++ utf8 ">>>" ++ nl.

(** The second session of [transform_tex_task]: choose the input and build
    the prompts. [None] when the document is gone (the job returns). *)
Definition transform_prompts (E : Env) (doc_id : Z) (base_kind : str)
    (toc_indexes structure spelling : bool) (extra : str)
    : M (option (str * str)) :=
  db_session
    (doc ← get_document doc_id;
     match doc with
     | None => mret None
     | Some doc =>
         let is_tex :=
           bool_decide (base_kind = draft) || bool_decide (base_kind = saved) in
         '(is_tex, input_payload) ←
           (if bool_decide (base_kind = original) then
              input_payload ← load_extracted_text E doc_id doc;
              mret (is_tex, input_payload)
            else
              v ← query_version doc_id base_kind;
              match v with
              | Some v => mret (is_tex, tex_source v)
              | None =>
                  input_payload ← load_extracted_text E doc_id doc;
                  mret (false, input_payload)
              end);
         mret (Some (system_prompt,
                     build_user_prompt E input_payload is_tex toc_indexes
                       structure spelling extra))
     end).

(** Lines 126-148 of [transform_tex_task]: the rewrite, the compilation and
    the repair round. Returns [full_tex], [out_pdf] and [model_used]. *)
Definition transform_compile (E : Env) (doc_id : Z) (toc_indexes : bool)
    (system_prompt user_prompt : str) : M (str * str * str) :=
  '(tex_raw, model_used) ← call_llm_tex E system_prompt user_prompt;
  let body := extract_body E tex_raw in
  let full_tex := make_full_tex E body toc_indexes in
  let out_pdf := _generated_pdf_path E doc_id draft in
  full_tex ←
    try_except
      (compile_tex_to_pdf E full_tex out_pdf toc_indexes;; mret full_tex)
      (fun e =>
         match e with
         | LatexCompileError _ =>
             '(tex_fixed, _) ←
               call_llm_tex E repair_system (repair_user e full_tex);
             let body2 := extract_body E tex_fixed in
             let full_tex := make_full_tex E body2 toc_indexes in
             compile_tex_to_pdf E full_tex out_pdf toc_indexes;;
             mret full_tex
         | _ => raise e
         end);
  mret (full_tex, out_pdf, model_used).

(** The upsert of the draft row, the index rebuild and [status = "ready"],
    shared by the last sessions of [transform_tex_task] and
    [normalize_original_task]. *)
Definition write_draft (E : Env) (doc_id : Z) (full_tex out_pdf : str)
    : M unit :=
  let plain := tex_to_text E full_tex in
  v ← query_version doc_id draft;
  t ← now E;
  match v with
  | None => add_version doc_id draft full_tex out_pdf plain t
  | Some v =>
      update_version v (fun v' =>
        mkVersion (v_id v') (v_doc_id v') (kind v') full_tex out_pdf plain
          (v_created_at v') t)
  end;;
  fts_rebuild_call doc_id draft plain;;
  update_document doc_id
    (fun d => set_last_error None (set_updated_at t (set_status ready d))).

(** The last session of [transform_tex_task] (lines 150-184): the
    persistence step. *)
Definition transform_persist (E : Env) (doc_id : Z) (full_tex out_pdf : str)
    : M unit :=
  db_session
    (doc ← get_document doc_id;
     match doc with
     | None => mret tt
     | Some doc =>
         t ← now E;
         if negb (_editor_active t doc) then
           update_document doc_id
             (fun d => set_updated_at t (set_status ready d))
         else write_draft E doc_id full_tex out_pdf
     end).

(** The body of the [try] of [transform_tex_task]. *)
Definition transform_body (E : Env) (doc_id : Z) (base_kind : str)
    (toc_indexes structure spelling : bool) (extra : str) : M unit :=
  prompts ←
    transform_prompts E doc_id base_kind toc_indexes structure spelling extra;
  match prompts with
  | None => mret tt
  | Some (system_prompt, user_prompt) =>
      '(full_tex, out_pdf, _) ←
        transform_compile E doc_id toc_indexes system_prompt user_prompt;
      transform_persist E doc_id full_tex out_pdf
  end.

Definition transform_tex_task (E : Env) (doc_id : Z) (base_kind : str)
    (toc_indexes structure spelling : bool) (extra : str) (user_id : Z)
    : M unit :=
  found ← mark_processing E doc_id;
  if negb found then mret tt
  else
    try_except
      (transform_body E doc_id base_kind toc_indexes structure spelling extra)
      (fun e => mark_error E doc_id (exn_str e);; raise e).

(** The first session inside the [try] of [normalize_original_task]
    (lines 254-266). [None] when the job returns from it. *)
Definition normalize_text (E : Env) (doc_id : Z) : M (option str) :=
  db_session
    (doc ← get_document doc_id;
     match doc with
     | None => mret None
     | Some doc =>
         t ← now E;
         if negb (_editor_active t doc) then
           update_document doc_id
             (fun d => set_updated_at t (set_status ready d));;
           mret None
         else
           match strip (default [] (extracted_text doc)) with
           | [] =>
               text ← (fun w =>
                 (extract_text_from_pdf E (files w !! original_path doc), w));
               update_document doc_id (set_extracted_text (Some text));;
               mret (Some text)
           | text => mret (Some text)
           end
     end).

(** The last session of [normalize_original_task] (lines 274-305) has the
    statements of the last session of [transform_tex_task]. *)
Definition normalize_original_task (E : Env) (doc_id : Z) (user_id : Z)
    : M unit :=
  found ← mark_processing E doc_id;
  if negb found then mret tt
  else
    try_except
      (text ← normalize_text E doc_id;
       match text with
       | None => mret tt
       | Some text =>
           let body := text_to_tex_body_no_change E text in
           let full_tex := make_full_tex E body false in
           let out_pdf := _generated_pdf_path E doc_id draft in
           compile_tex_to_pdf E full_tex out_pdf false;;
           transform_persist E doc_id full_tex out_pdf
       end)
      (fun e => mark_error E doc_id (take 2000 (exn_str e));; raise e).

Definition promote_draft_to_saved (E : Env) (doc_id : Z) : M unit :=
  db_session
    (doc ← get_document doc_id;
     match doc with
     | None => mret tt
     | Some _ =>
         d ← query_version doc_id draft;
         match d with
         | None => mret tt
         | Some draft_row =>
             old_saved ← query_version doc_id saved;
             match old_saved with
             | Some old_saved =>
                 _delete_version_files old_saved;;
                 delete_version old_saved
             | None => mret tt
             end;;
             let saved_pdf := _generated_pdf_path E doc_id saved in
             try_except
               (ex ← os_path_exists (pdf_path draft_row);
                if (ex : bool) then shutil_copyfile (pdf_path draft_row) saved_pdf
                else mret tt)
               (fun _ => mret tt);;
             t ← now E;
             update_version draft_row (fun v =>
               mkVersion (v_id v) (v_doc_id v) saved (tex_source v) saved_pdf
                 (plain_text v) (v_created_at v) t);;
             try_except
               (ex ← os_path_exists (_generated_pdf_path E doc_id draft);
                if (ex : bool) then os_remove (_generated_pdf_path E doc_id draft)
                else mret tt)
               (fun _ => mret tt);;
             fts_rebuild_call doc_id saved (plain_text draft_row);;
             t ← now E;
             update_document doc_id
               (fun d => set_last_error None
                           (set_updated_at t (set_status ready d)))
         end
     end).

Definition discard_draft (E : Env) (doc_id : Z) : M unit :=
  db_session
    (doc ← get_document doc_id;
     match doc with
     | None => mret tt
     | Some _ =>
         d ← query_version doc_id draft;
         match d with
         | Some draft_row =>
             _delete_version_files draft_row;;
             delete_version draft_row
         | None => mret tt
         end;;
         try_except
           (let p := _generated_pdf_path E doc_id draft in
            ex ← os_path_exists p;
            if (ex : bool) then os_remove p else mret tt)
           (fun _ => mret tt);;
         modify (fun w =>
           set_chunks_fts (fts_delete (chunks_fts w) doc_id draft) w)
     end).

(** ** Invariants of the tables *)

(** [id] is the primary key of [versions]. *)
Definition versions_pk (vs : list Version) : Prop := NoDup (v_id <$> vs).

(** [UniqueConstraint("doc_id", "kind", name="uq_doc_kind")] *)
Definition uq_doc_kind (vs : list Version) : Prop :=
  NoDup ((fun v => (v_doc_id v, kind v)) <$> vs).

(** The rows of a document of a kind. *)
Definition versions_of (doc_id : Z) (k : str) (vs : list Version)
    : list Version :=
  List.filter (version_of doc_id k) vs.
Definition chunks_of (doc_id : Z) (k : str) (cs : list Chunk) : list Chunk :=
  List.filter (chunk_of doc_id k) cs.

(** ** Vocabulary of the statements *)

(** The world after [requests.post] was called for each of [mids], in
    order. *)
Definition after_posts (messages : list (str * str)) (mids : list str)
    (w : World) : World :=
  mkWorld (documents w) (versions w) (chunks_fts w) (files w)
    (history w ++ ((fun mid => EvPost mid messages) <$> mids)).

(** What [_post_chat] gives for the candidate of index [i], called after
    the candidates before it. *)
Definition post_outcome (E : Env) (messages : list (str * str)) (w : World)
    (candidates : list str) (i : nat) : option (result str) :=
  mid ← candidates !! i;
  Some (fst (_post_chat E mid messages
               (after_posts messages (take i candidates) w))).

Definition failed {A} (o : option (result A)) : Prop :=
  exists e, o = Some (Raise e).

(** What a call of [call_llm_tex] that reached its loop with the catalog
    [cs], in the world [w1], has done when it ends in [(r, w')]: the
    candidates tried are a prefix of the first six of [cs], in order; it
    returns the answer of the first one that answers; and when every one of
    them failed it raises a [RuntimeError] whose message is that of the last
    failure ([last_err or "LLM failed"]). *)
Definition fallback_outcome (E : Env) (messages : list (str * str))
    (cs : list str) (w1 : World) (r : result (str * str)) (w' : World)
    : Prop :=
  let attempted := take 6 cs in
  (length attempted <= 6)%nat
  /\ match r with
     | Ok (out, mid) =>
         exists k,
           attempted !! k = Some mid
           /\ post_outcome E messages w1 attempted k = Some (Ok out)
           /\ (forall i, (i < k)%nat ->
                 failed (post_outcome E messages w1 attempted i))
           /\ w' = after_posts messages (take (S k) attempted) w1
     | Raise e =>
         (forall i, (i < length attempted)%nat ->
            failed (post_outcome E messages w1 attempted i))
         /\ w' = after_posts messages attempted w1
         /\ match attempted with
            | [] => e = RuntimeError (utf8 "LLM failed")
            | _ => exists e_last,
                post_outcome E messages w1 attempted (length attempted - 1)
                = Some (Raise e_last)
                /\ e = RuntimeError
                         (str_or (exn_str e_last) (utf8 "LLM failed"))
                /\ (exn_str e_last <> [] -> e = RuntimeError (exn_str e_last))
            end
     end.


(** The world after [n] passes of the engine. *)
Definition after_runs (tex_source : str) (n : nat) (w : World) : World :=
  mkWorld (documents w) (versions w) (chunks_fts w) (files w)
    (history w ++ replicate n (EvRun tex_source)).

(** The row [v] once [promote_draft_to_saved] has relabeled it, at time
    [t]: same [id], [tex_source], [plain_text] and [created_at]. *)
Definition promoted (E : Env) (doc_id : Z) (t : Z) (v : Version) : Version :=
  mkVersion (v_id v) (v_doc_id v) saved (tex_source v)
    (_generated_pdf_path E doc_id saved) (plain_text v) (v_created_at v) t.

(** The files after [shutil.copyfile(src, dst)] when [src] exists, the same
    files otherwise. *)
Definition copied (src dst : str) (fs : gmap str blob) : gmap str blob :=
  from_option (fun b => <[dst := b]> fs) fs (fs !! src).

(** The calls of [compile_tex_to_pdf] in a history. *)
Definition is_compile (ev : Event) : bool :=
  match ev with EvCompile _ _ _ => true | _ => false end.
Definition compile_calls (h : list Event) : nat :=
  length (List.filter is_compile h).

(** ** Fixtures: concrete environments and worlds *)

(** What the extractor raises on a file it cannot open; [str(e)] has 2529
    characters. *)
Definition no_pdf_text : result str :=
  Raise (OtherException (utf8 "FileDataError")
           (utf8 "cannot open broken document: " ++ replicate 2500 46%N)).

(** A provider with eight models, none of which has an endpoint. *)
Definition env_no_endpoints : Env :=
  mkEnv (utf8 "storage/generated") 2 (utf8 "openrouter") (utf8 "sk-1")
    (utf8 "auto")
    (fun h => 1000000 * Z.of_nat (length h))
    (fun _ _ _ =>
       Ok (mkResponse false 404 (utf8 "No endpoints found") (Raise (RuntimeError []))))
    (fun _ => Ok ((fun i => utf8 "m" ++ str_of_nat i) <$> seq 1 8))
    (fun _ _ _ => mkCompletedProcess 0 [] (Some []))
    (fun _ => no_pdf_text)
    (fun s => s) (fun s _ => s) (fun s => s) (fun s _ _ _ _ _ => s)
    (fun s => s).

Definition empty_world : World := mkWorld ∅ [] [] ∅ [].

(** A provider that answers: model [m1] returns a body. The clock and the
    engine are given. *)
Definition env_with (clock : list Event -> Z)
    (engine : list Event -> str -> option blob -> CompletedProcess) : Env :=
  mkEnv (utf8 "storage/generated") 2 (utf8 "openrouter") (utf8 "sk-1")
    (utf8 "m1") clock
    (fun _ _ _ => Ok (mkResponse true 200 [] (Ok ([], Some (utf8 "Body")))))
    (fun _ => Ok [])
    engine
    (fun b => match b with Some _ => Ok (utf8 "Hello world.") | None => no_pdf_text end)
    (fun s => s) (fun s _ => s) (fun s => s) (fun s _ _ _ _ _ => s)
    (fun s => s).

Definition pdf_bytes : blob := utf8 "%PDF-1.5".

(** Every pass exits with 0 and leaves [main.pdf]. *)
Definition engine_ok (h : list Event) (tex_source : str) (pdf : option blob)
    : CompletedProcess :=
  mkCompletedProcess 0 (utf8 "Output written") (Some pdf_bytes).

(** The passes of the first compilation exit with 1, the later ones
    with 0. *)
Definition engine_retry (h : list Event) (tex_source : str)
    (pdf : option blob) : CompletedProcess :=
  if bool_decide (compile_calls h <= 1)%nat
  then mkCompletedProcess 1 (utf8 "! Undefined control sequence.") None
  else engine_ok h tex_source pdf.

(** One second passes per call of the outside. *)
Definition env_ok : Env :=
  env_with (fun h => 1000000 * Z.of_nat (length h)) engine_ok.
Definition env_retry : Env :=
  env_with (fun h => 1000000 * Z.of_nat (length h)) engine_retry.

(** Document 1, with its editor open and a heartbeat at time 0. *)
Definition doc_1 : Document :=
  mkDocument 1 1 (utf8 "a.pdf") 8 (utf8 "storage/original/1.pdf")
    (Some (utf8 "Hello world.")) ready None true (Some 0) 0 0.

Definition saved_row_1 : Version :=
  mkVersion 1 1 saved (utf8 "old tex")
    (utf8 "storage/generated/doc_1_saved.pdf") (utf8 "old text")
    1000000 1000000.

Definition draft_row_1 : Version :=
  mkVersion 2 1 draft (utf8 "new tex")
    (utf8 "storage/generated/doc_1_draft.pdf") (utf8 "new text")
    2000000 2000000.

(** Document 1 just uploaded and ingested. *)
Definition world_uploaded : World :=
  mkWorld {[ 1 := doc_1 ]} []
    [mkChunk 1 original (utf8 "0") (utf8 "Hello world.")]
    {[ utf8 "storage/original/1.pdf" := pdf_bytes ]} [].

(** Document 2, whose original is not on disk. *)
Definition doc_2 : Document :=
  mkDocument 2 1 (utf8 "b.pdf") 8 (utf8 "storage/original/2.pdf") None
    (utf8 "queued") None true (Some 0) 0 0.
Definition world_lost_original : World :=
  mkWorld {[ 2 := doc_2 ]} [] [] ∅ [].

(** Document 1 with a saved version and a draft, the index in step. *)
Definition world_draft_and_saved : World :=
  mkWorld {[ 1 := doc_1 ]} [saved_row_1; draft_row_1]
    [mkChunk 1 original (utf8 "0") (utf8 "Hello world.");
     mkChunk 1 saved (utf8 "0") (utf8 "old text");
     mkChunk 1 draft (utf8 "0") (utf8 "new text")]
    (<[utf8 "storage/original/1.pdf" := pdf_bytes]>
       (<[utf8 "storage/generated/doc_1_saved.pdf" := utf8 "old pdf"]>
          {[ utf8 "storage/generated/doc_1_draft.pdf" := utf8 "new pdf" ]}))
    [].

(** ... and after the draft was promoted. *)
Definition world_promoted : World :=
  snd (promote_draft_to_saved env_ok 1 world_draft_and_saved).

(** The worlds a transform job of document 1 goes through, with the engine
    that fails once and with the slow clock. *)
Definition retry_wa : World := snd (mark_processing env_retry 1 world_uploaded).
Definition retry_wb : World :=
  snd (transform_prompts env_retry 1 original false false false [] retry_wa).
Definition retry_w1 : World :=
  snd (call_llm_tex env_retry system_prompt (utf8 "Hello world.") retry_wb).
Definition retry_ce : exn :=
  LatexCompileError (utf8 "! Undefined control sequence.").
Definition retry_w2 : World :=
  snd (compile_tex_to_pdf env_retry (utf8 "Body")
         (_generated_pdf_path env_retry 1 draft) false retry_w1).


(** ** app/tex_utils.py *)

Module tex_utils.

(** [_SPECIALS]: the keys are strings of one character. *)
Definition _SPECIALS : gmap str str :=
  list_to_map
    [(utf8 "\", utf8 "\textbackslash{}");
     (utf8 "&", utf8 "\&");
     (utf8 "%", utf8 "\%");
     (utf8 "$", utf8 "\$");
     (utf8 "#", utf8 "\#");
     (utf8 "_", utf8 "\_");
     (utf8 "{", utf8 "\{");
     (utf8 "}", utf8 "\}");
     (utf8 "~", utf8 "\textasciitilde{}");
     (utf8 "^", utf8 "\textasciicircum{}")].

(** [escape_tex(s)]: [out] is the list of the pieces, joined at the end. *)
Definition escape_tex (s : str) : str :=
  let out := (fun ch => default [ch] (_SPECIALS !! [ch])) <$> s in
  concat out.

(** [hay.find(needle)]: the first index at which [needle] occurs. *)
Fixpoint find (needle hay : str) : option nat :=
  if bool_decide (take (length needle) hay = needle) then Some 0%nat
  else
    match hay with
    | [] => None
    | _ :: hay' => S <$> find needle hay'
    end.

(** [hay.rfind(needle)]: the last index at which [needle] occurs. *)
Fixpoint rfind (needle hay : str) : option nat :=
  let here :=
    if bool_decide (take (length needle) hay = needle) then Some 0%nat
    else None in
  match hay with
  | [] => here
  | _ :: hay' =>
      match rfind needle hay' with
      | Some j => Some (S j)
      | None => here
      end
  end.

Definition begin_document : str := utf8 "\begin{document}".
Definition end_document : str := utf8 "\end{document}".

(** [re.search] of [extract_body], with [flags=re.S], giving [m.group(1)].
    The pattern is the literal [\begin{document}], a greedy group that takes
    any characters, line ends included, and the literal [\end{document}]:
    the match starts at the first [\begin{document}] (when no
    [\end{document}] follows the first one, none follows a later one) and
    ends with the last [\end{document}] after it. *)
Definition search_document (tex : str) : option str :=
  i ← find begin_document tex;
  let rest := drop (i + length begin_document) tex in
  j ← rfind end_document rest;
  Some (take j rest).

Definition extract_body (tex : str) : str :=
  match search_document tex with
  | Some group1 => strip group1
  | None => strip tex
  end.

Section Sanitize.
(** The three [re.sub] of [sanitize_body], in order, which remove a table of
    contents from the body; they are not modelled. *)
Variable re_subs : str -> str.

Definition sanitize_body (body : str) : str := strip (re_subs body).

Definition preamble : str :=
  strip
    (nl ++ utf8 "\documentclass[12pt]{article}" ++ nl
     ++ utf8 "\usepackage[a4paper,margin=2.5cm]{geometry}" ++ nl
     ++ utf8 "\usepackage{fontspec}" ++ nl
     ++ utf8 "\usepackage{polyglossia}" ++ nl
     ++ utf8 "\setmainlanguage{russian}" ++ nl
     ++ utf8 "\setotherlanguage{english}" ++ nl
     ++ utf8 "\setmainfont{DejaVu Serif}" ++ nl
     ++ utf8 "\usepackage{microtype}" ++ nl
     ++ utf8 "\usepackage{setspace}" ++ nl
     ++ utf8 "\setstretch{1.12}" ++ nl
     ++ utf8 "\usepackage{parskip}" ++ nl
     ++ utf8 "\setlength{\parindent}{0pt}" ++ nl
     ++ utf8 "\usepackage{hyperref}" ++ nl
     ++ utf8 "\hypersetup{colorlinks=true, linkcolor=blue, urlcolor=blue}"
     ++ nl
     ++ utf8 "\usepackage{enumitem}" ++ nl
     ++ utf8 "\setlist{nosep}" ++ nl
     ++ utf8 "\usepackage{bookmark}" ++ nl).

Definition make_full_tex (body : str) (toc : bool) : str :=
  let body := sanitize_body body in
  let toc_block := if toc then utf8 "\tableofcontents\newpage" else [] in
  preamble
  ++ (nl ++ nl ++ utf8 "\begin{document}" ++ nl)
  ++ (match toc_block with [] => [] | _ => toc_block ++ nl ++ nl end)
  ++ body
  ++ (nl ++ nl ++ utf8 "\end{document}" ++ nl).
End Sanitize.

End tex_utils.

(** The code points of the keys of [_SPECIALS]. *)
Definition special_chars : list N :=
  [92; 38; 37; 36; 35; 95; 123; 125; 126; 94]%N.

(** ** app/llm.py: the ranking of the catalog *)

Module llm.

(** An entry [m] of the catalog, as far as [pick_models] reads it: [m_id] is
    [m.get("id")] when that is a [str]; [m_endpoints] is the length of
    [m.get("endpoints")] when that is a [list]; [m_top_provider] is the
    truth value of [m.get("top_provider")]. *)
Record Model := mkModel {
  m_id : option str;
  m_endpoints : option nat;
  m_top_provider : bool
}.

Definition _endpoints_count (m : Model) : Z :=
  match m_endpoints m with
  | Some n => Z.of_nat n
  | None => 1
  end.

Definition default_prefer : list str :=
  [utf8 "deepseek/deepseek-chat"; utf8 "deepseek/deepseek-r1";
   utf8 "openai/gpt-4o-mini"; utf8 "google/gemini"; utf8 "anthropic/claude"].

(** [mid.startswith(p)] *)
Definition startswith (mid p : str) : bool :=
  bool_decide (take (length p) mid = p).

(** [for i, p in enumerate(prefer): ...], from the index [i] on; gives
    [score]. *)
Fixpoint prefer_score (prefer : list str) (i : Z) (mid : str) : Z :=
  match prefer with
  | [] => 0
  | p :: prefer' =>
      if startswith mid p then 1000 - i * 10
      else prefer_score prefer' (i + 1) mid
  end.

Definition score_of (prefer : list str) (m : Model) (mid : str) : Z :=
  let score := prefer_score prefer 0 mid in
  if m_top_provider m then score + 3 else score.

(** The first loop: the [(score, mid)] of the entries that have an id and an
    endpoint. *)
Fixpoint score_models (prefer : list str) (models : list Model)
    : list (Z * str) :=
  match models with
  | [] => []
  | m :: models' =>
      match m_id m with
      | None => score_models prefer models'
      | Some mid =>
          if bool_decide (_endpoints_count m <= 0)
          then score_models prefer models'
          else (score_of prefer m mid, mid) :: score_models prefer models'
      end
  end.

(** [a <= b] on [str]: by code points, a prefix first. *)
Fixpoint str_le (a b : str) : bool :=
  match a, b with
  | [], _ => true
  | _ :: _, [] => false
  | x :: a', y :: b' => (x <? y)%N || ((x =? y)%N && str_le a' b')
  end.

(** [a <= b] on the tuples [(score, mid)]. *)
Definition tuple_le (a b : Z * str) : bool :=
  (a.1 <? b.1) || ((a.1 =? b.1) && str_le a.2 b.2).

(** The order of [scored.sort(reverse=True)]. *)
Definition tuple_ge (a b : Z * str) : Prop := tuple_le b a.

(** The second loop, with [chosen] and [seen] as they are when it reaches
    [scored]. *)
Fixpoint choose (limit : Z) (scored : list (Z * str)) (chosen : list str)
    (seen : gset str) : list str :=
  match scored with
  | [] => chosen
  | (_, mid) :: scored' =>
      if bool_decide (mid ∈ seen) then choose limit scored' chosen seen
      else
        let chosen := chosen ++ [mid] in
        let seen := {[ mid ]} ∪ seen in
        if bool_decide (limit <= Z.of_nat (length chosen)) then chosen
        else choose limit scored' chosen seen
  end.

(** [l[:limit]] *)
Definition slice_to {A} (limit : Z) (l : list A) : list A :=
  if bool_decide (limit < 0)
  then take (length l - Z.to_nat (- limit)) l
  else take (Z.to_nat limit) l.

(** [pick_models(prefer, limit)], given what [_get_models()] returned. *)
Definition pick_models (models : list Model) (prefer : option (list str))
    (limit : Z) : list str :=
  let ids := omap m_id models in
  let prefer :=
    match prefer with
    | None | Some [] => default_prefer
    | Some prefer => prefer
    end in
  let scored := score_models prefer models in
  let scored := merge_sort tuple_ge scored in
  let chosen := choose limit scored [] ∅ in
  match chosen, ids with
  | [], _ :: _ => slice_to limit ids
  | _, _ => chosen
  end.

End llm.

(** ** app/server.py *)

(** [_pdf_url(doc_id, v, has_saved, has_draft)] *)
Definition _pdf_url (doc_id : Z) (v : str) (has_saved has_draft : bool)
    : str :=
  if bool_decide (v = saved) && has_saved then
    utf8 "/file/generated/" ++ str_of_Z doc_id ++ utf8 "_saved.pdf"
  else if bool_decide (v = draft) && has_draft then
    utf8 "/file/generated/" ++ str_of_Z doc_id ++ utf8 "_draft.pdf"
  else utf8 "/file/original/" ++ str_of_Z doc_id ++ utf8 ".pdf".

(** What a handler answers: [PlainTextResponse(content, status_code)],
    [RedirectResponse(url, status_code=303)], or the page of [doc_view] with
    the view [v] and the link [pdf_url] in its context. *)
Inductive Reply :=
| PlainTextResponse (content : str) (status_code : Z)
| RedirectResponse (url : str)
| TemplateResponse (v pdf_url : str).

(** [doc_view] after its session (lines 244-279), from the query parameter
    [v] and the locals the session leaves: [doc.status], [has_saved],
    [has_draft], [saved_pdf_ready] and [draft_pdf_ready]. The view names are
    ASCII, and no character outside ASCII has a lower case that makes one
    of them, so [lower] decides the membership test as [str.lower] does. *)
Definition doc_view (doc_id : Z) (v : option str) (doc_status : str)
    (has_saved has_draft saved_pdf_ready draft_pdf_ready : bool) : Reply :=
  let req_v := strip (lower (default [] v)) in
  let req_v :=
    if bool_decide (req_v ∉ [[]; original; saved; draft]) then [] else req_v in
  let busy := bool_decide (doc_status ∈ [utf8 "queued"; processing]) in
  let effective_v :=
    if bool_decide (req_v = []) then
      if busy || has_draft then draft
      else if has_saved then saved
      else original
    else if bool_decide (req_v = saved) then
      if has_saved then saved
      else if busy || has_draft then draft
      else original
    else if bool_decide (req_v = draft) then
      if busy || has_draft then draft
      else if has_saved then saved
      else original
    else original in
  if bool_decide (effective_v ≠ str_or req_v []) then
    RedirectResponse
      (utf8 "/doc/" ++ str_of_Z doc_id ++ utf8 "?v=" ++ effective_v)
  else
    let pdf_url :=
      if bool_decide (effective_v = saved) && negb saved_pdf_ready then
        utf8 "/file/original/" ++ str_of_Z doc_id ++ utf8 ".pdf"
      else if bool_decide (effective_v = draft) && negb draft_pdf_ready then
        utf8 "/file/original/" ++ str_of_Z doc_id ++ utf8 ".pdf"
      else _pdf_url doc_id effective_v has_saved has_draft in
    TemplateResponse effective_v pdf_url.

(** ** app/access.py and the handlers of app/server.py *)

Definition set_editor_open (x : bool) (d : Document) : Document :=
  mkDocument (d_id d) (owner_id d) (filename d) (d_size d) (original_path d)
    (extracted_text d) (status d) (last_error d) x (editor_heartbeat_at d)
    (d_created_at d) (d_updated_at d).
Definition set_editor_heartbeat_at (x : option Z) (d : Document) : Document :=
  mkDocument (d_id d) (owner_id d) (filename d) (d_size d) (original_path d)
    (extracted_text d) (status d) (last_error d) (editor_open d) x
    (d_created_at d) (d_updated_at d).

(** The rows of [doc_shares], each as [(doc_id, user_id)]. The handlers
    below read the table and do not write it, so it is a parameter. *)
Abbreviation Shares := (list (Z * Z)) (only parsing).

(** [can_access_doc(user_id, doc_id)]: the document joined with its shares,
    kept when the user owns it or has a share. *)
Definition can_access_doc (shares : Shares) (user_id doc_id : Z)
    : M (option Document) :=
  db_session
    (gets (fun w =>
       doc ← documents w !! doc_id;
       if bool_decide (owner_id doc = user_id)
          || bool_decide ((doc_id, user_id) ∈ shares)
       then Some doc else None)).

(** [is_owner(user_id, doc)] *)
Definition is_owner (user_id : Z) (doc : Document) : bool :=
  bool_decide (owner_id doc = user_id).

(** [_access_role(s, user_id, doc_id)] *)
Definition _access_role (shares : Shares) (user_id doc_id : Z)
    : M (option Document * str) :=
  doc ← get_document doc_id;
  match doc with
  | None => mret (None, utf8 "not_found")
  | Some doc =>
      if bool_decide (owner_id doc = user_id) then mret (Some doc, utf8 "owner")
      else if bool_decide ((doc_id, user_id) ∈ shares)
      then mret (Some doc, utf8 "shared")
      else mret (Some doc, utf8 "no_access")
  end.

(** The session of [close_editor] and [close_editor_page]. *)
Definition close_session (E : Env) (doc_id : Z) : M unit :=
  db_session
    (d ← get_document doc_id;
     match d with
     | Some _ =>
         t ← now E;
         update_document doc_id
           (fun d => set_updated_at t
                       (set_editor_heartbeat_at None (set_editor_open false d)))
     | None => mret tt
     end).

(** [close_editor(request, doc_id)], for the user [require_user] returned. *)
Definition close_editor (E : Env) (shares : Shares) (user_id doc_id : Z)
    : M Reply :=
  doc0 ← can_access_doc shares user_id doc_id;
  match doc0 with
  | None => mret (PlainTextResponse (utf8 "Not found") 404)
  | Some _ =>
      close_session E doc_id;;
      discard_draft E doc_id;;
      mret (PlainTextResponse (utf8 "ok") 200)
  end.

(** [close_editor_page(request, doc_id)] *)
Definition close_editor_page (E : Env) (shares : Shares) (user_id doc_id : Z)
    : M Reply :=
  doc0 ← can_access_doc shares user_id doc_id;
  match doc0 with
  | None => mret (PlainTextResponse (utf8 "Not found") 404)
  | Some _ =>
      close_session E doc_id;;
      discard_draft E doc_id;;
      mret (RedirectResponse (utf8 "/app"))
  end.

(** [save_changes(request, doc_id)]. The session returns the redirect of an
    early [return], or [None] when it is left at its end. *)
Definition save_changes (E : Env) (shares : Shares) (user_id doc_id : Z)
    : M Reply :=
  doc0 ← can_access_doc shares user_id doc_id;
  match doc0 with
  | None => mret (PlainTextResponse (utf8 "Not found") 404)
  | Some _ =>
      try_except
        (early ←
           db_session
             (doc ← get_document doc_id;
              d ← query_version doc_id draft;
              match doc, d with
              | Some doc, Some draft_row =>
                  ex ← os_path_exists (pdf_path draft_row);
                  if bool_decide (status doc ≠ ready)
                     || negb (bool_decide (pdf_path draft_row ≠ []) && ex)
                  then
                    mret (Some (RedirectResponse
                                  (utf8 "/doc/" ++ str_of_Z doc_id
                                     ++ utf8 "?v=draft")))
                  else mret None
              | _, _ =>
                  mret (Some (RedirectResponse
                                (utf8 "/doc/" ++ str_of_Z doc_id
                                   ++ utf8 "?v=saved")))
              end);
         match early with
         | Some reply => mret reply
         | None =>
             promote_draft_to_saved E doc_id;;
             mret (RedirectResponse
                     (utf8 "/doc/" ++ str_of_Z doc_id ++ utf8 "?v=saved"))
         end)
        (fun e =>
           db_session
             (doc ← get_document doc_id;
              match doc with
              | Some _ =>
                  t ← now E;
                  update_document doc_id
                    (fun d => set_updated_at t
                                (set_status error
                                   (set_last_error (Some (exn_str e)) d)))
              | None => mret tt
              end);;
           mret (RedirectResponse
                   (utf8 "/doc/" ++ str_of_Z doc_id ++ utf8 "?v=draft")))
  end.

(** ** More vocabulary and inputs *)

(** The requests to the rewrite provider in a history. *)
Definition is_llm_call (ev : Event) : bool :=
  match ev with EvPost _ _ | EvPickModels => true | _ => false end.
Definition llm_calls (h : list Event) : nat :=
  length (List.filter is_llm_call h).

(** Document 3, whose editor was closed. *)
Definition doc_3 : Document :=
  mkDocument 3 1 (utf8 "c.pdf") 8 (utf8 "storage/original/3.pdf")
    (Some (utf8 "Hello world.")) ready None false None 0 0.
Definition world_closed : World :=
  mkWorld {[ 3 := doc_3 ]} [] []
    {[ utf8 "storage/original/3.pdf" := pdf_bytes ]} [].

(** The rewrite provider switched off: [LLM_PROVIDER=none]. *)
Definition env_disabled : Env :=
  mkEnv (utf8 "storage/generated") 2 (utf8 "none") (utf8 "sk-1")
    (utf8 "auto")
    (fun h => 1000000 * Z.of_nat (length h))
    (fun _ _ _ => Ok (mkResponse true 200 [] (Ok ([], Some (utf8 "Body")))))
    (fun _ => Ok [])
    engine_ok
    (fun _ => no_pdf_text)
    (fun s => s) (fun s _ => s) (fun s => s) (fun s _ _ _ _ _ => s)
    (fun s => s).

(** A catalog: three entries that can be used, two of them of preferred
    families and one without a list of endpoints, then an entry without an
    id and one whose list of endpoints is empty. *)
Definition catalog : list llm.Model :=
  [llm.mkModel (Some (utf8 "acme/small")) None false;
   llm.mkModel (Some (utf8 "openai/gpt-4o-mini")) (Some 2%nat) true;
   llm.mkModel (Some (utf8 "deepseek/deepseek-chat-v3")) (Some 1%nat) false;
   llm.mkModel None None true;
   llm.mkModel (Some (utf8 "acme/retired")) (Some 0%nat) true].

(** * Properties *)

(** ** Search index: [chunk_text] and [fts_rebuild] *)

Section Chunking.
Variable t : str.
Variable n : nat.
Hypothesis n_pos : (0 < n)%nat.

Lemma slice_window start :
  (start < length t)%nat ->
  slice start (length t `min` (start + n)) t = take n (drop start t).
Proof.
  intros Hlt. unfold slice.
  destruct (Nat.min_spec (length t) (start + n)) as [[Hc ->]|[Hc ->]].
  - rewrite !take_ge; [done| |]; rewrite length_drop; lia.
  - f_equal. lia.
Qed.

Lemma drop_window start :
  (start < length t)%nat ->
  drop (length t `min` (start + n)) t = drop n (drop start t).
Proof.
  intros Hlt. rewrite drop_drop.
  destruct (Nat.min_spec (length t) (start + n)) as [[Hc ->]|[Hc ->]].
  - rewrite !drop_ge; [done| |]; lia.
  - done.
Qed.

(** The loop appends to [chunks] the windows of width [n] of [t] from
    [start] on, and [length t - start] iterations are enough. *)
Lemma chunk_loop_spec fuel : forall start chunks,
  (start <= length t)%nat ->
  (length t - start <= fuel)%nat ->
  exists new,
    chunk_loop fuel t n start chunks = chunks ++ new
    /\ concat new = drop start t
    /\ (length t - start <= length new * n < length t - start + n)%nat
    /\ forall i c, new !! i = Some c ->
         c = take n (drop (start + i * n) t).
Proof.
  induction fuel as [|fuel IH]; intros start chunks Hle Hfuel.
  - exists []. cbn [chunk_loop]. rewrite app_nil_r.
    rewrite drop_ge by lia. repeat split; cbn; try lia.
    intros i c Hi. destruct i; discriminate.
  - cbn [chunk_loop]. destruct (Nat.ltb_spec start (length t)) as [Hlt|Hge].
    + set (end_ := (length t `min` (start + n))%nat).
      destruct (IH end_ (chunks ++ [slice start end_ t])) as
        (new & Hrun & Hcat & Hlen & Hnth); [unfold end_; lia..|].
      exists (slice start end_ t :: new). split; [|split; [|split]].
      * rewrite Hrun. by rewrite <- app_assoc.
      * cbn [concat]. rewrite Hcat. unfold end_.
        rewrite slice_window, drop_window by done. apply take_drop.
      * cbn [length]. rewrite Nat.mul_succ_l. unfold end_ in Hlen.
        destruct (Nat.min_spec (length t) (start + n)) as [[Hc Hm]|[Hc Hm]];
          rewrite Hm in Hlen.
        -- assert (length new = 0%nat) as -> by nia. lia.
        -- lia.
      * intros [|i] c Hi.
        -- cbn in Hi. injection Hi as <-. unfold end_.
           rewrite slice_window by done. by rewrite Nat.add_0_r.
        -- cbn in Hi. rewrite (Hnth _ _ Hi). unfold end_.
           destruct (Nat.min_spec (length t) (start + n))
             as [[Hc Hm]|[Hc Hm]]; rewrite Hm.
           ++ unfold end_ in Hlen. rewrite Hm in Hlen.
              assert (length new = 0%nat) as Hz by nia.
              destruct new; [destruct i; discriminate|done].
           ++ do 2 f_equal. lia.
    + exists []. rewrite app_nil_r, drop_ge by lia.
      repeat split; cbn; try lia.
      intros i c Hi. destruct i; discriminate.
Qed.

(** More fuel changes nothing: the loop is left through its guard. *)
Lemma chunk_loop_fuel fuel fuel' start chunks :
  (start <= length t)%nat ->
  (length t - start <= fuel)%nat -> (length t - start <= fuel')%nat ->
  chunk_loop fuel t n start chunks = chunk_loop fuel' t n start chunks.
Proof.
  revert fuel' start chunks.
  induction fuel as [|fuel IH]; intros [|fuel'] start chunks Hle H1 H2;
    cbn [chunk_loop]; try done.
  - destruct (Nat.ltb_spec start (length t)); [lia|done].
  - destruct (Nat.ltb_spec start (length t)); [lia|done].
  - destruct (Nat.ltb_spec start (length t)); [|done]. apply IH; lia.
Qed.
End Chunking.

Lemma ceil_div_unique (m n k : nat) :
  (0 < n)%nat -> (m <= k * n < m + n)%nat -> k = ((m + n - 1) / n)%nat.
Proof.
  intros Hn [H1 H2].
  apply (Nat.div_unique _ _ _ (m + n - 1 - n * k)); nia.
Qed.

(** What [chunk_text] returns, for any positive width: the windows of the
    stripped text, in order. *)
Lemma chunk_text_spec (text : str) (n : nat) :
  (0 < n)%nat ->
  let t := strip text in
  let chunks := chunk_text text n in
  concat chunks = t
  /\ (length t <= length chunks * n < length t + n)%nat
  /\ forall i c, chunks !! i = Some c -> c = take n (drop (i * n) t).
Proof.
  intros Hn t chunks. unfold chunks, chunk_text. fold t.
  destruct t as [|c0 t'] eqn:Et.
  - split; [done|]. split; [cbn; lia|].
    intros i c Hi. destruct i; discriminate.
  - rewrite <- Et.
    destruct (chunk_loop_spec t n Hn (length t) 0%nat []) as
      (new & Hrun & Hcat & Hlen & Hnth); [lia..|].
    rewrite Hrun. cbn [app]. rewrite Nat.sub_0_r in Hlen.
    split; [done|]. split; [done|].
    intros i c Hi. by apply Hnth.
Qed.

Lemma chunk_text_lengths (text : str) (n : nat) i c :
  (0 < n)%nat ->
  chunk_text text n !! i = Some c ->
  ((S i < length (chunk_text text n))%nat -> length c = n)
  /\ (1 <= length c <= n)%nat.
Proof.
  intros Hn Hi. destruct (chunk_text_spec text n Hn) as (_ & Hlen & Hnth).
  pose proof (lookup_lt_Some _ _ _ Hi) as Hlt.
  rewrite (Hnth _ _ Hi), length_take, length_drop.
  pose proof (Nat.mul_le_mono_r (S i) _ n Hlt) as H1.
  rewrite Nat.mul_succ_l in H1.
  split; [intros Hlt'|lia].
  pose proof (Nat.mul_le_mono_r (S (S i)) _ n Hlt') as H2.
  rewrite !Nat.mul_succ_l in H2. lia.
Qed.

Lemma fts_insert_rows_spec doc_id kind rows : forall conn i,
  fts_insert_rows conn doc_id kind i rows
  = conn ++ imap (fun j c => mkChunk doc_id kind (str_of_nat (i + j)) c) rows.
Proof.
  induction rows as [|c rows IH]; intros conn i; cbn [fts_insert_rows imap].
  - by rewrite app_nil_r.
  - rewrite IH, <- app_assoc. cbn [app]. rewrite Nat.add_0_r.
    do 2 f_equal. apply imap_ext. intros j x _. cbn. do 2 f_equal. lia.
Qed.

Lemma fts_rebuild_spec conn doc_id kind text :
  fts_rebuild conn doc_id kind text
  = fts_delete conn doc_id kind
    ++ imap (fun i c => mkChunk doc_id kind (str_of_nat i) c)
         (chunk_text text 1000).
Proof. unfold fts_rebuild. by rewrite fts_insert_rows_spec. Qed.

Lemma fts_delete_none conn doc_id kind :
  chunks_of doc_id kind (fts_delete conn doc_id kind) = [].
Proof.
  unfold chunks_of, fts_delete. induction conn as [|c conn IH]; [done|].
  cbn [List.filter]. destruct (chunk_of doc_id kind c) eqn:Ec; cbn [negb].
  - done.
  - cbn [List.filter]. by rewrite Ec.
Qed.

(** C4, as the code has it. [fts_rebuild] first deletes every chunk of the
    (document, kind) pair and then appends one row per chunk, numbered from 0
    in order. The chunks are the windows of 1000 characters of
    [text.strip()], not of [text]: with [L] the length of the stripped text
    there are [ceil(L/1000)] of them, every chunk but the last has 1000
    characters, the last has between 1 and 1000, and their concatenation is
    the stripped text. For a text without white space at its ends this is
    the text itself. *)
Theorem fts_rebuild_chunks_stripped (conn : list Chunk) (doc_id : Z)
    (kind text : str) :
  let t := strip text in
  let chunks := chunk_text text 1000 in
  fts_rebuild conn doc_id kind text
  = fts_delete conn doc_id kind
    ++ imap (fun i c => mkChunk doc_id kind (str_of_nat i) c) chunks
  /\ chunks_of doc_id kind (fts_delete conn doc_id kind) = []
  /\ length chunks = ((length t + 999) / 1000)%nat
  /\ (forall i c, chunks !! i = Some c ->
        c = take 1000 (drop (i * 1000) t)
        /\ ((S i < length chunks)%nat -> length c = 1000%nat)
        /\ (1 <= length c <= 1000)%nat)
  /\ concat chunks = t
  /\ (strip text = text ->
      concat chunks = text
      /\ length chunks = ((length text + 999) / 1000)%nat).
Proof.
  intros t chunks.
  assert (0 < 1000)%nat as Hn by (apply Nat.lt_0_succ).
  destruct (chunk_text_spec text 1000 Hn) as (Hcat & Hlen & Hnth).
  assert (length chunks = ((length t + 999) / 1000)%nat) as Hceil.
  { rewrite (ceil_div_unique (length t) 1000 (length chunks) Hn Hlen).
    f_equal. lia. }
  split; [apply fts_rebuild_spec|]. split; [apply fts_delete_none|].
  split; [exact Hceil|]. split; [|split; [exact Hcat|]].
  - intros i c Hi. split; [by apply Hnth|].
    by apply chunk_text_lengths.
  - intros Heq. unfold t in Hceil. rewrite Heq in Hceil.
    split; [|exact Hceil]. unfold chunks. by rewrite Hcat.
Qed.

(** The scenarios of the specification: one chunk for ["Hello world."],
    chunks of 1000 and 500 characters for a text of 1500. *)
Example chunk_text_hello :
  chunk_text (utf8 "Hello world.") 1000 = [utf8 "Hello world."].
Proof. vm_compute. reflexivity. Qed.

Example chunk_text_1500 :
  length <$> chunk_text (replicate 1500 97%N) 1000 = [1000; 500]%nat.
Proof. vm_compute. reflexivity. Qed.

(** C4 fails as stated, on a text with white space at an end: the chunks of
    [" a"] concatenate to ["a"], and the one character of [" "] gives no
    chunk where [ceil(1/1000) = 1]. *)
Lemma chunk_text_not_original_text :
  concat (chunk_text (utf8 " a") 1000) <> utf8 " a"
  /\ length (chunk_text (utf8 " ") 1000)
     <> ((length (utf8 " ") + 999) / 1000)%nat.
Proof. split; vm_compute; discriminate. Qed.

(** ** Editor liveness *)

(** C7. [_editor_active] holds exactly when the editor is open, a heartbeat
    is present and its age is under 120 seconds (times in microseconds); a
    heartbeat 119 s old is active, one 120 s or 121 s old is not. *)
Theorem editor_active_iff (now : Z) (doc : Document) :
  (_editor_active now doc = true <->
     editor_open doc = true
     /\ exists heartbeat, editor_heartbeat_at doc = Some heartbeat
          /\ now - heartbeat < 120 * 1000000)
  /\ (forall heartbeat,
        editor_open doc = true ->
        editor_heartbeat_at doc = Some heartbeat ->
        _editor_active (heartbeat + 119 * 1000000) doc = true
        /\ _editor_active (heartbeat + 120 * 1000000) doc = false
        /\ _editor_active (heartbeat + 121 * 1000000) doc = false).
Proof.
  unfold _editor_active. split.
  - destruct (editor_open doc); cbn [negb].
    + destruct (editor_heartbeat_at doc) as [hb|].
      * rewrite Z.ltb_lt. split.
        -- intros H. split; [done|]. by exists hb.
        -- intros (_ & hb' & [= <-] & H). done.
      * split; [done|]. by intros (_ & hb' & [=] & _).
    + split; [done|]. by intros ([=] & _).
  - intros hb -> ->. cbn [negb].
    repeat split; [apply Z.ltb_lt|apply Z.ltb_ge..]; lia.
Qed.

(** ** Rewrite service: the fallback loop *)

Lemma post_chat_world E mid messages w :
  snd (_post_chat E mid messages w) = record (EvPost mid messages) w.
Proof.
  unfold _post_chat.
  destruct (requests_post E (history w) mid messages) as [r|e]; [|done].
  destruct (r_ok r); cbn [negb]; [|done].
  by destruct (r_json r) as [[j [content|]]|e].
Qed.

Lemma after_posts_nil messages w : after_posts messages [] w = w.
Proof. destruct w. unfold after_posts. cbn. by rewrite app_nil_r. Qed.

Lemma after_posts_cons messages mid mids w :
  after_posts messages (mid :: mids) w
  = after_posts messages mids (record (EvPost mid messages) w).
Proof. unfold after_posts, record. cbn. by rewrite <- app_assoc. Qed.

Lemma post_outcome_0 E messages w mid mids :
  post_outcome E messages w (mid :: mids) 0
  = Some (fst (_post_chat E mid messages w)).
Proof. unfold post_outcome. cbn. by rewrite after_posts_nil. Qed.

Lemma post_outcome_S E messages w mid mids i :
  post_outcome E messages w (mid :: mids) (S i)
  = post_outcome E messages (record (EvPost mid messages) w) mids i.
Proof. unfold post_outcome. cbn. by rewrite after_posts_cons. Qed.

(** The loop, by induction on the candidates: it stops at the first
    candidate that answers, and when none does it raises [last_err or
    "LLM failed"], [last_err] being the message of the last failure. *)
Lemma call_llm_loop_spec E messages : forall candidates last_err w,
  match call_llm_loop E candidates messages last_err w with
  | (Ok (out, mid), w') =>
      exists k,
        candidates !! k = Some mid
        /\ post_outcome E messages w candidates k = Some (Ok out)
        /\ (forall i, (i < k)%nat ->
              failed (post_outcome E messages w candidates i))
        /\ w' = after_posts messages (take (S k) candidates) w
  | (Raise e, w') =>
      (forall i, (i < length candidates)%nat ->
         failed (post_outcome E messages w candidates i))
      /\ w' = after_posts messages candidates w
      /\ exists m,
           e = RuntimeError (str_or m (utf8 "LLM failed"))
           /\ match candidates with
              | [] => m = last_err
              | _ => exists e_last,
                  post_outcome E messages w candidates
                    (length candidates - 1) = Some (Raise e_last)
                  /\ m = exn_str e_last
              end
  end.
Proof.
  induction candidates as [|mid rest IH]; intros last_err w.
  - cbn. split; [intros i Hi; lia|]. split; [by rewrite after_posts_nil|].
    by exists last_err.
  - cbn [call_llm_loop]. unfold try_except at 1, mbind, M_bind at 1.
    pose proof (post_chat_world E mid messages w) as Hw.
    destruct (_post_chat E mid messages w) as [[out|e0] w1] eqn:Hpost;
      cbn in Hw; subst w1.
    + cbn. exists 0%nat. split; [done|]. split.
      * by rewrite post_outcome_0, Hpost.
      * split; [intros i Hi; lia|]. cbn. by rewrite after_posts_cons, after_posts_nil.
    + assert (forall l,
        (if no_endpoints (exn_str e0)
         then call_llm_loop E rest messages l
         else call_llm_loop E rest messages l)
        = call_llm_loop E rest messages l) as Hif
        by (intros l; by destruct (no_endpoints _)).
      rewrite Hif. specialize (IH (exn_str e0) (record (EvPost mid messages) w)).
      destruct (call_llm_loop E rest messages (exn_str e0)
                  (record (EvPost mid messages) w)) as [[[out mid']|e] w'].
      * destruct IH as (k & Hk & Hok & Hfail & ->). exists (S k).
        split; [done|]. split; [by rewrite post_outcome_S|]. split.
        -- intros [|i] Hi.
           ++ exists e0. by rewrite post_outcome_0, Hpost.
           ++ rewrite post_outcome_S. apply Hfail. lia.
        -- by rewrite <- after_posts_cons.
      * destruct IH as (Hfail & -> & m & -> & Hm). split; [|split].
        -- intros [|i] Hi.
           ++ exists e0. by rewrite post_outcome_0, Hpost.
           ++ rewrite post_outcome_S. apply Hfail. cbn in Hi. lia.
        -- by rewrite <- after_posts_cons.
        -- exists m. split; [done|]. destruct rest as [|mid2 rest'].
           ++ subst m. exists e0. cbn [length Nat.sub].
              by rewrite post_outcome_0, Hpost.
           ++ destruct Hm as (e_last & Hlast & ->). exists e_last.
              split; [|done]. cbn [length] in *.
              replace (S (S (length rest')) - 1)%nat
                with (S (S (length rest') - 1)) by lia.
              by rewrite post_outcome_S.
Qed.

(** C8. [call_llm_tex] tries the candidates in order and at most six of
    them. A failure of a candidate, whatever its text, leads to the next
    candidate: the call returns the answer of the first candidate that
    answers after those before it failed, and when every attempted
    candidate failed it raises a [RuntimeError] with the message of the last
    failure. *)
Theorem call_llm_tex_fallback (E : Env) (system_prompt user_prompt : str)
    (w w1 : World) (cs : list str) :
  strip (lower (llm_provider E)) = utf8 "openrouter" ->
  openrouter_api_key E <> [] ->
  model_candidates E w = (Ok cs, w1) ->
  let messages :=
    [(utf8 "system", system_prompt); (utf8 "user", user_prompt)] in
  fallback_outcome E messages cs w1
    (fst (call_llm_tex E system_prompt user_prompt w))
    (snd (call_llm_tex E system_prompt user_prompt w)).
Proof.
  intros Hprov Hkey Hcs messages. unfold call_llm_tex. rewrite Hprov.
  rewrite (bool_decide_eq_false_2 (utf8 "openrouter" = utf8 "none"))
    by (vm_compute; discriminate).
  rewrite (bool_decide_eq_false_2 (utf8 "openrouter" ≠ utf8 "openrouter"))
    by (intros H; by apply H).
  rewrite (bool_decide_eq_false_2 _ Hkey).
  unfold mbind, M_bind. rewrite Hcs. fold messages.
  pose proof (call_llm_loop_spec E messages (take 6 cs) [] w1) as Hloop.
  unfold fallback_outcome. split; [rewrite length_take; lia|].
  destruct (call_llm_loop E (take 6 cs) messages [] w1)
    as [[[out mid]|e] w'] ; cbn [fst snd].
  - exact Hloop.
  - destruct Hloop as (Hfail & -> & m & -> & Hm).
    split; [done|]. split; [done|].
    destruct (take 6 cs) as [|c0 rest].
    + by subst m.
    + destruct Hm as (e_last & Hlast & ->). exists e_last.
      split; [done|]. split; [done|]. intros Hne.
      by destruct (exn_str e_last).
Qed.

(** Witness of C8: eight models without endpoints; six are tried. *)
Lemma call_llm_tex_fallback_witness :
  (strip (lower (llm_provider env_no_endpoints)) = utf8 "openrouter"
   /\ openrouter_api_key env_no_endpoints <> []
   /\ model_candidates env_no_endpoints empty_world
      = (Ok ((fun i => utf8 "m" ++ str_of_nat i) <$> seq 1 8),
         record EvPickModels empty_world))
  /\ fallback_outcome env_no_endpoints
       [(utf8 "system", utf8 "s"); (utf8 "user", utf8 "u")]
       ((fun i => utf8 "m" ++ str_of_nat i) <$> seq 1 8)
       (record EvPickModels empty_world)
       (fst (call_llm_tex env_no_endpoints (utf8 "s") (utf8 "u") empty_world))
       (snd (call_llm_tex env_no_endpoints (utf8 "s") (utf8 "u") empty_world)).
Proof.
  assert (strip (lower (llm_provider env_no_endpoints)) = utf8 "openrouter")
    as H1 by (vm_compute; reflexivity).
  assert (openrouter_api_key env_no_endpoints <> []) as H2
    by (vm_compute; discriminate).
  assert (model_candidates env_no_endpoints empty_world
          = (Ok ((fun i => utf8 "m" ++ str_of_nat i) <$> seq 1 8),
             record EvPickModels empty_world)) as H3
    by (vm_compute; reflexivity).
  split; [by repeat split|].
  exact (call_llm_tex_fallback env_no_endpoints (utf8 "s") (utf8 "u")
           empty_world _ _ H1 H2 H3).
Defined.

(** ** Compiler adapter *)

Section Passes.
Variable E : Env.
Variable tex_source : str.

Lemma after_runs_0 w : after_runs tex_source 0 w = w.
Proof. destruct w. unfold after_runs. cbn. by rewrite app_nil_r. Qed.

Lemma after_runs_S n w :
  after_runs tex_source (S n) w
  = after_runs tex_source n (record (EvRun tex_source) w).
Proof. unfold after_runs, record. cbn. by rewrite <- app_assoc. Qed.



End Passes.



(** ** Version state machine: promotion and discard *)

Lemma NoDup_fmap_filter {A B} (f : A -> B) (p : A -> bool) (l : list A) :
  NoDup (f <$> l) -> NoDup (f <$> List.filter p l).
Proof.
  induction l as [|x l IH]; [done|]. cbn [fmap list_fmap List.filter].
  rewrite NoDup_cons. intros [Hx Hl]. destruct (p x); [|by apply IH].
  cbn [fmap list_fmap]. apply NoDup_cons. split; [|by apply IH].
  intros Hin. apply Hx. apply list_elem_of_fmap in Hin as (y & -> & Hy).
  apply list_elem_of_fmap. exists y. split; [done|].
  apply list_elem_of_In, filter_In in Hy as [Hy _]. by apply list_elem_of_In.
Qed.

Section Relabel.
Variable doc_id : Z.
Variable dr : Version.
Variable f : Version -> Version.
Hypothesis dr_draft : version_of doc_id draft dr = true.
Hypothesis f_saved : version_of doc_id saved (f dr) = true.
Hypothesis f_not_draft : version_of doc_id draft (f dr) = false.

Lemma update_row_rest (vs : list Version) :
  (forall v, v ∈ vs -> v_id v <> v_id dr) ->
  (forall v, v ∈ vs -> version_of doc_id draft v = false) ->
  (forall v, v ∈ vs -> version_of doc_id saved v = false) ->
  versions_of doc_id saved (update_row dr f <$> vs) = []
  /\ versions_of doc_id draft (update_row dr f <$> vs) = [].
Proof.
  unfold versions_of.
  induction vs as [|v vs IH]; intros Hid Hd Hs; [done|].
  cbn [fmap list_fmap List.filter].
  assert (update_row dr f v = v) as ->
    by (unfold update_row; rewrite bool_decide_eq_false_2; [done|apply Hid; left]).
  rewrite Hd, Hs by left. apply IH; intros v' Hv'.
  - apply Hid. by right.
  - apply Hd. by right.
  - apply Hs. by right.
Qed.

Lemma update_row_versions (vs : list Version) :
  versions_pk vs -> uq_doc_kind vs -> dr ∈ vs ->
  (forall v, v ∈ vs -> version_of doc_id saved v = false) ->
  versions_of doc_id saved (update_row dr f <$> vs) = [f dr]
  /\ versions_of doc_id draft (update_row dr f <$> vs) = [].
Proof.
  unfold versions_pk, uq_doc_kind, versions_of.
  induction vs as [|v vs IH]; intros Hpk Huq Hin Hs.
  - by apply elem_of_nil in Hin.
  - cbn [fmap list_fmap] in Hpk, Huq.
    apply NoDup_cons in Hpk as [Hpk1 Hpk], Huq as [Huq1 Huq].
    cbn [fmap list_fmap List.filter].
    destruct (decide (v = dr)) as [->|Hne].
    + assert (update_row dr f dr = f dr) as ->
        by (unfold update_row; by rewrite bool_decide_eq_true_2).
      rewrite f_saved, f_not_draft.
      destruct (update_row_rest vs) as [H1 H2].
      * intros v Hv Heq. apply Hpk1. apply list_elem_of_fmap.
        exists v. by split.
      * intros v Hv. destruct (version_of doc_id draft v) eqn:Hv'; [|done].
        exfalso. apply Huq1. apply list_elem_of_fmap. exists v.
        split; [|done]. unfold version_of in *.
        apply andb_true_iff in Hv' as [?%bool_decide_eq_true ?%bool_decide_eq_true].
        apply andb_true_iff in dr_draft as [?%bool_decide_eq_true ?%bool_decide_eq_true].
        congruence.
      * intros v Hv. apply Hs. by right.
      * unfold versions_of in H1, H2. by rewrite H1, H2.
    + apply elem_of_cons in Hin as [Heq|Hin]; [congruence|].
      assert (update_row dr f v = v) as ->.
      { unfold update_row. rewrite bool_decide_eq_false_2; [done|].
        intros Heq. apply Hpk1. apply list_elem_of_fmap. exists dr.
        by split. }
      rewrite (Hs v) by left.
      assert (version_of doc_id draft v = false) as ->.
      { destruct (version_of doc_id draft v) eqn:Hv'; [|done].
        exfalso. apply Huq1. apply list_elem_of_fmap. exists dr.
        split; [|done]. unfold version_of in *.
        apply andb_true_iff in Hv' as [?%bool_decide_eq_true ?%bool_decide_eq_true].
        apply andb_true_iff in dr_draft as [?%bool_decide_eq_true ?%bool_decide_eq_true].
        congruence. }
      apply IH; try done. intros v' Hv'. apply Hs. by right.
Qed.
End Relabel.

Lemma NoDup_fmap_eq {A B} (f : A -> B) (l : list A) a b :
  NoDup (f <$> l) -> a ∈ l -> b ∈ l -> f a = f b -> a = b.
Proof.
  induction l as [|x l IH]; intros Hnd Ha Hb Hf.
  - by apply elem_of_nil in Ha.
  - cbn [fmap list_fmap] in Hnd. apply NoDup_cons in Hnd as [Hx Hnd].
    apply elem_of_cons in Ha as [->|Ha], Hb as [->|Hb]; try done.
    + exfalso. apply Hx. apply list_elem_of_fmap. by exists b.
    + exfalso. apply Hx. apply list_elem_of_fmap. by exists a.
    + by apply IH.
Qed.

Lemma find_elem_of {A} (p : A -> bool) (l : list A) x :
  List.find p l = Some x -> x ∈ l /\ p x = true.
Proof.
  intros H. apply find_some in H as [H1 H2]. split; [|done].
  by apply list_elem_of_In.
Qed.

Lemma find_none_elem_of {A} (p : A -> bool) (l : list A) x :
  List.find p l = None -> x ∈ l -> p x = false.
Proof. intros H Hx. apply (find_none _ _ H). by apply list_elem_of_In. Qed.

Lemma filter_elem_of {A} (p : A -> bool) (l : list A) x :
  x ∈ List.filter p l <-> x ∈ l /\ p x = true.
Proof. rewrite !list_elem_of_In. apply filter_In. Qed.

Lemma version_of_key doc_id k v :
  version_of doc_id k v = true <-> (v_doc_id v, kind v) = (doc_id, k).
Proof.
  unfold version_of. rewrite andb_true_iff, !bool_decide_eq_true.
  split; [intros [-> ->]; done|]. by intros [= -> ->].
Qed.

Lemma draft_not_saved : draft <> saved.
Proof. vm_compute. discriminate. Qed.

Lemma find_none_intro {A} (p : A -> bool) (l : list A) :
  (forall x, x ∈ l -> p x = false) -> List.find p l = None.
Proof.
  induction l as [|x l IH]; intros H; [done|]. cbn [List.find].
  rewrite (H x) by left. apply IH. intros y Hy. apply H. by right.
Qed.

(** Under the unique constraint, the row found for a (document, kind) pair
    is the only one: once it is deleted no row of the pair is left. *)
Lemma delete_row_unique doc_id k (vs : list Version) old :
  uq_doc_kind vs ->
  List.find (version_of doc_id k) vs = Some old ->
  List.find (version_of doc_id k)
    (List.filter (fun v' => bool_decide (v_id v' ≠ v_id old)) vs) = None.
Proof.
  intros Huq [Hold Hok]%find_elem_of. apply find_none_intro.
  intros v [Hv Hid%bool_decide_eq_true]%filter_elem_of.
  destruct (version_of doc_id k v) eqn:Hk; [|done].
  apply version_of_key in Hk, Hok. exfalso. apply Hid. f_equal.
  apply (NoDup_fmap_eq _ _ _ _ Huq Hv Hold). congruence.
Qed.

(** After the deletion of the old saved row. *)
Lemma evict_saved doc_id (vs : list Version) dr old :
  versions_pk vs -> uq_doc_kind vs ->
  List.find (version_of doc_id draft) vs = Some dr ->
  List.find (version_of doc_id saved) vs = Some old ->
  let vs' := List.filter (fun v' => bool_decide (v_id v' ≠ v_id old)) vs in
  versions_pk vs' /\ uq_doc_kind vs' /\ dr ∈ vs'
  /\ (forall v, v ∈ vs' -> version_of doc_id saved v = false)
  /\ (forall v, v ∈ vs' -> v_id v <> v_id old).
Proof.
  intros Hpk Huq [Hdr Hdk]%find_elem_of [Hold Hok]%find_elem_of vs'.
  split; [by apply NoDup_fmap_filter|]. split; [by apply NoDup_fmap_filter|].
  apply version_of_key in Hdk, Hok. split; [|split].
  - apply filter_elem_of. split; [done|]. apply bool_decide_eq_true.
    intros Heq. pose proof (NoDup_fmap_eq _ _ _ _ Hpk Hdr Hold Heq) as ->.
    apply draft_not_saved. congruence.
  - intros v [Hv Hid%bool_decide_eq_true]%filter_elem_of.
    destruct (version_of doc_id saved v) eqn:Hk; [|done].
    apply version_of_key in Hk. exfalso. apply Hid. f_equal.
    apply (NoDup_fmap_eq _ _ _ _ Huq Hv Hold). congruence.
  - by intros v [Hv Hid%bool_decide_eq_true]%filter_elem_of.
Qed.

Ltac run_M :=
  cbv [promote_draft_to_saved discard_draft db_session mbind M_bind mret M_ret get_document gets
       query_version modify try_except _delete_version_files os_path_exists os_remove
       shutil_copyfile delete_version update_version update_document fts_rebuild_call now raise].
Ltac simpl_world :=
  cbn [documents versions chunks_fts files history set_files set_versions
       set_documents set_chunks_fts record fst snd andb].

Lemma promote_versions E doc_id (vs : list Version) dr t :
  versions_pk vs -> uq_doc_kind vs -> dr ∈ vs ->
  version_of doc_id draft dr = true ->
  (forall v, v ∈ vs -> version_of doc_id saved v = false) ->
  let vs' := update_row dr (promoted E doc_id t) <$> vs in
  versions_of doc_id saved vs' = [promoted E doc_id t dr]
  /\ versions_of doc_id draft vs' = []
  /\ versions_pk vs'.
Proof.
  intros Hpk Huq Hdr Hk Hs vs'.
  pose proof Hk as [= Hd _]%version_of_key.
  destruct (update_row_versions doc_id dr (promoted E doc_id t) Hk) with (vs := vs)
    as [H1 H2]; try done.
  - apply version_of_key. cbn. by rewrite Hd.
  - unfold version_of. cbn. rewrite andb_false_iff. right.
    apply bool_decide_eq_false. intros H. by apply draft_not_saved.
  - split; [done|]. split; [done|]. unfold versions_pk, vs'.
    rewrite <- list_fmap_compose.
    erewrite list_fmap_ext; [exact Hpk|]. intros i v _. cbn.
    unfold update_row. by destruct (bool_decide _).
Qed.


Lemma bool_decide_is_Some_false {A} (o : option A) :
  bool_decide (is_Some o) = false -> o = None.
Proof. intros H%bool_decide_eq_false. by apply eq_None_not_Some. Qed.

Ltac case_if H :=
  match goal with
  | |- context [if ?c then _ else _] => destruct c eqn:H
  end.

Lemma promote_run E doc_id w doc dr o :
  documents w !! doc_id = Some doc ->
  List.find (version_of doc_id draft) (versions w) = Some dr ->
  List.find (version_of doc_id saved) (versions w) = o ->
  exists w' t t',
    promote_draft_to_saved E doc_id w = (Ok tt, w')
    /\ versions w'
       = update_row dr (promoted E doc_id t)
         <$> match o with
             | Some old =>
                 List.filter (fun v' => bool_decide (v_id v' ≠ v_id old))
                   (versions w)
             | None => versions w
             end
    /\ chunks_fts w'
       = fts_rebuild (chunks_fts w) doc_id saved (plain_text dr)
    /\ files w'
       = delete (_generated_pdf_path E doc_id draft)
           (copied (pdf_path dr) (_generated_pdf_path E doc_id saved)
              match o with
              | Some old =>
                  if bool_decide (pdf_path old ≠ [])
                  then delete (pdf_path old) (files w) else files w
              | None => files w
              end)
    /\ documents w'
       = alter (fun d => set_last_error None
                           (set_updated_at t' (set_status ready d)))
           doc_id (documents w)
    /\ (forall old, o = Some old -> pdf_path old <> [] ->
          is_Some (files w !! pdf_path old) ->
          EvRemove (pdf_path old) ∈ history w').
Proof.
  intros Hdoc Hdr Ho. run_M. rewrite Hdoc, Hdr, Ho. unfold copied.
  destruct o as [old|]; simpl_world.
  - destruct (bool_decide (pdf_path old ≠ [])) eqn:Hp; simpl_world.
    + case_if Hex; simpl_world; case_if Hc; simpl_world; case_if Hd;
        simpl_world; do 3 eexists; (split; [reflexivity|]); simpl_world;
        repeat apply bool_decide_is_Some_false in Hex;
        repeat apply bool_decide_is_Some_false in Hc;
        repeat apply bool_decide_is_Some_false in Hd.
      all: repeat split; try reflexivity.
      all: try (intros old' [= <-] _ Hsome).
      all: try (by rewrite ?Hex in Hsome; destruct Hsome).
      all: rewrite ?(delete_id _ _ Hex) in *; rewrite ?Hc; cbn [from_option];
        rewrite ?(delete_id _ _ Hd); try reflexivity.
      all: set_solver.
    + case_if Hc; simpl_world; case_if Hd;
        simpl_world; do 3 eexists; (split; [reflexivity|]); simpl_world;
        repeat apply bool_decide_is_Some_false in Hc;
        repeat apply bool_decide_is_Some_false in Hd.
      all: apply bool_decide_eq_false in Hp.
      all: repeat split; try reflexivity.
      all: try (intros old' [= <-] Hne; by destruct Hp).
      all: rewrite ?Hc; cbn [from_option];
        rewrite ?(delete_id _ _ Hd); try reflexivity.
  - case_if Hc; simpl_world; case_if Hd;
      simpl_world; do 3 eexists; (split; [reflexivity|]); simpl_world;
      repeat apply bool_decide_is_Some_false in Hc;
      repeat apply bool_decide_is_Some_false in Hd.
    all: repeat split; try reflexivity; try done.
    all: rewrite ?Hc; cbn [from_option];
      rewrite ?(delete_id _ _ Hd); try reflexivity.
Qed.


Lemma evicted_artifact (fs : gmap str blob) (p src dst dgen : str) :
  let fs' := delete dgen (copied src dst (delete p fs)) in
  fs' !! p = None
  \/ (p = dst /\ src <> p /\ is_Some (fs !! src) /\ fs' !! p = fs !! src).
Proof.
  intros fs'. unfold fs', copied.
  destruct (decide (dgen = p)) as [->|Hd]; [left; apply lookup_delete_eq|].
  rewrite lookup_delete_ne by done.
  destruct (delete p fs !! src) as [b|] eqn:Hsrc; cbn [from_option].
  - destruct (decide (dst = p)) as [->|Hs].
    + right. rewrite lookup_insert_eq.
      assert (src <> p) as Hne by (intros ->; by rewrite lookup_delete_eq in Hsrc).
      rewrite lookup_delete_ne in Hsrc by done. rewrite Hsrc. by eauto.
    + left. rewrite lookup_insert_ne by done. apply lookup_delete_eq.
  - left. apply lookup_delete_eq.
Qed.

(** The rows of the document after the eviction and the relabeling. *)
Lemma promote_versions_after E doc_id (vs : list Version) dr t :
  versions_pk vs -> uq_doc_kind vs ->
  List.find (version_of doc_id draft) vs = Some dr ->
  let vs' :=
    update_row dr (promoted E doc_id t)
    <$> match List.find (version_of doc_id saved) vs with
        | Some old =>
            List.filter (fun v' => bool_decide (v_id v' ≠ v_id old)) vs
        | None => vs
        end in
  versions_of doc_id saved vs' = [promoted E doc_id t dr]
  /\ versions_of doc_id draft vs' = []
  /\ versions_pk vs'.
Proof.
  intros Hpk Huq Hdr.
  pose proof Hdr as [Hdr_in Hdk]%find_elem_of.
  destruct (List.find (version_of doc_id saved) vs) as [old|] eqn:Hold.
  - destruct (evict_saved doc_id _ _ _ Hpk Huq Hdr Hold)
      as (Hpk' & Huq' & Hdr' & Hs' & Hid').
    by apply promote_versions.
  - apply promote_versions; try done.
    intros v. by apply find_none_elem_of.
Qed.

(** C2. When the document has a draft row, [promote_draft_to_saved] returns
    normally and leaves exactly one saved row for the document, which is the
    former draft row relabeled (same [id], [tex_source], [plain_text],
    [created_at]), and no draft row; no row is added, the primary key stays
    a key, and the prior saved row is gone. The artifact of the prior saved
    row was removed with [os.remove]: where it existed the history holds the
    removal, and afterwards its path is either absent or, when it is the
    path of the saved artifact, holds the copy of the draft's artifact. *)
Theorem promote_exclusive (E : Env) (doc_id : Z) (w : World)
    (doc : Document) (dr : Version) :
  documents w !! doc_id = Some doc ->
  versions_pk (versions w) -> uq_doc_kind (versions w) ->
  List.find (version_of doc_id draft) (versions w) = Some dr ->
  let r := fst (promote_draft_to_saved E doc_id w) in
  let w' := snd (promote_draft_to_saved E doc_id w) in
  r = Ok tt
  /\ (exists t, versions_of doc_id saved (versions w') = [promoted E doc_id t dr])
  /\ versions_of doc_id draft (versions w') = []
  /\ versions_pk (versions w')
  /\ (length (versions w') <= length (versions w))%nat
  /\ (forall old,
        List.find (version_of doc_id saved) (versions w) = Some old ->
        (forall v, v ∈ versions w' -> v_id v <> v_id old)
        /\ (pdf_path old <> [] ->
            (is_Some (files w !! pdf_path old) ->
               EvRemove (pdf_path old) ∈ history w')
            /\ (files w' !! pdf_path old = None
                \/ (pdf_path old = _generated_pdf_path E doc_id saved
                    /\ pdf_path dr <> pdf_path old
                    /\ is_Some (files w !! pdf_path dr)
                    /\ files w' !! pdf_path old = files w !! pdf_path dr)))).
Proof.
  intros Hdoc Hpk Huq Hdr r w'. unfold r, w'. clear r w'.
  destruct (promote_run E doc_id w doc dr _ Hdoc Hdr eq_refl)
    as (w' & t & t' & -> & Hvs & _ & Hfs & _ & Hrm).
  cbn [fst snd]. split; [done|].
  pose proof Hdr as [Hdr_in Hdk]%find_elem_of.
  destruct (List.find (version_of doc_id saved) (versions w)) as [old|] eqn:Hold.
  - destruct (evict_saved doc_id _ _ _ Hpk Huq Hdr Hold)
      as (Hpk' & Huq' & Hdr' & Hs' & Hid').
    destruct (promote_versions E doc_id _ dr t Hpk' Huq' Hdr' Hdk Hs')
      as (H1 & H2 & H3).
    rewrite Hvs. split; [by exists t|]. split; [done|]. split; [done|].
    split.
    { rewrite length_fmap. apply filter_length_le. }
    intros old' [= <-]. split.
    + intros v (v0 & -> & Hv0)%list_elem_of_fmap.
      specialize (Hid' v0 Hv0). unfold update_row.
      by destruct (bool_decide (v_id v0 = v_id dr)).
    + intros Hp. split; [by apply Hrm|].
      rewrite Hfs. rewrite bool_decide_eq_true_2 by done.
      apply evicted_artifact.
  - assert (forall v, v ∈ versions w -> version_of doc_id saved v = false) as Hs
      by (intros v; by apply find_none_elem_of).
    destruct (promote_versions E doc_id _ dr t Hpk Huq Hdr_in Hdk Hs)
      as (H1 & H2 & H3).
    rewrite Hvs. split; [by exists t|]. split; [done|]. split; [done|].
    split; [by rewrite length_fmap|]. by intros old' [=].
Qed.

(** Witness of C2: document 1 with a draft and a prior saved version. *)
Lemma promote_exclusive_witness :
  (documents world_draft_and_saved !! 1 = Some doc_1
   /\ versions_pk (versions world_draft_and_saved)
   /\ uq_doc_kind (versions world_draft_and_saved)
   /\ List.find (version_of 1 draft) (versions world_draft_and_saved)
      = Some draft_row_1)
  /\ fst (promote_draft_to_saved env_ok 1 world_draft_and_saved) = Ok tt
  /\ versions_of 1 draft (versions world_promoted) = []
  /\ exists t, versions_of 1 saved (versions world_promoted)
               = [promoted env_ok 1 t draft_row_1].
Proof.
  assert (documents world_draft_and_saved !! 1 = Some doc_1) as H1
    by (vm_compute; reflexivity).
  assert (versions_pk (versions world_draft_and_saved)) as H2
    by (apply (bool_decide_unpack _); vm_compute; exact I).
  assert (uq_doc_kind (versions world_draft_and_saved)) as H3
    by (apply (bool_decide_unpack _); vm_compute; exact I).
  assert (List.find (version_of 1 draft) (versions world_draft_and_saved)
          = Some draft_row_1) as H4 by (vm_compute; reflexivity).
  split; [by repeat split|].
  destruct (promote_exclusive env_ok 1 _ _ _ H1 H2 H3 H4)
    as (Hr & Hsaved & Hdraft & _).
  split; [exact Hr|]. split; [exact Hdraft|]. exact Hsaved.
Defined.

Lemma world_eq (w w' : World) :
  documents w' = documents w -> versions w' = versions w ->
  chunks_fts w' = chunks_fts w -> files w' = files w ->
  history w' = history w -> w' = w.
Proof. destruct w, w'. cbn. by intros -> -> -> -> ->. Qed.

Lemma discard_missing E doc_id w :
  documents w !! doc_id = None -> discard_draft E doc_id w = (Ok tt, w).
Proof. intros Hdoc. run_M. by rewrite Hdoc. Qed.

(** What [discard_draft] does to each part of the world, [o] being the
    draft row found. *)
Lemma discard_run E doc_id w o :
  is_Some (documents w !! doc_id) ->
  List.find (version_of doc_id draft) (versions w) = o ->
  exists w',
    discard_draft E doc_id w = (Ok tt, w')
    /\ versions w'
       = match o with
         | Some d =>
             List.filter (fun v' => bool_decide (v_id v' ≠ v_id d))
               (versions w)
         | None => versions w
         end
    /\ chunks_fts w' = fts_delete (chunks_fts w) doc_id draft
    /\ files w'
       = delete (_generated_pdf_path E doc_id draft)
           match o with
           | Some d =>
               if bool_decide (pdf_path d ≠ [])
               then delete (pdf_path d) (files w) else files w
           | None => files w
           end
    /\ documents w' = documents w
    /\ (o = None ->
        history w'
        = history w
          ++ if bool_decide
                  (is_Some (files w !! _generated_pdf_path E doc_id draft))
             then [EvRemove (_generated_pdf_path E doc_id draft)] else []).
Proof.
  intros [doc Hdoc] Ho. run_M. rewrite Hdoc, Ho.
  destruct o as [d|]; simpl_world.
  - destruct (bool_decide (pdf_path d ≠ [])) eqn:Hp; simpl_world.
    + case_if Hex; simpl_world; case_if Hd; simpl_world;
        eexists; (split; [reflexivity|]); simpl_world;
        repeat apply bool_decide_is_Some_false in Hex;
        repeat apply bool_decide_is_Some_false in Hd.
      all: repeat split; try reflexivity; try done.
      all: rewrite ?(delete_id _ _ Hex) in *;
        rewrite ?(delete_id _ _ Hd); reflexivity.
    + case_if Hd; simpl_world; eexists; (split; [reflexivity|]); simpl_world;
        repeat apply bool_decide_is_Some_false in Hd.
      all: repeat split; try reflexivity; try done.
      all: rewrite ?(delete_id _ _ Hd); reflexivity.
  - case_if Hd; simpl_world; eexists; (split; [reflexivity|]); simpl_world;
      repeat apply bool_decide_is_Some_false in Hd.
    all: repeat split; try reflexivity; try done.
    all: rewrite ?app_nil_r; rewrite ?(delete_id _ _ Hd); reflexivity.
Qed.

Lemma fts_delete_idem conn doc_id kind :
  fts_delete (fts_delete conn doc_id kind) doc_id kind
  = fts_delete conn doc_id kind.
Proof.
  unfold fts_delete. induction conn as [|c conn IH]; [done|].
  cbn [List.filter]. destruct (negb (chunk_of doc_id kind c)) eqn:Hc; [|done].
  cbn [List.filter]. by rewrite Hc, IH.
Qed.

Lemma fts_delete_id conn doc_id kind :
  chunks_of doc_id kind conn = [] -> fts_delete conn doc_id kind = conn.
Proof.
  unfold fts_delete, chunks_of. induction conn as [|c conn IH]; [done|].
  cbn [List.filter]. destruct (chunk_of doc_id kind c); [done|].
  cbn [negb]. intros H. by rewrite IH.
Qed.

(** The chunks of another (document, kind) pair go through a deletion and
    through a rebuild unchanged. *)
Lemma chunks_of_fts_delete_other conn doc_id kind d k :
  (d, k) <> (doc_id, kind) ->
  chunks_of d k (fts_delete conn doc_id kind) = chunks_of d k conn.
Proof.
  intros Hne. unfold chunks_of, fts_delete.
  induction conn as [|c conn IH]; [done|]. cbn [List.filter].
  destruct (chunk_of doc_id kind c) eqn:Hc; cbn [negb List.filter].
  - rewrite IH. destruct (chunk_of d k c) eqn:Hc'; [|done].
    unfold chunk_of in Hc, Hc'.
    apply andb_true_iff in Hc as [?%bool_decide_eq_true ?%bool_decide_eq_true].
    apply andb_true_iff in Hc' as [?%bool_decide_eq_true ?%bool_decide_eq_true].
    exfalso. apply Hne. congruence.
  - by rewrite IH.
Qed.

Lemma chunks_of_fts_rebuild_other conn doc_id kind text d k :
  (d, k) <> (doc_id, kind) ->
  chunks_of d k (fts_rebuild conn doc_id kind text) = chunks_of d k conn.
Proof.
  intros Hne. rewrite fts_rebuild_spec. unfold chunks_of.
  rewrite List.filter_app. fold (chunks_of d k (fts_delete conn doc_id kind)).
  rewrite chunks_of_fts_delete_other by done.
  fold (chunks_of d k conn).
  assert (forall rows i,
    List.filter (chunk_of d k)
      (imap (fun j c => mkChunk doc_id kind (str_of_nat (i + j)) c) rows)
    = []) as Hnew.
  { induction rows as [|c rows IH]; intros i; [done|]. cbn [imap List.filter].
    assert (chunk_of d k (mkChunk doc_id kind (str_of_nat (i + 0)) c) = false)
      as ->.
    { unfold chunk_of. cbn. apply andb_false_iff.
      rewrite !bool_decide_eq_false.
      destruct (decide (doc_id = d)) as [->|]; [|by left].
      right. intros ->. by apply Hne. }
    rewrite <- (IH (S i)). f_equal. apply imap_ext. intros j x _. cbn.
    do 2 f_equal. lia. }
  rewrite (Hnew _ 0%nat). apply app_nil_r.
Qed.

(** C9, as the code has it. For a document without a draft row,
    [discard_draft] returns normally and changes no [Version] row and no
    [Document]. It still deletes the draft-kind chunks of the document from
    the index, and the generated draft artifact, when there are any, and
    nothing else; with none of them left the world is unchanged. In every
    case a second [discard_draft] changes nothing: [discard_draft] is
    idempotent. *)
Theorem discard_without_draft (E : Env) (doc_id : Z) (w : World) :
  is_Some (documents w !! doc_id) ->
  let r := fst (discard_draft E doc_id w) in
  let w' := snd (discard_draft E doc_id w) in
  (List.find (version_of doc_id draft) (versions w) = None ->
   r = Ok tt
   /\ versions w' = versions w
   /\ documents w' = documents w
   /\ chunks_fts w' = fts_delete (chunks_fts w) doc_id draft
   /\ (forall d k, (d, k) <> (doc_id, draft) ->
         chunks_of d k (chunks_fts w') = chunks_of d k (chunks_fts w))
   /\ chunks_of doc_id draft (chunks_fts w') = []
   /\ files w' = delete (_generated_pdf_path E doc_id draft) (files w)
   /\ (chunks_of doc_id draft (chunks_fts w) = [] ->
       files w !! _generated_pdf_path E doc_id draft = None ->
       w' = w))
  /\ (uq_doc_kind (versions w) -> discard_draft E doc_id w' = (Ok tt, w')).
Proof.
  intros Hdoc r w'. unfold r, w'. clear r w'.
  destruct (discard_run E doc_id w _ Hdoc eq_refl)
    as (w' & -> & Hvs & Hcs & Hfs & Hds & Hh).
  cbn [fst snd]. split.
  - intros Hnone. rewrite Hnone in Hvs, Hfs, Hh. specialize (Hh eq_refl).
    split; [done|]. split; [done|]. split; [done|]. split; [done|].
    split; [intros d k Hne; rewrite Hcs; by apply chunks_of_fts_delete_other|].
    split; [rewrite Hcs; apply fts_delete_none|]. split; [done|].
    intros Hno Hfile. apply world_eq; try done.
    + rewrite Hcs. by apply fts_delete_id.
    + rewrite Hfs. by apply delete_id.
    + rewrite Hh, Hfile. rewrite bool_decide_eq_false_2 by (by intros [? [=]]).
      apply app_nil_r.
  - intros Huq.
    assert (List.find (version_of doc_id draft) (versions w') = None)
      as Hnone'.
    { rewrite Hvs.
      destruct (List.find (version_of doc_id draft) (versions w)) as [d|]
        eqn:Hd; [by apply delete_row_unique|done]. }
    assert (files w' !! _generated_pdf_path E doc_id draft = None) as Hfile'
      by (rewrite Hfs; apply lookup_delete_eq).
    destruct (discard_run E doc_id w' None) as
      (w'' & -> & Hvs' & Hcs' & Hfs' & Hds' & Hh'); [by rewrite Hds|done|].
    f_equal. specialize (Hh' eq_refl). apply world_eq; try done.
    + by rewrite Hcs', Hcs, fts_delete_idem.
    + rewrite Hfs'. by apply delete_id.
    + rewrite Hh', Hfile'.
      rewrite bool_decide_eq_false_2 by (by intros [? [=]]).
      apply app_nil_r.
Qed.

Lemma is_Some_compute {A} (o : option A) :
  (match o with Some _ => True | None => False end) -> is_Some o.
Proof. destruct o; [by eauto|done]. Qed.

(** Witness of C9: a freshly uploaded document, nothing to discard. *)
Lemma discard_without_draft_witness :
  is_Some (documents (mkWorld {[ 1 := doc_1 ]} [] [] ∅ []) !! 1)
  /\ discard_draft env_ok 1 (mkWorld {[ 1 := doc_1 ]} [] [] ∅ [])
     = (Ok tt, mkWorld {[ 1 := doc_1 ]} [] [] ∅ []).
Proof.
  assert (is_Some (documents (mkWorld {[ 1 := doc_1 ]} [] [] ∅ []) !! 1))
    as H1 by (apply is_Some_compute; vm_compute; exact I).
  split; [exact H1|].
  destruct (discard_without_draft env_ok 1 _ H1) as [Hnoop _].
  destruct (Hnoop eq_refl) as (Hr & _ & _ & _ & _ & _ & _ & Hsame).
  rewrite (surjective_pairing (discard_draft env_ok 1 _)).
  rewrite Hr, Hsame; [reflexivity|reflexivity|reflexivity].
Defined.

(** C9 fails as stated: after a promotion the document has no draft row,
    and [discard_draft] deletes its draft-kind chunk from the index. *)
Lemma discard_without_draft_alters_index :
  is_Some (documents world_promoted !! 1)
  /\ List.find (version_of 1 draft) (versions world_promoted) = None
  /\ fst (discard_draft env_ok 1 world_promoted) = Ok tt
  /\ chunks_fts (snd (discard_draft env_ok 1 world_promoted))
     <> chunks_fts world_promoted.
Proof.
  split; [apply is_Some_compute; vm_compute; exact I|].
  split; [vm_compute; reflexivity|]. split; [vm_compute; reflexivity|].
  vm_compute. discriminate.
Qed.



(** ** Job pipeline *)

Ltac run_job :=
  cbv [mark_processing mark_error transform_persist write_draft db_session
       mbind M_bind mret M_ret get_document gets query_version modify
       try_except update_version add_version update_document
       fts_rebuild_call now raise].

Lemma mark_processing_run E doc_id w :
  mark_processing E doc_id w
  = match documents w !! doc_id with
    | None => (Ok false, w)
    | Some _ =>
        (Ok true,
         set_documents
           (alter (fun d => set_updated_at (utcnow E (history w))
                              (set_last_error None (set_status processing d)))
              doc_id (documents w)) w)
    end.
Proof. run_job. by destruct (documents w !! doc_id). Qed.

Lemma mark_error_run E doc_id message w :
  mark_error E doc_id message w
  = (Ok tt,
     match documents w !! doc_id with
     | None => w
     | Some _ =>
         set_documents
           (alter (fun d => set_updated_at (utcnow E (history w))
                              (set_last_error (Some message)
                                 (set_status error d)))
              doc_id (documents w)) w
     end).
Proof. run_job. by destruct (documents w !! doc_id). Qed.

(** The persistence step never raises and asks nothing of the outside. *)
Lemma transform_persist_ok E doc_id full_tex out_pdf w :
  exists w',
    transform_persist E doc_id full_tex out_pdf w = (Ok tt, w')
    /\ files w' = files w /\ history w' = history w.
Proof.
  run_job. destruct (documents w !! doc_id) as [doc|]; [|by eexists].
  destruct (_editor_active (utcnow E (history w)) doc); cbn [negb];
    [|by eexists].
  destruct (List.find (version_of doc_id draft) (versions w)); by eexists.
Qed.

(** ... and with an inactive editor it only marks the document ready. *)
Lemma transform_persist_inactive E doc_id full_tex out_pdf w doc :
  documents w !! doc_id = Some doc ->
  _editor_active (utcnow E (history w)) doc = false ->
  transform_persist E doc_id full_tex out_pdf w
  = (Ok tt,
     set_documents
       (alter (fun d => set_updated_at (utcnow E (history w))
                          (set_status ready d))
          doc_id (documents w)) w).
Proof. intros Hdoc Hact. run_job. by rewrite Hdoc, Hact. Qed.

(** The second session changes at most the cached text of the document. *)
Lemma transform_prompts_frame E doc_id base_kind toc structure spelling extra w :
  let w' := snd (transform_prompts E doc_id base_kind toc structure spelling extra w) in
  versions w' = versions w /\ chunks_fts w' = chunks_fts w
  /\ files w' = files w /\ history w' = history w.
Proof.
  cbv [transform_prompts load_extracted_text db_session mbind M_bind mret M_ret
       get_document gets query_version modify update_document].
  destruct (documents w !! doc_id) as [doc|]; [|done].
  destruct (bool_decide (base_kind = original)).
  - destruct (default [] (extracted_text doc)); [|done].
    by destruct (extract_text_from_pdf E (files w !! original_path doc)).
  - destruct (List.find (version_of doc_id base_kind) (versions w)); [done|].
    destruct (default [] (extracted_text doc)); [|done].
    by destruct (extract_text_from_pdf E (files w !! original_path doc)).
Qed.

Lemma compile_calls_app h evs :
  compile_calls (h ++ evs) = (compile_calls h + compile_calls evs)%nat.
Proof. unfold compile_calls. by rewrite List.filter_app, length_app. Qed.

Lemma compile_calls_runs tex_source k :
  compile_calls (replicate k (EvRun tex_source)) = 0%nat.
Proof. unfold compile_calls. induction k as [|k IH]; [done|]. exact IH. Qed.

Lemma compile_calls_posts messages mids :
  compile_calls ((fun mid => EvPost mid messages) <$> mids) = 0%nat.
Proof. unfold compile_calls. induction mids as [|m mids IH]; [done|]. exact IH. Qed.

Lemma world_eta w :
  mkWorld (documents w) (versions w) (chunks_fts w) (files w) (history w) = w.
Proof. by destruct w. Qed.

(** The rewrite service changes nothing but the history, and compiles
    nothing. *)
Lemma call_llm_loop_frame E messages candidates last_err w :
  exists mids,
    snd (call_llm_loop E candidates messages last_err w)
    = after_posts messages mids w.
Proof.
  pose proof (call_llm_loop_spec E messages candidates last_err w) as H.
  destruct (call_llm_loop E candidates messages last_err w)
    as [[[out mid]|e] w'].
  - destruct H as (k & _ & _ & _ & ->). by eexists.
  - destruct H as (_ & -> & _). by eexists.
Qed.

Lemma call_llm_tex_frame E system_prompt user_prompt w :
  exists evs,
    snd (call_llm_tex E system_prompt user_prompt w)
    = mkWorld (documents w) (versions w) (chunks_fts w) (files w)
        (history w ++ evs)
    /\ compile_calls evs = 0%nat.
Proof.
  assert (exists evs,
    w = mkWorld (documents w) (versions w) (chunks_fts w) (files w)
          (history w ++ evs) /\ compile_calls evs = 0%nat) as Hsame
    by (exists []; by rewrite app_nil_r, world_eta).
  unfold call_llm_tex.
  destruct (bool_decide (_ = utf8 "none")); [exact Hsame|].
  destruct (bool_decide (_ ≠ utf8 "openrouter")); [exact Hsame|].
  destruct (bool_decide (openrouter_api_key E = [])); [exact Hsame|].
  unfold mbind, M_bind, model_candidates.
  set (messages := [(utf8 "system", system_prompt); (utf8 "user", user_prompt)]).
  destruct (bool_decide (strip (openrouter_model E) ≠ [])
            && bool_decide (lower (strip (openrouter_model E)) ≠ utf8 "auto")).
  - unfold mret, M_ret. cbv beta iota.
    destruct (call_llm_loop_frame E messages
                (take 6 [strip (openrouter_model E)]) [] w) as [mids ->].
    exists ((fun mid => EvPost mid messages) <$> mids).
    split; [done|]. apply compile_calls_posts.
  - unfold pick_models_call.
    destruct (pick_models E (history w)) as [cs|e].
    + destruct (call_llm_loop_frame E messages (take 6 cs) []
                  (record EvPickModels w)) as [mids ->].
      exists (EvPickModels :: ((fun mid => EvPost mid messages) <$> mids)).
      split.
      * unfold after_posts, record. cbn. by rewrite <- app_assoc.
      * apply (compile_calls_posts messages mids).
    + exists [EvPickModels]. by split.
Qed.

Lemma compile_passes_frame E tex_source runs : forall pdf last_out w,
  exists k,
    snd (compile_passes E runs tex_source pdf last_out w)
    = after_runs tex_source k w.
Proof.
  induction runs as [|runs IH]; intros pdf last_out w.
  - exists 0%nat. cbn. by rewrite after_runs_0.
  - cbn [compile_passes]. destruct (bool_decide _).
    + exists 1%nat. cbn [snd]. by rewrite after_runs_S, after_runs_0.
    + destruct (IH (main_pdf (subprocess_run E (history w) tex_source pdf))
                  (last_chars 8000 (stdout (subprocess_run E (history w) tex_source pdf)))
                  (record (EvRun tex_source) w)) as [k ->].
      exists (S k). by rewrite after_runs_S.
Qed.

Lemma compile_passes_raises E tex_source runs : forall pdf last_out w e w',
  compile_passes E runs tex_source pdf last_out w = (Raise e, w') ->
  exists diagnostic, e = LatexCompileError diagnostic.
Proof.
  induction runs as [|runs IH]; intros pdf last_out w e w'; [done|].
  cbn [compile_passes]. destruct (bool_decide _).
  - intros [= <- _]. by eexists.
  - apply IH.
Qed.

(** [compile_tex_to_pdf] raises nothing but [LatexCompileError]. *)
Lemma compile_tex_to_pdf_raises E tex_source out_pdf_path toc w e w' :
  compile_tex_to_pdf E tex_source out_pdf_path toc w = (Raise e, w') ->
  exists diagnostic, e = LatexCompileError diagnostic.
Proof.
  unfold compile_tex_to_pdf, mbind, M_bind. cbn [modify].
  destruct (compile_passes E _ tex_source None [] _)
    as [[[last_out [b|]]|e0] w0] eqn:Hpasses.
  - done.
  - intros [= <- _]. by eexists.
  - intros [= <- _]. by eapply compile_passes_raises.
Qed.

(** One call of [compile_tex_to_pdf] is one compilation; it changes no
    table. *)
Lemma compile_tex_to_pdf_frame E tex_source out_pdf_path toc w :
  let w' := snd (compile_tex_to_pdf E tex_source out_pdf_path toc w) in
  documents w' = documents w /\ versions w' = versions w
  /\ chunks_fts w' = chunks_fts w
  /\ compile_calls (history w') = S (compile_calls (history w)).
Proof.
  unfold compile_tex_to_pdf, mbind, M_bind. cbn [modify].
  set (w0 := record (EvCompile tex_source out_pdf_path toc) w).
  destruct (compile_passes_frame E tex_source
              (Z.to_nat (compile_runs E toc)) None [] w0) as [k Hk].
  assert (compile_calls (history (after_runs tex_source k w0))
          = S (compile_calls (history w))) as Hcalls.
  { unfold after_runs, w0, record. cbn [history].
    rewrite !compile_calls_app, compile_calls_runs.
    unfold compile_calls at 2. cbn [List.filter is_compile length]. lia. }
  destruct (compile_passes E _ tex_source None [] w0)
    as [[[last_out [b|]]|e0] w1]; cbn [snd] in *; subst w1; by cbn.
Qed.

(** [transform_tex_task] once the prompts are built: the outcome of lines
    126-148, then the persistence step or the [except] clause. *)
Lemma transform_tex_task_run E doc_id base_kind toc structure spelling extra
    user_id w wa wb sys user :
  mark_processing E doc_id w = (Ok true, wa) ->
  transform_prompts E doc_id base_kind toc structure spelling extra wa
  = (Ok (Some (sys, user)), wb) ->
  transform_tex_task E doc_id base_kind toc structure spelling extra user_id w
  = match transform_compile E doc_id toc sys user wb with
    | (Ok (full_tex, out_pdf, _), w3) =>
        transform_persist E doc_id full_tex out_pdf w3
    | (Raise e, w3) => (Raise e, snd (mark_error E doc_id (exn_str e) w3))
    end.
Proof.
  intros Hmark Hprompts.
  unfold transform_tex_task, transform_body, mbind, M_bind, try_except.
  rewrite Hmark. cbn [negb]. rewrite Hprompts.
  destruct (transform_compile E doc_id toc sys user wb)
    as [[[[full_tex out_pdf] model]|e] w3].
  - destruct (transform_persist_ok E doc_id full_tex out_pdf w3)
      as (w4 & -> & _). done.
  - rewrite mark_error_run. done.
Qed.

(** Lines 126-148 when the first compilation fails: one repair request,
    one more compilation, whose failure is the outcome. *)
Lemma transform_compile_repair E doc_id toc sys user wb tex_raw model w1 ce w2 :
  call_llm_tex E sys user wb = (Ok (tex_raw, model), w1) ->
  let full_tex := make_full_tex E (extract_body E tex_raw) toc in
  let out_pdf := _generated_pdf_path E doc_id draft in
  compile_tex_to_pdf E full_tex out_pdf toc w1 = (Raise ce, w2) ->
  transform_compile E doc_id toc sys user wb
  = match call_llm_tex E repair_system (repair_user ce full_tex) w2 with
    | (Raise e, w3) => (Raise e, w3)
    | (Ok (tex_fixed, _), w3) =>
        let full_tex2 := make_full_tex E (extract_body E tex_fixed) toc in
        match compile_tex_to_pdf E full_tex2 out_pdf toc w3 with
        | (Ok _, w4) => (Ok (full_tex2, out_pdf, model), w4)
        | (Raise e, w4) => (Raise e, w4)
        end
    end.
Proof.
  intros Hllm full_tex out_pdf Hfail.
  destruct (compile_tex_to_pdf_raises _ _ _ _ _ _ _ Hfail) as [d ->].
  unfold transform_compile, mbind, M_bind, try_except. rewrite Hllm.
  fold full_tex. fold out_pdf. rewrite Hfail.
  destruct (call_llm_tex E repair_system
              (repair_user (LatexCompileError d) full_tex) w2)
    as [[[tex_fixed m2]|e] w3]; [|done].
  by destruct (compile_tex_to_pdf E _ out_pdf toc w3) as [[[]|e] w4].
Qed.

(** Lines 126-148 change no table and compile at most twice. *)
Lemma transform_compile_frame E doc_id toc sys user w :
  let w' := snd (transform_compile E doc_id toc sys user w) in
  documents w' = documents w /\ versions w' = versions w
  /\ chunks_fts w' = chunks_fts w
  /\ (compile_calls (history w') <= compile_calls (history w) + 2)%nat.
Proof.
  destruct (call_llm_tex_frame E sys user w) as (evs & Hw1 & Hevs).
  destruct (call_llm_tex E sys user w) as [[[tex_raw model]|e] w1] eqn:Hllm;
    cbn [snd] in Hw1.
  2:{ unfold transform_compile, mbind, M_bind. rewrite Hllm. subst w1.
      cbn [snd documents versions chunks_fts history].
      rewrite compile_calls_app, Hevs. repeat split; lia. }
  set (full_tex := make_full_tex E (extract_body E tex_raw) toc).
  set (out_pdf := _generated_pdf_path E doc_id draft).
  pose proof (compile_tex_to_pdf_frame E full_tex out_pdf toc w1) as Hc1.
  assert (documents w1 = documents w /\ versions w1 = versions w
          /\ chunks_fts w1 = chunks_fts w
          /\ compile_calls (history w1) = compile_calls (history w)) as H1.
  { subst w1. cbn [documents versions chunks_fts history].
    rewrite compile_calls_app, Hevs. repeat split; lia. }
  destruct (compile_tex_to_pdf E full_tex out_pdf toc w1) as [[[]|ce] w2]
    eqn:Hcomp; cbn [snd] in Hc1.
  - unfold transform_compile, mbind, M_bind, try_except. rewrite Hllm.
    fold full_tex. fold out_pdf. rewrite Hcomp.
    unfold mret, M_ret. cbn [snd].
    destruct H1 as (Ha & Hb & Hc & Hd), Hc1 as (Ha' & Hb' & Hc' & Hd').
    repeat split; [congruence..|lia].
  - rewrite (transform_compile_repair E doc_id toc sys user w tex_raw model
               w1 ce w2 Hllm Hcomp). fold full_tex. fold out_pdf.
    destruct (call_llm_tex_frame E repair_system (repair_user ce full_tex) w2)
      as (evs2 & Hw3 & Hevs2).
    destruct (call_llm_tex E repair_system (repair_user ce full_tex) w2)
      as [[[tex_fixed m2]|e] w3]; cbn [snd] in Hw3.
    + pose proof (compile_tex_to_pdf_frame E
                    (make_full_tex E (extract_body E tex_fixed) toc)
                    out_pdf toc w3) as Hc2. cbn zeta.
      destruct (compile_tex_to_pdf E _ out_pdf toc w3) as [[[]|e] w4];
        cbn [snd] in *; subst w3;
        cbn [documents versions chunks_fts history] in Hc2;
        rewrite compile_calls_app, Hevs2 in Hc2;
        destruct H1 as (Ha & Hb & Hc & Hd), Hc1 as (Ha' & Hb' & Hc' & Hd'),
          Hc2 as (Ha2 & Hb2 & Hc2 & Hd2);
        (repeat split; [congruence..|lia]).
    + cbn [snd]. subst w3. cbn [documents versions chunks_fts history].
      rewrite compile_calls_app, Hevs2.
      destruct H1 as (Ha & Hb & Hc & Hd), Hc1 as (Ha' & Hb' & Hc' & Hd').
      repeat split; [congruence..|lia].
Qed.

Lemma mark_error_history E doc_id message w :
  history (snd (mark_error E doc_id message w)) = history w.
Proof. rewrite mark_error_run. cbn [snd]. by destruct (documents w !! doc_id). Qed.

(** C1. In a run of [transform_tex_task] whose first compilation fails with
    [ce], the job sends one repair request to the rewrite service, with the
    diagnostic [str(ce)] and the whole failed source in it. When the request
    fails the job raises its error after that single compilation. When it is
    answered, the job wraps the returned body and compiles once more, which
    makes two compilations; nothing is asked of the outside after the second
    one, whose failure, if any, is what the job raises. *)
Theorem transform_one_repair_round (E : Env) (doc_id : Z) (base_kind : str)
    (toc structure spelling : bool) (extra : str) (user_id : Z)
    (w wa wb w1 w2 : World) (sys user tex_raw model : str) (ce : exn) :
  mark_processing E doc_id w = (Ok true, wa) ->
  transform_prompts E doc_id base_kind toc structure spelling extra wa
  = (Ok (Some (sys, user)), wb) ->
  call_llm_tex E sys user wb = (Ok (tex_raw, model), w1) ->
  let full_tex := make_full_tex E (extract_body E tex_raw) toc in
  let out_pdf := _generated_pdf_path E doc_id draft in
  compile_tex_to_pdf E full_tex out_pdf toc w1 = (Raise ce, w2) ->
  let job :=
    transform_tex_task E doc_id base_kind toc structure spelling extra
      user_id w in
  let repair := call_llm_tex E repair_system (repair_user ce full_tex) w2 in
  compile_calls (history w2) = S (compile_calls (history w))
  /\ (exists pre mid post,
        repair_user ce full_tex
        = pre ++ exn_str ce ++ mid ++ full_tex ++ post)
  /\ match fst repair with
     | Raise e =>
         fst job = Raise e
         /\ history (snd job) = history (snd repair)
         /\ compile_calls (history (snd job)) = S (compile_calls (history w))
     | Ok (tex_fixed, _) =>
         let second :=
           compile_tex_to_pdf E
             (make_full_tex E (extract_body E tex_fixed) toc) out_pdf toc
             (snd repair) in
         history (snd job) = history (snd second)
         /\ compile_calls (history (snd job))
            = S (S (compile_calls (history w)))
         /\ match fst second with
            | Raise e => fst job = Raise e
            | Ok _ => fst job = Ok tt
            end
     end.
Proof.
  intros Hmark Hprompts Hllm full_tex out_pdf Hfail job repair.
  assert (history wa = history w) as Hwa.
  { rewrite mark_processing_run in Hmark.
    destruct (documents w !! doc_id); [|discriminate].
    by injection Hmark as <-. }
  assert (history wb = history wa) as Hwb.
  { pose proof (transform_prompts_frame E doc_id base_kind toc structure
                  spelling extra wa) as H.
    rewrite Hprompts in H. cbn [snd] in H. apply H. }
  assert (compile_calls (history w1) = compile_calls (history w)) as Hw1.
  { destruct (call_llm_tex_frame E sys user wb) as (evs & H & Hevs).
    rewrite Hllm in H. cbn [snd] in H. subst w1. cbn [history].
    rewrite compile_calls_app, Hevs, Hwb, Hwa. lia. }
  assert (compile_calls (history w2) = S (compile_calls (history w))) as Hw2.
  { pose proof (compile_tex_to_pdf_frame E full_tex out_pdf toc w1) as H.
    rewrite Hfail in H. cbn [snd] in H. destruct H as (_ & _ & _ & ->).
    by rewrite Hw1. }
  split; [done|]. split.
  { exists (utf8 "ОШИБКА КОМПИЛЯЦИИ:" ++ nl),
      (nl ++ nl ++ utf8 "ТЕКУЩИЙ LaTeX:" ++ nl ++ utf8 "<<<" ++ nl),
      (nl ++ utf8 ">>>" ++ nl).
    unfold repair_user. by rewrite <- !app_assoc. }
  unfold job.
  rewrite (transform_tex_task_run E doc_id base_kind toc structure spelling
             extra user_id w wa wb sys user Hmark Hprompts).
  rewrite (transform_compile_repair E doc_id toc sys user wb tex_raw model
             w1 ce w2 Hllm Hfail).
  fold full_tex. fold out_pdf. fold repair.
  destruct (call_llm_tex_frame E repair_system (repair_user ce full_tex) w2)
    as (evs & Hw3 & Hevs). fold repair in Hw3.
  destruct repair as [[[tex_fixed m2]|e] w3]; cbn [fst snd] in *.
  - cbn zeta.
    pose proof (compile_tex_to_pdf_frame E
                  (make_full_tex E (extract_body E tex_fixed) toc)
                  out_pdf toc w3) as Hc2.
    assert (compile_calls (history w3) = S (compile_calls (history w)))
      as Hn3 by (subst w3; cbn [history];
                 rewrite compile_calls_app, Hevs, Hw2; lia).
    destruct (compile_tex_to_pdf E _ out_pdf toc w3) as [[[]|e] w4];
      cbn [fst snd] in *; destruct Hc2 as (_ & _ & _ & Hn4).
    + destruct (transform_persist_ok E doc_id
                  (make_full_tex E (extract_body E tex_fixed) toc) out_pdf w4)
        as (w5 & -> & _ & Hh5). cbn [fst snd].
      rewrite Hh5. split; [done|]. split; [|done]. by rewrite Hn4, Hn3.
    + rewrite mark_error_history. split; [done|]. split; [|done].
      by rewrite Hn4, Hn3.
  - rewrite mark_error_history. split; [done|]. split; [done|].
    subst w3. cbn [history]. rewrite compile_calls_app, Hevs, Hw2. lia.
Qed.

(** Witness of C1: the engine fails the first compilation of document 1 and
    passes the second; two compilations, and the job returns. *)
Lemma transform_one_repair_round_witness :
  (mark_processing env_retry 1 world_uploaded = (Ok true, retry_wa)
   /\ transform_prompts env_retry 1 original false false false [] retry_wa
      = (Ok (Some (system_prompt, utf8 "Hello world.")), retry_wb)
   /\ call_llm_tex env_retry system_prompt (utf8 "Hello world.") retry_wb
      = (Ok (utf8 "Body", utf8 "m1"), retry_w1)
   /\ compile_tex_to_pdf env_retry
        (make_full_tex env_retry (extract_body env_retry (utf8 "Body")) false)
        (_generated_pdf_path env_retry 1 draft) false retry_w1
      = (Raise retry_ce, retry_w2))
  /\ fst (transform_tex_task env_retry 1 original false false false [] 1
            world_uploaded) = Ok tt
  /\ compile_calls
       (history (snd (transform_tex_task env_retry 1 original false false
                        false [] 1 world_uploaded))) = 2%nat.
Proof.
  assert (mark_processing env_retry 1 world_uploaded = (Ok true, retry_wa))
    as H1 by (vm_compute; reflexivity).
  assert (transform_prompts env_retry 1 original false false false [] retry_wa
          = (Ok (Some (system_prompt, utf8 "Hello world.")), retry_wb))
    as H2 by (vm_compute; reflexivity).
  assert (call_llm_tex env_retry system_prompt (utf8 "Hello world.") retry_wb
          = (Ok (utf8 "Body", utf8 "m1"), retry_w1))
    as H3 by (vm_compute; reflexivity).
  assert (compile_tex_to_pdf env_retry
            (make_full_tex env_retry (extract_body env_retry (utf8 "Body"))
               false)
            (_generated_pdf_path env_retry 1 draft) false retry_w1
          = (Raise retry_ce, retry_w2)) as H4 by (vm_compute; reflexivity).
  split; [by repeat split|].
  destruct (transform_one_repair_round env_retry 1 original false false false
              [] 1 _ _ _ _ _ _ _ _ _ _ H1 H2 H3 H4) as (_ & _ & H).
  set (repair := call_llm_tex env_retry repair_system _ retry_w2) in H.
  assert (fst repair = Ok (utf8 "Body", utf8 "m1")) as Hrep
    by (vm_compute; reflexivity).
  rewrite Hrep in H. cbn zeta in H. destruct H as (_ & Hcalls & Hres).
  set (second := compile_tex_to_pdf env_retry _ _ false (snd repair)) in Hres.
  assert (fst second = Ok tt) as Hsec by (vm_compute; reflexivity).
  rewrite Hsec in Hres. split; [exact Hres|]. exact Hcalls.
Defined.



(** C5 at the failing input: the original of document 2 cannot be opened.
    [process_pdf_task] stores [status = "error"] and the whole message, 2529
    characters, and returns normally: the exception does not reach the
    queue. On the same document [transform_tex_task] raises, and stores
    the whole message too; [normalize_original_task] raises and stores its
    first 2000 characters. *)
Theorem process_pdf_task_swallows_error :
  let e := OtherException (utf8 "FileDataError")
             (utf8 "cannot open broken document: " ++ replicate 2500 46%N) in
  let ingest := process_pdf_task env_ok 2 world_lost_original in
  let transform :=
    transform_tex_task env_ok 2 original false false false [] 1
      world_lost_original in
  let normalize := normalize_original_task env_ok 2 1 world_lost_original in
  let stored job :=
    (fun d => (status d, last_error d)) <$> documents (snd job) !! 2 in
  length (exn_str e) = 2529%nat
  /\ fst ingest = Ok tt
  /\ stored ingest = Some (error, Some (exn_str e))
  /\ fst transform = Raise e
  /\ stored transform = Some (error, Some (exn_str e))
  /\ fst normalize = Raise e
  /\ stored normalize = Some (error, Some (take 2000 (exn_str e))).
Proof. cbv zeta. repeat split; vm_compute; reflexivity. Qed.

(** * Further properties *)

(** ** The jobs *)

Ltac run_all :=
  cbv [process_pdf_task transform_tex_task normalize_original_task
       promote_draft_to_saved discard_draft mark_processing mark_error
       transform_persist write_draft normalize_text db_session
       mbind M_bind mret M_ret get_document gets query_version modify
       try_except update_version add_version update_document
       fts_rebuild_call now raise].

(** X1. On a document that does not exist every job and both version
    transitions return normally and change nothing. *)
Theorem missing_document_noop E doc_id base_kind toc structure spelling extra
    user_id w :
  documents w !! doc_id = None ->
  process_pdf_task E doc_id w = (Ok tt, w)
  /\ transform_tex_task E doc_id base_kind toc structure spelling extra
       user_id w = (Ok tt, w)
  /\ normalize_original_task E doc_id user_id w = (Ok tt, w)
  /\ promote_draft_to_saved E doc_id w = (Ok tt, w)
  /\ discard_draft E doc_id w = (Ok tt, w).
Proof. intros Hdoc. run_all. rewrite Hdoc. cbn. by repeat split. Qed.

Lemma chunks_of_imap_same doc_id kind rows i :
  chunks_of doc_id kind
    (imap (fun j c => mkChunk doc_id kind (str_of_nat (i + j)) c) rows)
  = imap (fun j c => mkChunk doc_id kind (str_of_nat (i + j)) c) rows.
Proof.
  unfold chunks_of. revert i.
  induction rows as [|c rows IH]; intros i; [done|]. cbn [imap List.filter].
  assert (chunk_of doc_id kind (mkChunk doc_id kind (str_of_nat (i + 0)) c)
          = true) as ->
    by (unfold chunk_of; cbn; by rewrite !bool_decide_eq_true_2).
  f_equal. specialize (IH (S i)).
  erewrite (imap_ext _ (fun j c0 => mkChunk doc_id kind (str_of_nat (S i + j)) c0)).
  - exact IH.
  - intros j x _. cbn. do 2 f_equal. lia.
Qed.

(** Witness of X1: no document at all. *)
Lemma missing_document_noop_witness :
  documents empty_world !! 1 = None
  /\ process_pdf_task env_ok 1 empty_world = (Ok tt, empty_world)
  /\ discard_draft env_ok 1 empty_world = (Ok tt, empty_world).
Proof.
  assert (documents empty_world !! 1 = None) as H by (vm_compute; reflexivity).
  split; [exact H|].
  destruct (missing_document_noop env_ok 1 original false false false [] 1
              empty_world H) as (H1 & _ & _ & _ & H5).
  split; [exact H1|exact H5].
Defined.

(** After a rebuild the index holds, for the pair, the chunks of the text
    and nothing else. *)
Lemma chunks_of_fts_rebuild_same conn doc_id kind text :
  chunks_of doc_id kind (fts_rebuild conn doc_id kind text)
  = imap (fun i c => mkChunk doc_id kind (str_of_nat i) c)
      (chunk_text text 1000).
Proof.
  rewrite fts_rebuild_spec. unfold chunks_of at 1. rewrite List.filter_app.
  fold (chunks_of doc_id kind (fts_delete conn doc_id kind)).
  rewrite fts_delete_none. cbn [app].
  apply (chunks_of_imap_same doc_id kind _ 0).
Qed.

Lemma process_pdf_task_run E doc_id w doc :
  documents w !! doc_id = Some doc ->
  let t := utcnow E (history w) in
  process_pdf_task E doc_id w
  = (Ok tt,
     match extract_text_from_pdf E (files w !! original_path doc) with
     | Ok text =>
         mkWorld
           (alter (fun d => set_updated_at t
                              (set_status ready
                                 (set_extracted_text (Some text) d)))
              doc_id
              (alter (fun d => set_updated_at t
                                 (set_last_error None
                                    (set_status processing d)))
                 doc_id (documents w)))
           (versions w)
           (fts_rebuild (chunks_fts w) doc_id original text)
           (files w) (history w)
     | Raise e =>
         mkWorld
           (alter (fun d => set_updated_at t
                              (set_last_error (Some (exn_str e))
                                 (set_status error d)))
              doc_id
              (alter (fun d => set_updated_at t
                                 (set_last_error None
                                    (set_status processing d)))
                 doc_id (documents w)))
           (versions w) (chunks_fts w) (files w) (history w)
     end).
Proof.
  intros Hdoc t. run_all. rewrite Hdoc.
  cbn [negb documents versions chunks_fts files history set_documents
       set_chunks_fts].
  rewrite lookup_alter_eq, Hdoc.
  cbn [fmap option_fmap option_map original_path set_updated_at
       set_last_error set_status documents versions chunks_fts files history
       set_documents set_chunks_fts].
  destruct (extract_text_from_pdf E (files w !! original_path doc))
    as [text|e]; cbn [documents versions chunks_fts files history
                      set_documents set_chunks_fts].
  - done.
  - rewrite lookup_alter_eq, Hdoc. done.
Qed.

(** X2. Ingest of a readable original: [process_pdf_task] returns, caches
    the extracted text on the document, sets [status = "ready"] with no
    error, and leaves in the index, for the original kind of the document,
    exactly the chunks of the text; the other index entries, the versions,
    the files and the other documents are untouched. *)
Theorem process_pdf_task_ingests (E : Env) (doc_id : Z) (w : World)
    (doc : Document) (text : str) :
  documents w !! doc_id = Some doc ->
  extract_text_from_pdf E (files w !! original_path doc) = Ok text ->
  let job := process_pdf_task E doc_id w in
  fst job = Ok tt
  /\ extracted_text <$> documents (snd job) !! doc_id = Some (Some text)
  /\ status <$> documents (snd job) !! doc_id = Some ready
  /\ last_error <$> documents (snd job) !! doc_id = Some None
  /\ chunks_of doc_id original (chunks_fts (snd job))
     = imap (fun i c => mkChunk doc_id original (str_of_nat i) c)
         (chunk_text text 1000)
  /\ (forall d k, (d, k) <> (doc_id, original) ->
        chunks_of d k (chunks_fts (snd job)) = chunks_of d k (chunks_fts w))
  /\ versions (snd job) = versions w
  /\ files (snd job) = files w
  /\ (forall d, d <> doc_id ->
        documents (snd job) !! d = documents w !! d).
Proof.
  intros Hdoc Htext job. unfold job.
  rewrite (process_pdf_task_run E doc_id w doc Hdoc). cbn zeta.
  rewrite Htext. cbn [fst snd documents versions chunks_fts files history].
  rewrite !lookup_alter_eq, Hdoc. cbn.
  repeat split.
  - apply chunks_of_fts_rebuild_same.
  - intros d k Hne. by apply chunks_of_fts_rebuild_other.
  - intros d Hd. by rewrite !lookup_alter_ne.
Qed.

(** Witness of X2: document 1, whose original is on disk. *)
Lemma process_pdf_task_ingests_witness :
  (documents world_uploaded !! 1 = Some doc_1
   /\ extract_text_from_pdf env_ok (files world_uploaded !! original_path doc_1)
      = Ok (utf8 "Hello world."))
  /\ fst (process_pdf_task env_ok 1 world_uploaded) = Ok tt
  /\ status <$> documents (snd (process_pdf_task env_ok 1 world_uploaded)) !! 1
     = Some ready.
Proof.
  assert (documents world_uploaded !! 1 = Some doc_1) as H1
    by (vm_compute; reflexivity).
  assert (extract_text_from_pdf env_ok
            (files world_uploaded !! original_path doc_1)
          = Ok (utf8 "Hello world.")) as H2 by (vm_compute; reflexivity).
  split; [by split|].
  destruct (process_pdf_task_ingests env_ok 1 world_uploaded doc_1 _ H1 H2)
    as (Hr & _ & Hs & _).
  split; [exact Hr|exact Hs].
Defined.

(** X3. [process_pdf_task] returns normally in every world: its handler
    does not raise again. When the extraction fails with [e] the document
    gets [status = "error"] and [last_error = str(e)], whole, and the cached
    text, the index and the versions stay as they were. *)
Theorem process_pdf_task_never_raises (E : Env) (doc_id : Z) (w : World) :
  let job := process_pdf_task E doc_id w in
  fst job = Ok tt
  /\ (forall doc e,
        documents w !! doc_id = Some doc ->
        extract_text_from_pdf E (files w !! original_path doc) = Raise e ->
        status <$> documents (snd job) !! doc_id = Some error
        /\ last_error <$> documents (snd job) !! doc_id
           = Some (Some (exn_str e))
        /\ extracted_text <$> documents (snd job) !! doc_id
           = Some (extracted_text doc)
        /\ chunks_fts (snd job) = chunks_fts w
        /\ versions (snd job) = versions w).
Proof.
  intros job. unfold job.
  destruct (documents w !! doc_id) as [doc|] eqn:Hdoc.
  - rewrite (process_pdf_task_run E doc_id w doc Hdoc). split; [done|].
    intros doc' e [= <-] He. cbn zeta. rewrite He.
    cbn [fst snd documents versions chunks_fts files history].
    rewrite !lookup_alter_eq, Hdoc. by cbn.
  - split; [|intros doc e [=]]. run_all. by rewrite Hdoc.
Qed.

(** *** Failures of the transform and normalize jobs *)

Lemma transform_prompts_documents E doc_id base_kind toc structure spelling
    extra w d :
  is_Some (documents w !! d) ->
  is_Some (documents
             (snd (transform_prompts E doc_id base_kind toc structure
                     spelling extra w)) !! d).
Proof.
  intros Hd.
  cbv [transform_prompts load_extracted_text db_session mbind M_bind mret M_ret
       get_document gets query_version modify update_document].
  destruct (documents w !! doc_id) as [doc|]; [|done].
  destruct (bool_decide (base_kind = original)).
  - destruct (default [] (extracted_text doc)); [|done].
    destruct (extract_text_from_pdf E (files w !! original_path doc));
      [|done].
    cbn. by apply lookup_alter_is_Some.
  - destruct (List.find (version_of doc_id base_kind) (versions w)); [done|].
    destruct (default [] (extracted_text doc)); [|done].
    destruct (extract_text_from_pdf E (files w !! original_path doc));
      [|done].
    cbn. by apply lookup_alter_is_Some.
Qed.

Lemma compile_tex_to_pdf_fail_files E tex_source out_pdf_path toc w e w' :
  compile_tex_to_pdf E tex_source out_pdf_path toc w = (Raise e, w') ->
  files w' = files w.
Proof.
  unfold compile_tex_to_pdf, mbind, M_bind. cbn [modify].
  destruct (compile_passes_frame E tex_source
              (Z.to_nat (compile_runs E toc)) None []
              (record (EvCompile tex_source out_pdf_path toc) w)) as [k Hk].
  destruct (compile_passes E _ tex_source None [] _)
    as [[[last_out [b|]]|e0] w0]; cbn [snd] in Hk; subst w0.
  - done.
  - by intros [= _ <-].
  - by intros [= _ <-].
Qed.

Lemma call_llm_tex_files E system_prompt user_prompt w :
  files (snd (call_llm_tex E system_prompt user_prompt w)) = files w.
Proof.
  destruct (call_llm_tex_frame E system_prompt user_prompt w) as (evs & -> & _).
  done.
Qed.

(** Lines 126-148 write no file when they raise. *)
Lemma transform_compile_fail_files E doc_id toc sys user w e w' :
  transform_compile E doc_id toc sys user w = (Raise e, w') ->
  files w' = files w.
Proof.
  pose proof (call_llm_tex_files E sys user w) as Hf1.
  destruct (call_llm_tex E sys user w) as [[[tex_raw model]|e1] w1] eqn:Hllm;
    cbn [snd] in Hf1.
  2:{ unfold transform_compile, mbind, M_bind. rewrite Hllm.
      intros [= _ <-]. done. }
  set (full_tex := make_full_tex E (extract_body E tex_raw) toc).
  set (out_pdf := _generated_pdf_path E doc_id draft).
  destruct (compile_tex_to_pdf E full_tex out_pdf toc w1) as [[[]|ce] w2]
    eqn:Hcomp.
  - unfold transform_compile, mbind, M_bind, try_except. rewrite Hllm.
    fold full_tex. fold out_pdf. rewrite Hcomp. done.
  - rewrite (transform_compile_repair E doc_id toc sys user w tex_raw model
               w1 ce w2 Hllm Hcomp). fold full_tex. fold out_pdf.
    pose proof (compile_tex_to_pdf_fail_files _ _ _ _ _ _ _ Hcomp) as Hf2.
    pose proof (call_llm_tex_files E repair_system
                  (repair_user ce full_tex) w2) as Hf3.
    destruct (call_llm_tex E repair_system (repair_user ce full_tex) w2)
      as [[[tex_fixed m2]|e2] w3]; cbn [snd] in Hf3.
    + cbn zeta.
      destruct (compile_tex_to_pdf E _ out_pdf toc w3) as [[[]|e3] w4]
        eqn:Hcomp2; [done|].
      intros [= _ <-].
      rewrite (compile_tex_to_pdf_fail_files _ _ _ _ _ _ _ Hcomp2).
      congruence.
    + intros [= _ <-]. congruence.
Qed.

(** What the body of the [try] of [transform_tex_task] leaves when it
    raises. *)
Lemma transform_body_fail E doc_id base_kind toc structure spelling extra
    w e w' :
  transform_body E doc_id base_kind toc structure spelling extra w
  = (Raise e, w') ->
  versions w' = versions w /\ chunks_fts w' = chunks_fts w
  /\ files w' = files w
  /\ (is_Some (documents w !! doc_id) -> is_Some (documents w' !! doc_id)).
Proof.
  unfold transform_body, mbind, M_bind.
  pose proof (transform_prompts_frame E doc_id base_kind toc structure
                spelling extra w) as (Hv & Hc & Hf & _).
  pose proof (transform_prompts_documents E doc_id base_kind toc structure
                spelling extra w doc_id) as Hd.
  destruct (transform_prompts E doc_id base_kind toc structure spelling
              extra w) as [[[[sys user]|]|e0] wb]; cbn [snd] in *.
  - pose proof (transform_compile_frame E doc_id toc sys user wb)
      as (Hd2 & Hv2 & Hc2 & _).
    destruct (transform_compile E doc_id toc sys user wb)
      as [[[[full_tex out_pdf] model]|e1] w3] eqn:Hcompile; cbn [snd] in *.
    + destruct (transform_persist_ok E doc_id full_tex out_pdf w3)
        as (w4 & -> & _). done.
    + intros [= _ <-].
      pose proof (transform_compile_fail_files _ _ _ _ _ _ _ _ Hcompile).
      repeat split; [congruence..|]. rewrite Hd2. exact Hd.
  - done.
  - intros [= _ <-]. done.
Qed.

(** X4. Whenever [transform_tex_task] raises [e], the document is left with
    [status = "error"] and [last_error = str(e)] (whole), and the versions,
    the index and the files are as they were before the job. *)
Theorem transform_tex_task_failure (E : Env) (doc_id : Z) (base_kind : str)
    (toc structure spelling : bool) (extra : str) (user_id : Z) (w : World)
    (e : exn) :
  let job :=
    transform_tex_task E doc_id base_kind toc structure spelling extra
      user_id w in
  fst job = Raise e ->
  status <$> documents (snd job) !! doc_id = Some error
  /\ last_error <$> documents (snd job) !! doc_id = Some (Some (exn_str e))
  /\ versions (snd job) = versions w
  /\ chunks_fts (snd job) = chunks_fts w
  /\ files (snd job) = files w.
Proof.
  intros job. unfold job, transform_tex_task, mbind, M_bind, try_except.
  rewrite mark_processing_run.
  destruct (documents w !! doc_id) as [doc|] eqn:Hdoc; [|done].
  cbn [negb].
  set (wa := set_documents _ w).
  destruct (transform_body E doc_id base_kind toc structure spelling extra wa)
    as [[[]|e0] wb] eqn:Hbody; [done|].
  rewrite mark_error_run. cbn [fst snd]. intros [= ->].
  destruct (transform_body_fail _ _ _ _ _ _ _ _ _ _ Hbody)
    as (Hv & Hc & Hf & Hd).
  destruct Hd as [doc' Hdoc'].
  { unfold wa. cbn. rewrite lookup_alter_eq, Hdoc. by eauto. }
  rewrite Hdoc'. unfold raise.
  cbn [snd documents versions chunks_fts files set_documents].
  rewrite lookup_alter_eq, Hdoc'. by cbn.
Qed.

(** Witness of X4: document 2, whose original cannot be opened. *)
Lemma transform_tex_task_failure_witness :
  fst (transform_tex_task env_ok 2 original false false false [] 1
         world_lost_original)
  = Raise (OtherException (utf8 "FileDataError")
             (utf8 "cannot open broken document: " ++ replicate 2500 46%N))
  /\ status <$> documents
       (snd (transform_tex_task env_ok 2 original false false false [] 1
               world_lost_original)) !! 2 = Some error
  /\ versions (snd (transform_tex_task env_ok 2 original false false false []
                      1 world_lost_original))
     = versions world_lost_original.
Proof.
  assert (fst (transform_tex_task env_ok 2 original false false false [] 1
                 world_lost_original)
          = Raise (OtherException (utf8 "FileDataError")
                     (utf8 "cannot open broken document: "
                        ++ replicate 2500 46%N))) as H
    by (vm_compute; reflexivity).
  split; [exact H|].
  destruct (transform_tex_task_failure env_ok 2 original false false false []
              1 world_lost_original _ H) as (Hs & _ & Hv & _).
  split; [exact Hs|exact Hv].
Defined.

Lemma normalize_text_frame E doc_id w :
  let w' := snd (normalize_text E doc_id w) in
  versions w' = versions w /\ chunks_fts w' = chunks_fts w
  /\ files w' = files w /\ history w' = history w
  /\ (forall d, is_Some (documents w !! d) -> is_Some (documents w' !! d)).
Proof.
  cbv [normalize_text db_session mbind M_bind mret M_ret get_document gets
       modify update_document now].
  destruct (documents w !! doc_id) as [doc|]; [|done].
  destruct (_editor_active (utcnow E (history w)) doc); cbn [negb].
  - destruct (strip (default [] (extracted_text doc))); [|done].
    destruct (extract_text_from_pdf E (files w !! original_path doc));
      [|done].
    cbn. repeat split. intros d. by apply lookup_alter_is_Some.
  - cbn. repeat split. intros d. by apply lookup_alter_is_Some.
Qed.

(** [normalize_original_task] on an existing document: the first session,
    then the compilation, then the persistence step or the [except]
    clause. *)
Lemma normalize_original_task_run E doc_id user_id w doc :
  documents w !! doc_id = Some doc ->
  let wa :=
    set_documents
      (alter (fun d => set_updated_at (utcnow E (history w))
                         (set_last_error None (set_status processing d)))
         doc_id (documents w)) w in
  let out_pdf := _generated_pdf_path E doc_id draft in
  normalize_original_task E doc_id user_id w
  = match normalize_text E doc_id wa with
    | (Ok None, wb) => (Ok tt, wb)
    | (Ok (Some text), wb) =>
        let full_tex :=
          make_full_tex E (text_to_tex_body_no_change E text) false in
        match compile_tex_to_pdf E full_tex out_pdf false wb with
        | (Ok _, wc) => transform_persist E doc_id full_tex out_pdf wc
        | (Raise e, wc) =>
            (Raise e, snd (mark_error E doc_id (take 2000 (exn_str e)) wc))
        end
    | (Raise e, wb) =>
        (Raise e, snd (mark_error E doc_id (take 2000 (exn_str e)) wb))
    end.
Proof.
  intros Hdoc wa out_pdf.
  unfold normalize_original_task, mbind, M_bind, try_except.
  rewrite mark_processing_run, Hdoc. cbn [negb]. fold wa.
  destruct (normalize_text E doc_id wa) as [[[text|]|e] wb].
  - fold out_pdf. cbn zeta.
    destruct (compile_tex_to_pdf E _ out_pdf false wb) as [[[]|e] wc].
    + destruct (transform_persist_ok E doc_id
                  (make_full_tex E (text_to_tex_body_no_change E text) false)
                  out_pdf wc) as (wd & -> & _). done.
    + by rewrite mark_error_run.
  - done.
  - by rewrite mark_error_run.
Qed.

Lemma mark_error_frame E doc_id message w :
  let w' := snd (mark_error E doc_id message w) in
  versions w' = versions w /\ chunks_fts w' = chunks_fts w
  /\ files w' = files w /\ history w' = history w
  /\ (forall doc, documents w !! doc_id = Some doc ->
        documents w' !! doc_id
        = Some (set_updated_at (utcnow E (history w))
                  (set_last_error (Some message) (set_status error doc)))).
Proof.
  rewrite mark_error_run. cbn [snd].
  destruct (documents w !! doc_id) as [doc|] eqn:Hdoc.
  - cbn. repeat split. intros doc' [= <-]. by rewrite lookup_alter_eq, Hdoc.
  - repeat split. intros doc' [=].
Qed.

(** X5. Whenever [normalize_original_task] raises [e], the document is left
    with [status = "error"] and [last_error] the first 2000 characters of
    [str(e)], and the versions, the index and the files are as they were
    before the job. *)
Theorem normalize_original_task_failure (E : Env) (doc_id user_id : Z)
    (w : World) (e : exn) :
  let job := normalize_original_task E doc_id user_id w in
  fst job = Raise e ->
  status <$> documents (snd job) !! doc_id = Some error
  /\ (exists message,
        last_error <$> documents (snd job) !! doc_id = Some (Some message)
        /\ message = take 2000 (exn_str e)
        /\ (length message <= 2000)%nat)
  /\ versions (snd job) = versions w
  /\ chunks_fts (snd job) = chunks_fts w
  /\ files (snd job) = files w.
Proof.
  intros job. unfold job.
  destruct (documents w !! doc_id) as [doc|] eqn:Hdoc.
  2:{ cbv [normalize_original_task mark_processing db_session mbind M_bind
           mret M_ret get_document gets]. by rewrite Hdoc. }
  rewrite (normalize_original_task_run E doc_id user_id w doc Hdoc).
  cbn zeta. set (wa := set_documents _ w).
  assert (versions wa = versions w /\ chunks_fts wa = chunks_fts w
          /\ files wa = files w) as (Ha1 & Ha2 & Ha3) by done.
  pose proof (normalize_text_frame E doc_id wa) as (Hv & Hc & Hf & _ & Hd).
  specialize (Hd doc_id).
  destruct (normalize_text E doc_id wa) as [[[text|]|e0] wb];
    cbn [snd] in *; [| done |].
  - set (full_tex := make_full_tex E _ false).
    set (out_pdf := _generated_pdf_path E doc_id draft).
    pose proof (compile_tex_to_pdf_frame E full_tex out_pdf false wb)
      as (Hd2 & Hv2 & Hc2 & _).
    destruct (compile_tex_to_pdf E full_tex out_pdf false wb)
      as [[[]|e1] wc] eqn:Hcomp; cbn [snd] in *.
    + destruct (transform_persist_ok E doc_id full_tex out_pdf wc)
        as (wd & -> & _). done.
    + cbn [fst snd]. intros [= ->].
      pose proof (compile_tex_to_pdf_fail_files _ _ _ _ _ _ _ Hcomp) as Hf2.
      destruct Hd as [doc' Hdoc'].
      { unfold wa. cbn. rewrite lookup_alter_eq, Hdoc. by eauto. }
      rewrite <- Hd2 in Hdoc'.
      pose proof (mark_error_frame E doc_id (take 2000 (exn_str e)) wc)
        as (Hv3 & Hc3 & Hf3 & _ & Hdoc3).
      rewrite (Hdoc3 _ Hdoc'). cbn. split; [done|]. split.
      * eexists. split; [done|]. split; [done|]. rewrite length_take. lia.
      * repeat split; congruence.
  - cbn [fst snd]. intros [= ->].
    destruct Hd as [doc' Hdoc'].
    { unfold wa. cbn. rewrite lookup_alter_eq, Hdoc. by eauto. }
    pose proof (mark_error_frame E doc_id (take 2000 (exn_str e)) wb)
      as (Hv3 & Hc3 & Hf3 & _ & Hdoc3).
    rewrite (Hdoc3 _ Hdoc'). cbn. split; [done|]. split.
    + eexists. split; [done|]. split; [done|]. rewrite length_take. lia.
    + repeat split; congruence.
Qed.

(** Witness of X5: document 2, whose original cannot be opened. *)
Lemma normalize_original_task_failure_witness :
  fst (normalize_original_task env_ok 2 1 world_lost_original)
  = Raise (OtherException (utf8 "FileDataError")
             (utf8 "cannot open broken document: " ++ replicate 2500 46%N))
  /\ status <$> documents
       (snd (normalize_original_task env_ok 2 1 world_lost_original)) !! 2
     = Some error
  /\ files (snd (normalize_original_task env_ok 2 1 world_lost_original))
     = files world_lost_original.
Proof.
  assert (fst (normalize_original_task env_ok 2 1 world_lost_original)
          = Raise (OtherException (utf8 "FileDataError")
                     (utf8 "cannot open broken document: "
                        ++ replicate 2500 46%N))) as H
    by (vm_compute; reflexivity).
  split; [exact H|].
  destruct (normalize_original_task_failure env_ok 2 1 world_lost_original _ H)
    as (Hs & _ & _ & _ & Hf).
  split; [exact Hs|exact Hf].
Defined.

Lemma llm_calls_app h evs :
  llm_calls (h ++ evs) = (llm_calls h + llm_calls evs)%nat.
Proof. unfold llm_calls. by rewrite List.filter_app, length_app. Qed.

Lemma llm_calls_runs tex_source k :
  llm_calls (replicate k (EvRun tex_source)) = 0%nat.
Proof. unfold llm_calls. induction k as [|k IH]; [done|]. exact IH. Qed.

Lemma compile_tex_to_pdf_llm_calls E tex_source out_pdf_path toc w :
  llm_calls (history (snd (compile_tex_to_pdf E tex_source out_pdf_path toc w)))
  = llm_calls (history w).
Proof.
  unfold compile_tex_to_pdf, mbind, M_bind. cbn [modify].
  set (w0 := record (EvCompile tex_source out_pdf_path toc) w).
  destruct (compile_passes_frame E tex_source
              (Z.to_nat (compile_runs E toc)) None [] w0) as [k Hk].
  assert (llm_calls (history (after_runs tex_source k w0))
          = llm_calls (history w)) as Hcalls.
  { unfold after_runs, w0, record. cbn [history].
    rewrite !llm_calls_app, llm_calls_runs.
    unfold llm_calls at 2. cbn [List.filter is_llm_call length]. lia. }
  destruct (compile_passes E _ tex_source None [] w0)
    as [[[last_out [b|]]|e0] w1]; cbn [snd] in *; subst w1; by cbn.
Qed.

(** X6. [normalize_original_task] never asks anything of the rewrite
    provider, and compiles at most once. *)
Theorem normalize_original_task_no_llm (E : Env) (doc_id user_id : Z)
    (w : World) :
  let job := normalize_original_task E doc_id user_id w in
  llm_calls (history (snd job)) = llm_calls (history w)
  /\ (compile_calls (history (snd job)) <= S (compile_calls (history w)))%nat.
Proof.
  intros job. unfold job.
  destruct (documents w !! doc_id) as [doc|] eqn:Hdoc.
  2:{ cbv [normalize_original_task mark_processing db_session mbind M_bind
           mret M_ret get_document gets]. rewrite Hdoc. cbn. lia. }
  rewrite (normalize_original_task_run E doc_id user_id w doc Hdoc).
  cbn zeta. set (wa := set_documents _ w).
  assert (history wa = history w) as Ha by done.
  pose proof (normalize_text_frame E doc_id wa) as (_ & _ & _ & Hh & _).
  destruct (normalize_text E doc_id wa) as [[[text|]|e0] wb];
    cbn [snd] in *.
  - set (full_tex := make_full_tex E _ false).
    set (out_pdf := _generated_pdf_path E doc_id draft).
    pose proof (compile_tex_to_pdf_frame E full_tex out_pdf false wb)
      as (_ & _ & _ & Hn).
    pose proof (compile_tex_to_pdf_llm_calls E full_tex out_pdf false wb)
      as Hl.
    destruct (compile_tex_to_pdf E full_tex out_pdf false wb)
      as [[[]|e1] wc]; cbn [snd] in *.
    + destruct (transform_persist_ok E doc_id full_tex out_pdf wc)
        as (wd & -> & _ & Hh'). cbn [snd]. rewrite Hh', Hl, Hn, Hh, Ha. lia.
    + rewrite mark_error_history, Hl, Hn, Hh, Ha. lia.
  - rewrite Hh, Ha. lia.
  - rewrite mark_error_history, Hh, Ha. lia.
Qed.

(** X7. When the editor of the document is not active as the job starts,
    [normalize_original_task] returns without compiling: nothing is asked of
    the outside, no version, index entry or file changes, and the document
    gets [status = "ready"]. *)
Theorem normalize_original_task_inactive (E : Env) (doc_id user_id : Z)
    (w : World) (doc : Document) :
  documents w !! doc_id = Some doc ->
  _editor_active (utcnow E (history w)) doc = false ->
  let job := normalize_original_task E doc_id user_id w in
  fst job = Ok tt
  /\ history (snd job) = history w
  /\ versions (snd job) = versions w
  /\ chunks_fts (snd job) = chunks_fts w
  /\ files (snd job) = files w
  /\ status <$> documents (snd job) !! doc_id = Some ready
  /\ last_error <$> documents (snd job) !! doc_id = Some None.
Proof.
  intros Hdoc Hact job. unfold job.
  rewrite (normalize_original_task_run E doc_id user_id w doc Hdoc).
  cbn zeta.
  cbv [normalize_text db_session mbind M_bind mret M_ret get_document gets
       modify update_document now].
  cbn [documents history set_documents].
  rewrite lookup_alter_eq, Hdoc. cbn [fmap option_fmap option_map].
  assert (forall t s, _editor_active t
            (set_updated_at s (set_last_error None (set_status processing doc)))
          = _editor_active t doc) as Hsame by done.
  change (history (set_documents ?m w)) with (history w).
  rewrite Hsame, Hact.
  cbn [negb fst snd documents versions chunks_fts files history
       set_documents].
  rewrite !lookup_alter_eq, Hdoc. by cbn.
Qed.

(** Witness of X7: document 3, whose editor was closed. *)
Lemma normalize_original_task_inactive_witness :
  (documents world_closed !! 3 = Some doc_3
   /\ _editor_active (utcnow env_ok (history world_closed)) doc_3 = false)
  /\ fst (normalize_original_task env_ok 3 1 world_closed) = Ok tt
  /\ history (snd (normalize_original_task env_ok 3 1 world_closed))
     = history world_closed
  /\ status <$> documents
       (snd (normalize_original_task env_ok 3 1 world_closed)) !! 3
     = Some ready.
Proof.
  assert (documents world_closed !! 3 = Some doc_3) as H1
    by (vm_compute; reflexivity).
  assert (_editor_active (utcnow env_ok (history world_closed)) doc_3 = false)
    as H2 by (vm_compute; reflexivity).
  split; [by split|].
  destruct (normalize_original_task_inactive env_ok 3 1 world_closed doc_3
              H1 H2) as (Hr & Hh & _ & _ & _ & Hs & _).
  split; [exact Hr|]. split; [exact Hh|exact Hs].
Defined.

(** ** The [versions] table *)

Lemma fresh_version_id_above (vs : list Version) v :
  v ∈ vs -> v_id v < fresh_version_id vs.
Proof.
  unfold fresh_version_id. induction vs as [|x vs IH]; intros Hin.
  - by apply elem_of_nil in Hin.
  - cbn [foldr]. apply elem_of_cons in Hin as [->|Hin]; [lia|].
    specialize (IH Hin). lia.
Qed.

Lemma fresh_version_id_new (vs : list Version) :
  fresh_version_id vs ∉ v_id <$> vs.
Proof.
  intros (v & Heq & Hin)%list_elem_of_fmap.
  pose proof (fresh_version_id_above vs v Hin). lia.
Qed.

(** An [UPDATE] that keeps the key columns keeps both constraints. *)
Lemma update_row_keys (v : Version) (f : Version -> Version)
    (vs : list Version) :
  (forall v', v_id (f v') = v_id v' /\ v_doc_id (f v') = v_doc_id v'
              /\ kind (f v') = kind v') ->
  v_id <$> (update_row v f <$> vs) = v_id <$> vs
  /\ (fun v => (v_doc_id v, kind v)) <$> (update_row v f <$> vs)
     = (fun v => (v_doc_id v, kind v)) <$> vs
  /\ forall d k, versions_of d k (update_row v f <$> vs)
                 = update_row v f <$> versions_of d k vs.
Proof.
  intros Hf.
  assert (forall v', v_id (update_row v f v') = v_id v'
            /\ v_doc_id (update_row v f v') = v_doc_id v'
            /\ kind (update_row v f v') = kind v') as Hu.
  { intros v'. unfold update_row. destruct (bool_decide _); [apply Hf|done]. }
  split; [|split].
  - rewrite <- list_fmap_compose. apply list_fmap_ext. intros i x _.
    apply Hu.
  - rewrite <- list_fmap_compose. apply list_fmap_ext. intros i x _.
    cbn. destruct (Hu x) as (_ & -> & ->). done.
  - intros d k. unfold versions_of.
    induction vs as [|x vs IH]; [done|].
    cbn [fmap list_fmap List.filter].
    assert (version_of d k (update_row v f x) = version_of d k x) as ->.
    { unfold version_of. destruct (Hu x) as (_ & -> & ->). done. }
    destruct (version_of d k x); cbn [fmap list_fmap]; by rewrite IH.
Qed.

(** Under [uq_doc_kind], [.first()] returns the only row of the key. *)
Lemma uq_versions_of doc_id k (vs : list Version) :
  uq_doc_kind vs ->
  versions_of doc_id k vs
  = match List.find (version_of doc_id k) vs with
    | Some v => [v]
    | None => []
    end.
Proof.
  unfold uq_doc_kind, versions_of.
  induction vs as [|x vs IH]; intros Huq; [done|].
  cbn [fmap list_fmap] in Huq. apply NoDup_cons in Huq as [Hx Huq].
  cbn [List.filter List.find].
  destruct (version_of doc_id k x) eqn:Hk; [|by apply IH].
  f_equal. rewrite (IH Huq).
  destruct (List.find (version_of doc_id k) vs) as [y|] eqn:Hfind; [|done].
  exfalso. apply Hx. apply find_elem_of in Hfind as [Hin Hy].
  apply list_elem_of_fmap. exists y. split; [|done].
  apply version_of_key in Hk, Hy. congruence.
Qed.

Lemma add_row_keys (vs : list Version) doc_id k tex pdf plain t :
  versions_pk vs -> uq_doc_kind vs ->
  List.find (version_of doc_id k) vs = None ->
  let vs' := vs ++ [mkVersion (fresh_version_id vs) doc_id k tex pdf plain t t] in
  versions_pk vs' /\ uq_doc_kind vs'.
Proof.
  unfold versions_pk, uq_doc_kind. intros Hpk Huq Hnone. cbn zeta.
  rewrite !fmap_app. cbn [fmap list_fmap]. split.
  - apply NoDup_app. split; [done|]. split; [|apply NoDup_singleton].
    intros x Hx ->%list_elem_of_singleton. cbn in Hx.
    by apply fresh_version_id_new in Hx.
  - apply NoDup_app. split; [done|]. split; [|apply NoDup_singleton].
    intros x Hx ->%list_elem_of_singleton. cbn in Hx.
    apply list_elem_of_fmap in Hx as (y & Hy & Hin).
    pose proof (find_none_elem_of _ _ y Hnone Hin) as Hfalse.
    assert (version_of doc_id k y = true) as Htrue
      by (apply version_of_key; congruence).
    congruence.
Qed.

Lemma versions_of_app d k (vs vs' : list Version) :
  versions_of d k (vs ++ vs') = versions_of d k vs ++ versions_of d k vs'.
Proof. unfold versions_of. apply List.filter_app. Qed.

(** The rows and index entries [write_draft] leaves. *)
Lemma transform_persist_active_run E doc_id full_tex out_pdf w doc :
  documents w !! doc_id = Some doc ->
  _editor_active (utcnow E (history w)) doc = true ->
  let t := utcnow E (history w) in
  let plain := tex_to_text E full_tex in
  transform_persist E doc_id full_tex out_pdf w
  = (Ok tt,
     mkWorld
       (alter (fun d => set_last_error None
                          (set_updated_at t (set_status ready d)))
          doc_id (documents w))
       match List.find (version_of doc_id draft) (versions w) with
       | None =>
           versions w
           ++ [mkVersion (fresh_version_id (versions w)) doc_id draft
                 full_tex out_pdf plain t t]
       | Some v =>
           update_row v (fun v' =>
             mkVersion (v_id v') (v_doc_id v') (kind v') full_tex out_pdf
               plain (v_created_at v') t) <$> versions w
       end
       (fts_rebuild (chunks_fts w) doc_id draft plain)
       (files w) (history w)).
Proof.
  intros Hdoc Hact t plain. run_job. rewrite Hdoc, Hact. cbn [negb].
  by destruct (List.find (version_of doc_id draft) (versions w)).
Qed.

(** X8. The persistence step with an active editor is an upsert of the one
    draft row of the document. *)
Theorem transform_persist_upsert (E : Env) (doc_id : Z)
    (full_tex out_pdf : str) (w : World) (doc : Document) :
  documents w !! doc_id = Some doc ->
  _editor_active (utcnow E (history w)) doc = true ->
  versions_pk (versions w) -> uq_doc_kind (versions w) ->
  let w' := snd (transform_persist E doc_id full_tex out_pdf w) in
  let plain := tex_to_text E full_tex in
  (exists v,
     versions_of doc_id draft (versions w') = [v]
     /\ tex_source v = full_tex /\ pdf_path v = out_pdf
     /\ plain_text v = plain
     /\ v_updated_at v = utcnow E (history w)
     /\ (forall old,
           List.find (version_of doc_id draft) (versions w) = Some old ->
           v_id v = v_id old /\ v_created_at v = v_created_at old)
     /\ (List.find (version_of doc_id draft) (versions w) = None ->
         v_id v ∉ v_id <$> versions w))
  /\ chunks_of doc_id draft (chunks_fts w')
     = imap (fun i c => mkChunk doc_id draft (str_of_nat i) c)
         (chunk_text plain 1000)
  /\ (forall d k, (d, k) <> (doc_id, draft) ->
        versions_of d k (versions w') = versions_of d k (versions w)
        /\ chunks_of d k (chunks_fts w') = chunks_of d k (chunks_fts w))
  /\ versions_pk (versions w') /\ uq_doc_kind (versions w')
  /\ status <$> documents w' !! doc_id = Some ready
  /\ last_error <$> documents w' !! doc_id = Some None
  /\ files w' = files w.
Proof.
  intros Hdoc Hact Hpk Huq w' plain. unfold w'.
  rewrite (transform_persist_active_run E doc_id full_tex out_pdf w doc Hdoc Hact).
  cbn [snd versions chunks_fts documents files]. fold plain.
  set (t := utcnow E (history w)).
  set (f := fun v' : Version =>
         mkVersion (v_id v') (v_doc_id v') (kind v') full_tex out_pdf plain
           (v_created_at v') t).
  assert (forall v', v_id (f v') = v_id v' /\ v_doc_id (f v') = v_doc_id v'
                     /\ kind (f v') = kind v') as Hf by done.
  pose proof (uq_versions_of doc_id draft (versions w) Huq) as Hdraft.
  assert (forall d k, (d, k) <> (doc_id, draft) ->
            chunks_of d k (fts_rebuild (chunks_fts w) doc_id draft plain)
            = chunks_of d k (chunks_fts w)) as Hchunks
    by (intros d k Hne; by apply chunks_of_fts_rebuild_other).
  assert (status <$> alter (fun d => set_last_error None
                              (set_updated_at t (set_status ready d)))
                       doc_id (documents w) !! doc_id = Some ready
          /\ last_error <$> alter (fun d => set_last_error None
                              (set_updated_at t (set_status ready d)))
                       doc_id (documents w) !! doc_id = Some None) as [Hs He]
    by (rewrite lookup_alter_eq, Hdoc; done).
  destruct (List.find (version_of doc_id draft) (versions w)) as [old|] eqn:Hfind.
  - destruct (update_row_keys old f (versions w) Hf) as (Hids & Hkeys & Hof).
    apply find_elem_of in Hfind as [Hin Hold].
    split; [|split; [|split; [|split; [|split]]]].
    + exists (f old). rewrite Hof, Hdraft. cbn [fmap list_fmap].
      unfold update_row. rewrite bool_decide_eq_true_2 by done.
      repeat split; try done; cbn; congruence.
    + apply chunks_of_fts_rebuild_same.
    + intros d k Hne. split; [|by apply Hchunks]. rewrite Hof.
      erewrite list_fmap_ext; [apply list_fmap_id|].
      intros i x Hx. cbn. unfold update_row.
      rewrite bool_decide_eq_false_2; [done|]. intros Heq.
      apply list_elem_of_lookup_2 in Hx. unfold versions_of in Hx.
      apply filter_elem_of in Hx as [Hx Hk].
      assert (x = old) as -> by (by apply (NoDup_fmap_eq v_id (versions w))).
      apply version_of_key in Hk, Hold. congruence.
    + unfold versions_pk. by rewrite Hids.
    + unfold uq_doc_kind. by rewrite Hkeys.
    + done.
  - destruct (add_row_keys (versions w) doc_id draft full_tex out_pdf plain t
                Hpk Huq Hfind) as [Hpk' Huq'].
    split; [|split; [|split; [|split; [|split]]]].
    + eexists. rewrite versions_of_app, Hdraft. cbn [app].
      unfold versions_of. cbn [List.filter].
      assert (version_of doc_id draft
                (mkVersion (fresh_version_id (versions w)) doc_id draft
                   full_tex out_pdf plain t t) = true) as ->
        by (by apply version_of_key).
      repeat split; try done. intros _. cbn [v_id].
      apply fresh_version_id_new.
    + apply chunks_of_fts_rebuild_same.
    + intros d k Hne. split; [|by apply Hchunks].
      rewrite versions_of_app. unfold versions_of at 2. cbn [List.filter].
      assert (version_of d k
                (mkVersion (fresh_version_id (versions w)) doc_id draft
                   full_tex out_pdf plain t t) = false) as ->.
      { apply not_true_is_false. intros Hk%version_of_key. by apply Hne. }
      apply app_nil_r.
    + done.
    + done.
    + done.
Qed.

(** Witness of X8: document 1 with a draft, its editor active. *)
Lemma transform_persist_upsert_witness :
  (documents world_draft_and_saved !! 1 = Some doc_1
   /\ _editor_active (utcnow env_ok (history world_draft_and_saved)) doc_1
      = true
   /\ versions_pk (versions world_draft_and_saved)
   /\ uq_doc_kind (versions world_draft_and_saved))
  /\ versions_pk
       (versions (snd (transform_persist env_ok 1 (utf8 "tex")
                         (utf8 "storage/generated/doc_1_draft.pdf")
                         world_draft_and_saved)))
  /\ uq_doc_kind
       (versions (snd (transform_persist env_ok 1 (utf8 "tex")
                         (utf8 "storage/generated/doc_1_draft.pdf")
                         world_draft_and_saved))).
Proof.
  assert (documents world_draft_and_saved !! 1 = Some doc_1) as H1
    by (vm_compute; reflexivity).
  assert (_editor_active (utcnow env_ok (history world_draft_and_saved)) doc_1
          = true) as H2 by (vm_compute; reflexivity).
  assert (versions_pk (versions world_draft_and_saved)) as H3
    by (apply (bool_decide_unpack _); vm_compute; exact I).
  assert (uq_doc_kind (versions world_draft_and_saved)) as H4
    by (apply (bool_decide_unpack _); vm_compute; exact I).
  split; [by repeat split|].
  destruct (transform_persist_upsert env_ok 1 (utf8 "tex")
              (utf8 "storage/generated/doc_1_draft.pdf")
              world_draft_and_saved doc_1 H1 H2 H3 H4)
    as (_ & _ & _ & Hpk & Huq & _).
  split; [exact Hpk|exact Huq].
Defined.

(** The persistence step keeps the constraints of the [versions] table. *)
Lemma transform_persist_keys E doc_id full_tex out_pdf w :
  versions_pk (versions w) -> uq_doc_kind (versions w) ->
  let w' := snd (transform_persist E doc_id full_tex out_pdf w) in
  versions_pk (versions w') /\ uq_doc_kind (versions w').
Proof.
  intros Hpk Huq. cbn zeta.
  destruct (documents w !! doc_id) as [doc|] eqn:Hdoc.
  2:{ run_job. by rewrite Hdoc. }
  destruct (_editor_active (utcnow E (history w)) doc) eqn:Hact.
  2:{ by rewrite (transform_persist_inactive E doc_id full_tex out_pdf w doc). }
  rewrite (transform_persist_active_run E doc_id full_tex out_pdf w doc Hdoc Hact).
  cbn [snd versions].
  destruct (List.find (version_of doc_id draft) (versions w)) as [old|] eqn:Hfind.
  - match goal with
    | |- context [update_row old ?f] =>
        destruct (update_row_keys old f (versions w)) as (Hids & Hkeys & _);
          [done|]
    end.
    unfold versions_pk, uq_doc_kind. by rewrite Hids, Hkeys.
  - by apply add_row_keys.
Qed.

(** The rows after a rewrite job are those before it, or those the
    persistence step leaves from them. *)
Lemma transform_tex_task_versions E doc_id base_kind toc structure spelling
    extra user_id w :
  let job :=
    transform_tex_task E doc_id base_kind toc structure spelling extra
      user_id w in
  versions (snd job) = versions w
  \/ exists full_tex out_pdf wc,
       versions wc = versions w
       /\ versions (snd job)
          = versions (snd (transform_persist E doc_id full_tex out_pdf wc)).
Proof.
  cbn zeta. unfold transform_tex_task, mbind, M_bind.
  rewrite mark_processing_run.
  destruct (documents w !! doc_id) as [doc|] eqn:Hdoc; [|by left].
  cbn [negb]. set (wa := set_documents _ w).
  assert (versions wa = versions w) as Ha by done.
  unfold try_except, transform_body, mbind, M_bind.
  pose proof (transform_prompts_frame E doc_id base_kind toc structure
                spelling extra wa) as (Hb & _).
  destruct (transform_prompts E doc_id base_kind toc structure spelling
              extra wa) as [[[[sys user]|]|e] wb]; cbn [snd] in Hb.
  - pose proof (transform_compile_frame E doc_id toc sys user wb)
      as (_ & Hc & _).
    destruct (transform_compile E doc_id toc sys user wb)
      as [[[[full_tex out_pdf] model]|e] wc]; cbn [snd] in Hc.
    + right. exists full_tex, out_pdf, wc. split; [by rewrite Hc, Hb|].
      destruct (transform_persist_ok E doc_id full_tex out_pdf wc)
        as (wd & -> & _). done.
    + left. unfold raise. cbn [snd].
      pose proof (mark_error_frame E doc_id (exn_str e) wc) as (Hd & _).
      cbn zeta in Hd.
      destruct (mark_error E doc_id (exn_str e) wc) as [[[]|e'] wd];
        cbn [snd] in *; by rewrite Hd, Hc, Hb.
  - left. unfold mret, M_ret. cbn [snd]. by rewrite Hb.
  - left. unfold raise. cbn [snd].
    pose proof (mark_error_frame E doc_id (exn_str e) wb) as (Hd & _).
    cbn zeta in Hd.
    destruct (mark_error E doc_id (exn_str e) wb) as [[[]|e'] wd];
      cbn [snd] in *; by rewrite Hd, Hb.
Qed.

Lemma normalize_original_task_versions E doc_id user_id w :
  let job := normalize_original_task E doc_id user_id w in
  versions (snd job) = versions w
  \/ exists full_tex out_pdf wc,
       versions wc = versions w
       /\ versions (snd job)
          = versions (snd (transform_persist E doc_id full_tex out_pdf wc)).
Proof.
  cbn zeta.
  destruct (documents w !! doc_id) as [doc|] eqn:Hdoc.
  2:{ left. run_all. by rewrite Hdoc. }
  rewrite (normalize_original_task_run E doc_id user_id w doc Hdoc).
  cbn zeta. set (wa := set_documents _ w).
  assert (versions wa = versions w) as Ha by done.
  pose proof (normalize_text_frame E doc_id wa) as (Hb & _).
  destruct (normalize_text E doc_id wa) as [[[text|]|e0] wb]; cbn [snd] in *.
  - set (full_tex := make_full_tex E _ false).
    set (out_pdf := _generated_pdf_path E doc_id draft).
    pose proof (compile_tex_to_pdf_frame E full_tex out_pdf false wb)
      as (_ & Hc & _).
    destruct (compile_tex_to_pdf E full_tex out_pdf false wb)
      as [[[]|e1] wc]; cbn [snd] in *.
    + right. exists full_tex, out_pdf, wc. split; [by rewrite Hc, Hb|done].
    + left. pose proof (mark_error_frame E doc_id (take 2000 (exn_str e1)) wc)
        as (Hd & _). cbn zeta in Hd. by rewrite Hd, Hc, Hb.
  - left. by rewrite Hb.
  - left. pose proof (mark_error_frame E doc_id (take 2000 (exn_str e0)) wb)
      as (Hd & _). cbn zeta in Hd. by rewrite Hd, Hb.
Qed.

Lemma process_pdf_task_versions E doc_id w :
  versions (snd (process_pdf_task E doc_id w)) = versions w.
Proof.
  destruct (documents w !! doc_id) as [doc|] eqn:Hdoc.
  2:{ run_all. by rewrite Hdoc. }
  rewrite (process_pdf_task_run E doc_id w doc Hdoc). cbn zeta. cbn [snd].
  by destruct (extract_text_from_pdf E (files w !! original_path doc)).
Qed.

(** Relabeling the draft row keeps [uq_doc_kind] once no saved row is
    left. *)
Lemma promote_uq E doc_id (vs : list Version) dr t :
  versions_pk vs -> uq_doc_kind vs -> dr ∈ vs ->
  version_of doc_id draft dr = true ->
  (forall v, v ∈ vs -> version_of doc_id saved v = false) ->
  uq_doc_kind (update_row dr (promoted E doc_id t) <$> vs).
Proof.
  intros Hpk Huq Hdr Hdraft Hsaved. unfold uq_doc_kind.
  rewrite <- list_fmap_compose.
  apply NoDup_fmap_2_strong; [|by eapply NoDup_fmap_1].
  apply version_of_key in Hdraft.
  assert (forall x y, x ∈ vs -> y ∈ vs -> v_id x = v_id dr ->
            v_id y <> v_id dr ->
            (v_doc_id (promoted E doc_id t x), kind (promoted E doc_id t x))
            <> (v_doc_id y, kind y)) as Hne.
  { intros x y Hx Hy Hxd Hyd Heq.
    assert (x = dr) as -> by (by apply (NoDup_fmap_eq v_id vs)).
    pose proof (Hsaved y Hy) as Hfalse.
    assert (version_of doc_id saved y = true) as Htrue
      by (apply version_of_key; unfold promoted in Heq;
          cbn [v_doc_id kind] in Heq; congruence).
    congruence. }
  intros x y Hx Hy. cbn. unfold update_row.
  destruct (bool_decide (v_id x = v_id dr)) eqn:Hxd;
    destruct (bool_decide (v_id y = v_id dr)) eqn:Hyd.
  - apply bool_decide_eq_true in Hxd, Hyd. intros _.
    apply (NoDup_fmap_eq v_id vs); [done..|congruence].
  - apply bool_decide_eq_true in Hxd. apply bool_decide_eq_false in Hyd.
    intros Heq. by destruct (Hne x y).
  - apply bool_decide_eq_true in Hyd. apply bool_decide_eq_false in Hxd.
    intros Heq. by destruct (Hne y x).
  - intros Heq. by apply (NoDup_fmap_eq (fun v => (v_doc_id v, kind v)) vs).
Qed.

Lemma promote_keys E doc_id w :
  versions_pk (versions w) -> uq_doc_kind (versions w) ->
  let w' := snd (promote_draft_to_saved E doc_id w) in
  versions_pk (versions w') /\ uq_doc_kind (versions w').
Proof.
  intros Hpk Huq. cbn zeta.
  destruct (documents w !! doc_id) as [doc|] eqn:Hdoc.
  2:{ run_all. by rewrite Hdoc. }
  destruct (List.find (version_of doc_id draft) (versions w)) as [dr|] eqn:Hdr.
  2:{ run_all. by rewrite Hdoc, Hdr. }
  destruct (promote_run E doc_id w doc dr _ Hdoc Hdr eq_refl)
    as (w' & t & t' & -> & Hv & _). cbn [snd]. rewrite Hv.
  split; [by apply promote_versions_after|].
  destruct (List.find (version_of doc_id saved) (versions w)) as [old|] eqn:Hold.
  - destruct (evict_saved doc_id (versions w) dr old Hpk Huq Hdr Hold)
      as (Hpk' & Huq' & Hin & Hsaved & _).
    apply promote_uq; try done. by apply find_elem_of in Hdr as [_ ?].
  - apply find_elem_of in Hdr as [Hin Hdraft]. apply promote_uq; try done.
    intros v Hin'. by eapply find_none_elem_of.
Qed.

Lemma discard_keys E doc_id w :
  versions_pk (versions w) -> uq_doc_kind (versions w) ->
  let w' := snd (discard_draft E doc_id w) in
  versions_pk (versions w') /\ uq_doc_kind (versions w').
Proof.
  intros Hpk Huq. cbn zeta.
  destruct (documents w !! doc_id) as [doc|] eqn:Hdoc.
  2:{ by rewrite discard_missing. }
  destruct (discard_run E doc_id w _ (ex_intro _ doc Hdoc) eq_refl)
    as (w' & -> & Hv & _). cbn [snd]. rewrite Hv.
  destruct (List.find (version_of doc_id draft) (versions w)); [|done].
  split; by apply NoDup_fmap_filter.
Qed.

(** X9. Every job keeps the two constraints of the [versions] table: the
    primary key and [uq_doc_kind]. *)
Theorem jobs_keep_version_constraints (E : Env) (doc_id : Z)
    (base_kind : str) (toc structure spelling : bool) (extra : str)
    (user_id : Z) (w : World) :
  versions_pk (versions w) -> uq_doc_kind (versions w) ->
  let kept (job : M unit) :=
    versions_pk (versions (snd (job w)))
    /\ uq_doc_kind (versions (snd (job w))) in
  kept (process_pdf_task E doc_id)
  /\ kept (transform_tex_task E doc_id base_kind toc structure spelling
             extra user_id)
  /\ kept (normalize_original_task E doc_id user_id)
  /\ kept (promote_draft_to_saved E doc_id)
  /\ kept (discard_draft E doc_id).
Proof.
  intros Hpk Huq. cbn zeta.
  split; [by rewrite process_pdf_task_versions|].
  split.
  { destruct (transform_tex_task_versions E doc_id base_kind toc structure
                spelling extra user_id w)
      as [->|(full_tex & out_pdf & wc & Hc & ->)]; [done|].
    apply transform_persist_keys; by rewrite Hc. }
  split.
  { destruct (normalize_original_task_versions E doc_id user_id w)
      as [->|(full_tex & out_pdf & wc & Hc & ->)]; [done|].
    apply transform_persist_keys; by rewrite Hc. }
  split; [by apply promote_keys|by apply discard_keys].
Qed.

(** Witness of X9: document 1 with a draft and a saved version, promoted. *)
Lemma jobs_keep_version_constraints_witness :
  (versions_pk (versions world_draft_and_saved)
   /\ uq_doc_kind (versions world_draft_and_saved))
  /\ versions_pk
       (versions (snd (promote_draft_to_saved env_ok 1 world_draft_and_saved)))
  /\ uq_doc_kind
       (versions (snd (promote_draft_to_saved env_ok 1 world_draft_and_saved))).
Proof.
  assert (versions_pk (versions world_draft_and_saved)) as H3
    by (apply (bool_decide_unpack _); vm_compute; exact I).
  assert (uq_doc_kind (versions world_draft_and_saved)) as H4
    by (apply (bool_decide_unpack _); vm_compute; exact I).
  split; [by split|].
  destruct (jobs_keep_version_constraints env_ok 1 original false false false
              [] 1 world_draft_and_saved H3 H4) as (_ & _ & _ & Hp & _).
  exact Hp.
Defined.

Lemma generated_pdf_path_inj E doc_id k k' :
  _generated_pdf_path E doc_id k = _generated_pdf_path E doc_id k' -> k = k'.
Proof.
  unfold _generated_pdf_path. intros H.
  do 5 apply app_inv_head in H. by apply app_inv_tail in H.
Qed.

Lemma filter_filter_absorb {A} (p q : A -> bool) (l : list A) :
  (forall x, x ∈ l -> p x = true -> q x = true) ->
  List.filter p (List.filter q l) = List.filter p l.
Proof.
  induction l as [|x l IH]; intros Hpq; [done|]. cbn [List.filter].
  assert (List.filter p (List.filter q l) = List.filter p l) as IH'
    by (apply IH; intros y Hy; apply Hpq; by right).
  destruct (p x) eqn:Hp.
  - rewrite (Hpq x) by (done || left). cbn [List.filter]. by rewrite Hp, IH'.
  - destruct (q x); [|done]. cbn [List.filter]. by rewrite Hp.
Qed.

(** [s.delete(v)] leaves the rows of every other (document, kind). *)
Lemma delete_row_other (vs : list Version) v d k :
  versions_pk vs -> v ∈ vs -> (v_doc_id v, kind v) <> (d, k) ->
  versions_of d k
    (List.filter (fun v' => bool_decide (v_id v' ≠ v_id v)) vs)
  = versions_of d k vs.
Proof.
  intros Hpk Hin Hne. unfold versions_of. apply filter_filter_absorb.
  intros x Hx Hk. apply bool_decide_eq_true_2. intros Heq.
  assert (x = v) as -> by (by apply (NoDup_fmap_eq v_id vs)).
  by apply version_of_key in Hk.
Qed.

(** X10. With a draft row, [discard_draft] removes that row, its artifact,
    the generated draft file and the draft-kind index entries of the
    document, and nothing of any other kind or document. *)
Theorem discard_draft_removes_draft (E : Env) (doc_id : Z) (w : World)
    (dr : Version) :
  is_Some (documents w !! doc_id) ->
  versions_pk (versions w) -> uq_doc_kind (versions w) ->
  List.find (version_of doc_id draft) (versions w) = Some dr ->
  let job := discard_draft E doc_id w in
  let w' := snd job in
  fst job = Ok tt
  /\ versions_of doc_id draft (versions w') = []
  /\ chunks_of doc_id draft (chunks_fts w') = []
  /\ files w' !! _generated_pdf_path E doc_id draft = None
  /\ (pdf_path dr <> [] -> files w' !! pdf_path dr = None)
  /\ (forall p, p <> _generated_pdf_path E doc_id draft -> p <> pdf_path dr ->
        files w' !! p = files w !! p)
  /\ (forall d k, (d, k) <> (doc_id, draft) ->
        versions_of d k (versions w') = versions_of d k (versions w)
        /\ chunks_of d k (chunks_fts w') = chunks_of d k (chunks_fts w))
  /\ documents w' = documents w.
Proof.
  intros Hdoc Hpk Huq Hdr job w'. unfold w', job. clear w' job.
  destruct (discard_run E doc_id w _ Hdoc eq_refl)
    as (w' & -> & Hvs & Hcs & Hfs & Hds & _).
  rewrite Hdr in Hvs, Hfs. cbn [fst snd].
  pose proof Hdr as [Hin Hkey]%find_elem_of.
  split; [done|]. split; [|split; [|split; [|split; [|split; [|split]]]]].
  - rewrite Hvs, uq_versions_of by (by apply NoDup_fmap_filter).
    by rewrite (delete_row_unique doc_id draft (versions w) dr).
  - rewrite Hcs. apply fts_delete_none.
  - rewrite Hfs. apply lookup_delete_eq.
  - intros Hne. rewrite Hfs, bool_decide_eq_true_2 by done.
    destruct (decide (_generated_pdf_path E doc_id draft = pdf_path dr))
      as [->|Hp]; [apply lookup_delete_eq|].
    rewrite lookup_delete_ne by done. apply lookup_delete_eq.
  - intros p Hp1 Hp2. rewrite Hfs, lookup_delete_ne by done.
    destruct (bool_decide (pdf_path dr ≠ [])); [|done].
    by rewrite lookup_delete_ne.
  - intros d k Hne. split.
    + rewrite Hvs. apply delete_row_other; [done..|].
      apply version_of_key in Hkey. congruence.
    + rewrite Hcs. by apply chunks_of_fts_delete_other.
  - done.
Qed.

(** Witness of X10: document 1 with a draft and a saved version. *)
Lemma discard_draft_removes_draft_witness :
  (is_Some (documents world_draft_and_saved !! 1)
   /\ versions_pk (versions world_draft_and_saved)
   /\ uq_doc_kind (versions world_draft_and_saved)
   /\ List.find (version_of 1 draft) (versions world_draft_and_saved)
      = Some draft_row_1)
  /\ fst (discard_draft env_ok 1 world_draft_and_saved) = Ok tt
  /\ versions_of 1 draft
       (versions (snd (discard_draft env_ok 1 world_draft_and_saved))) = [].
Proof.
  assert (is_Some (documents world_draft_and_saved !! 1)) as H1
    by (apply is_Some_compute; vm_compute; exact I).
  assert (versions_pk (versions world_draft_and_saved)) as H2
    by (apply (bool_decide_unpack _); vm_compute; exact I).
  assert (uq_doc_kind (versions world_draft_and_saved)) as H3
    by (apply (bool_decide_unpack _); vm_compute; exact I).
  assert (List.find (version_of 1 draft) (versions world_draft_and_saved)
          = Some draft_row_1) as H4 by (vm_compute; reflexivity).
  split; [by repeat split|].
  destruct (discard_draft_removes_draft env_ok 1 world_draft_and_saved
              draft_row_1 H1 H2 H3 H4) as (Hr & Hv & _).
  split; [exact Hr|exact Hv].
Defined.

(** X11. Promotion moves the artifact: when the file of the draft row exists
    and is not the file of the prior saved row, the saved row afterwards
    points at the generated saved path, which holds the bytes of the draft's
    file, and the generated draft path is free. Every other file, apart from
    the prior saved artifact, is untouched; the document is ready. *)
Theorem promote_moves_artifact (E : Env) (doc_id : Z) (w : World)
    (doc : Document) (dr : Version) (b : blob) :
  documents w !! doc_id = Some doc ->
  versions_pk (versions w) -> uq_doc_kind (versions w) ->
  List.find (version_of doc_id draft) (versions w) = Some dr ->
  files w !! pdf_path dr = Some b ->
  (forall old, List.find (version_of doc_id saved) (versions w) = Some old ->
     pdf_path old <> pdf_path dr) ->
  let w' := snd (promote_draft_to_saved E doc_id w) in
  let saved_pdf := _generated_pdf_path E doc_id saved in
  let draft_pdf := _generated_pdf_path E doc_id draft in
  pdf_path <$> versions_of doc_id saved (versions w') = [saved_pdf]
  /\ files w' !! saved_pdf = Some b
  /\ files w' !! draft_pdf = None
  /\ (forall p, p <> saved_pdf -> p <> draft_pdf ->
        (forall old,
           List.find (version_of doc_id saved) (versions w) = Some old ->
           p <> pdf_path old) ->
        files w' !! p = files w !! p)
  /\ status <$> documents w' !! doc_id = Some ready
  /\ last_error <$> documents w' !! doc_id = Some None.
Proof.
  intros Hdoc Hpk Huq Hdr Hfile Hold w' saved_pdf draft_pdf.
  unfold w'. clear w'.
  destruct (promote_run E doc_id w doc dr _ Hdoc Hdr eq_refl)
    as (w' & t & t' & -> & Hvs & _ & Hfs & Hds & _).
  cbn [snd].
  assert (saved_pdf <> draft_pdf) as Hne.
  { intros Heq%generated_pdf_path_inj. by apply draft_not_saved. }
  destruct (promote_versions_after E doc_id (versions w) dr t Hpk Huq Hdr)
    as (Hsaved & _).
  set (fs0 := match List.find (version_of doc_id saved) (versions w) with
              | Some old =>
                  if bool_decide (pdf_path old ≠ [])
                  then delete (pdf_path old) (files w) else files w
              | None => files w
              end) in *.
  assert (forall p,
            (forall old,
               List.find (version_of doc_id saved) (versions w) = Some old ->
               p <> pdf_path old) ->
            fs0 !! p = files w !! p) as Hfs0.
  { intros p Hp. unfold fs0.
    destruct (List.find (version_of doc_id saved) (versions w)) as [old|];
      [|done].
    destruct (bool_decide (pdf_path old ≠ [])); [|done].
    apply lookup_delete_ne. intros Heq. by apply (Hp old). }
  assert (fs0 !! pdf_path dr = Some b) as Hsrc.
  { rewrite Hfs0; [done|]. intros old Ho Heq. by apply (Hold old). }
  split; [|split; [|split; [|split]]].
  - rewrite Hvs, Hsaved. done.
  - rewrite Hfs, lookup_delete_ne by done. unfold copied.
    rewrite Hsrc. cbn [from_option]. apply lookup_insert_eq.
  - rewrite Hfs. apply lookup_delete_eq.
  - intros p Hp1 Hp2 Hp3. rewrite Hfs, lookup_delete_ne by done.
    unfold copied. rewrite Hsrc. cbn [from_option].
    rewrite lookup_insert_ne by done. by apply Hfs0.
  - rewrite Hds, lookup_alter_eq, Hdoc. done.
Qed.

(** Witness of X11: document 1 with a draft and a saved version, both on disk. *)
Lemma promote_moves_artifact_witness :
  (documents world_draft_and_saved !! 1 = Some doc_1
   /\ versions_pk (versions world_draft_and_saved)
   /\ uq_doc_kind (versions world_draft_and_saved)
   /\ List.find (version_of 1 draft) (versions world_draft_and_saved)
      = Some draft_row_1
   /\ files world_draft_and_saved !! pdf_path draft_row_1
      = Some (utf8 "new pdf"))
  /\ files world_promoted !! _generated_pdf_path env_ok 1 saved
     = Some (utf8 "new pdf")
  /\ files world_promoted !! _generated_pdf_path env_ok 1 draft = None.
Proof.
  assert (documents world_draft_and_saved !! 1 = Some doc_1) as H1
    by (vm_compute; reflexivity).
  assert (versions_pk (versions world_draft_and_saved)) as H2
    by (apply (bool_decide_unpack _); vm_compute; exact I).
  assert (uq_doc_kind (versions world_draft_and_saved)) as H3
    by (apply (bool_decide_unpack _); vm_compute; exact I).
  assert (List.find (version_of 1 draft) (versions world_draft_and_saved)
          = Some draft_row_1) as H4 by (vm_compute; reflexivity).
  assert (files world_draft_and_saved !! pdf_path draft_row_1
          = Some (utf8 "new pdf")) as H5 by (vm_compute; reflexivity).
  assert (forall old,
            List.find (version_of 1 saved) (versions world_draft_and_saved)
            = Some old -> pdf_path old <> pdf_path draft_row_1) as H6.
  { intros old Hold. vm_compute in Hold. injection Hold as <-.
    vm_compute. discriminate. }
  split; [by repeat split|].
  destruct (promote_moves_artifact env_ok 1 world_draft_and_saved doc_1
              draft_row_1 _ H1 H2 H3 H4 H5 H6) as (_ & Hs & Hd & _).
  split; [exact Hs|exact Hd].
Defined.

(** ** The rewrite provider *)

Lemma llm_calls_after_posts messages mids w :
  llm_calls (history (after_posts messages mids w))
  = (llm_calls (history w) + length mids)%nat.
Proof.
  unfold after_posts. cbn [history]. rewrite llm_calls_app. f_equal.
  unfold llm_calls. induction mids as [|mid mids IH]; [done|].
  cbn [fmap list_fmap List.filter is_llm_call length]. by rewrite IH.
Qed.

Lemma call_llm_loop_llm_calls E messages candidates last_err w :
  (llm_calls (history (snd (call_llm_loop E candidates messages last_err w)))
   <= llm_calls (history w) + length candidates)%nat.
Proof.
  pose proof (call_llm_loop_spec E messages candidates last_err w) as H.
  destruct (call_llm_loop E candidates messages last_err w)
    as [[[out mid]|e] w']; cbn [snd].
  - destruct H as (k & _ & _ & _ & ->).
    rewrite llm_calls_after_posts, length_take. lia.
  - destruct H as (_ & -> & _). rewrite llm_calls_after_posts. lia.
Qed.

(** One call of [call_llm_tex] consults the catalog at most once and sends
    at most six chat requests. *)
Lemma call_llm_tex_llm_calls E system_prompt user_prompt w :
  (llm_calls (history (snd (call_llm_tex E system_prompt user_prompt w)))
   <= llm_calls (history w) + 7)%nat.
Proof.
  unfold call_llm_tex.
  destruct (bool_decide (_ = utf8 "none")); [cbn; lia|].
  destruct (bool_decide (_ ≠ utf8 "openrouter")); [cbn; lia|].
  destruct (bool_decide (openrouter_api_key E = [])); [cbn; lia|].
  unfold mbind, M_bind, model_candidates.
  set (messages := [(utf8 "system", system_prompt); (utf8 "user", user_prompt)]).
  destruct (_ && _).
  - unfold mret, M_ret.
    pose proof (call_llm_loop_llm_calls E messages
                  (take 6 [strip (openrouter_model E)]) [] w) as H.
    rewrite length_take in H. cbn [length] in H. lia.
  - unfold pick_models_call.
    destruct (pick_models E (history w)) as [cs|e].
    + pose proof (call_llm_loop_llm_calls E messages (take 6 cs) []
                    (record EvPickModels w)) as H.
      rewrite length_take in H.
      assert (llm_calls (history (record EvPickModels w))
              = S (llm_calls (history w))) as Hp.
      { unfold record. cbn [history]. rewrite llm_calls_app.
        unfold llm_calls at 2. cbn. lia. }
      lia.
    + cbn [snd]. unfold record. cbn [history]. rewrite llm_calls_app.
      unfold llm_calls at 2. cbn. lia.
Qed.

Lemma transform_compile_llm_calls E doc_id toc sys user w :
  (llm_calls (history (snd (transform_compile E doc_id toc sys user w)))
   <= llm_calls (history w) + 14)%nat.
Proof.
  pose proof (call_llm_tex_llm_calls E sys user w) as H1.
  destruct (call_llm_tex E sys user w) as [[[tex_raw model]|e] w1] eqn:Hllm;
    cbn [snd] in H1.
  2:{ unfold transform_compile, mbind, M_bind. rewrite Hllm. cbn [snd]. lia. }
  set (full_tex := make_full_tex E (extract_body E tex_raw) toc).
  set (out_pdf := _generated_pdf_path E doc_id draft).
  pose proof (compile_tex_to_pdf_llm_calls E full_tex out_pdf toc w1) as H2.
  destruct (compile_tex_to_pdf E full_tex out_pdf toc w1) as [[[]|ce] w2]
    eqn:Hc1; cbn [snd] in H2.
  { unfold transform_compile, mbind, M_bind, try_except, mret, M_ret.
    rewrite Hllm. fold full_tex out_pdf. rewrite Hc1. cbn [snd]. lia. }
  rewrite (transform_compile_repair E doc_id toc sys user w tex_raw model w1
             ce w2 Hllm Hc1).
  fold full_tex.
  pose proof (call_llm_tex_llm_calls E repair_system
                (repair_user ce full_tex) w2) as H3.
  destruct (call_llm_tex E repair_system (repair_user ce full_tex) w2)
    as [[[tex_fixed model2]|e] w3]; cbn [snd] in *; [|lia].
  cbn zeta. fold out_pdf.
  set (full_tex2 := make_full_tex E (extract_body E tex_fixed) toc).
  pose proof (compile_tex_to_pdf_llm_calls E full_tex2 out_pdf toc w3) as H4.
  destruct (compile_tex_to_pdf E full_tex2 out_pdf toc w3) as [[[]|e] w4];
    cbn [snd] in *; lia.
Qed.

(** X12. A rewrite job asks the provider at most fourteen times (per call of
    [call_llm_tex] the catalog once and six chat requests, and two calls),
    and compiles at most twice. *)
Theorem transform_tex_task_bounded (E : Env) (doc_id : Z) (base_kind : str)
    (toc structure spelling : bool) (extra : str) (user_id : Z) (w : World) :
  let job :=
    transform_tex_task E doc_id base_kind toc structure spelling extra
      user_id w in
  (llm_calls (history (snd job)) <= llm_calls (history w) + 14)%nat
  /\ (compile_calls (history (snd job)) <= compile_calls (history w) + 2)%nat.
Proof.
  cbn zeta. unfold transform_tex_task, mbind, M_bind.
  rewrite mark_processing_run.
  destruct (documents w !! doc_id) as [doc|] eqn:Hdoc; [|cbn; lia].
  cbn [negb]. set (wa := set_documents _ w).
  assert (history wa = history w) as Ha by done.
  unfold try_except, transform_body, mbind, M_bind.
  pose proof (transform_prompts_frame E doc_id base_kind toc structure
                spelling extra wa) as (_ & _ & _ & Hb).
  destruct (transform_prompts E doc_id base_kind toc structure spelling
              extra wa) as [[[[sys user]|]|e] wb]; cbn [snd] in Hb.
  - pose proof (transform_compile_frame E doc_id toc sys user wb)
      as (_ & _ & _ & Hc).
    pose proof (transform_compile_llm_calls E doc_id toc sys user wb) as Hl.
    destruct (transform_compile E doc_id toc sys user wb)
      as [[[[full_tex out_pdf] model]|e] wc]; cbn [snd] in Hc, Hl.
    + destruct (transform_persist_ok E doc_id full_tex out_pdf wc)
        as (wd & -> & _ & Hd). cbn [snd]. rewrite Hd.
      rewrite Hb, Ha in Hc, Hl. lia.
    + unfold raise. cbn [snd].
      pose proof (mark_error_history E doc_id (exn_str e) wc) as Hd.
      destruct (mark_error E doc_id (exn_str e) wc) as [[[]|e'] wd];
        cbn [snd] in *; rewrite Hd; rewrite Hb, Ha in Hc, Hl; lia.
  - unfold mret, M_ret. cbn [snd]. rewrite Hb, Ha. lia.
  - unfold raise. cbn [snd].
    pose proof (mark_error_history E doc_id (exn_str e) wb) as Hd.
    destruct (mark_error E doc_id (exn_str e) wb) as [[[]|e'] wd];
      cbn [snd] in *; rewrite Hd, Hb, Ha; lia.
Qed.

(** X13. A misconfigured provider fails before anything is sent: the call
    raises a [RuntimeError] and the world, its history included, is as
    before. *)
Theorem call_llm_tex_misconfigured (E : Env) (system_prompt user_prompt : str)
    (w : World) :
  strip (lower (llm_provider E)) <> utf8 "openrouter"
  \/ openrouter_api_key E = [] ->
  exists message,
    call_llm_tex E system_prompt user_prompt w
    = (Raise (RuntimeError message), w).
Proof.
  intros Hbad. unfold call_llm_tex.
  destruct (bool_decide (_ = utf8 "none")); [by eexists|].
  destruct (bool_decide (_ ≠ utf8 "openrouter")) eqn:Hp; [by eexists|].
  destruct (bool_decide (openrouter_api_key E = [])) eqn:Hk; [by eexists|].
  apply bool_decide_eq_false in Hp, Hk.
  destruct Hbad as [Hbad|Hbad]; [|done]. destruct Hp. done.
Qed.

(** Witness of X13: the provider switched off. *)
Lemma call_llm_tex_misconfigured_witness :
  (strip (lower (llm_provider env_disabled)) <> utf8 "openrouter"
   \/ openrouter_api_key env_disabled = [])
  /\ exists message,
       call_llm_tex env_disabled system_prompt (utf8 "Hello world.")
         empty_world
       = (Raise (RuntimeError message), empty_world).
Proof.
  assert (strip (lower (llm_provider env_disabled)) <> utf8 "openrouter"
          \/ openrouter_api_key env_disabled = []) as H
    by (left; vm_compute; discriminate).
  split; [exact H|].
  exact (call_llm_tex_misconfigured env_disabled system_prompt
           (utf8 "Hello world.") empty_world H).
Defined.

(** X14. With a model configured (not empty, not "auto"), [call_llm_tex]
    sends one chat request, to that model, and never consults the catalog:
    there is no fallback. Its failure is the failure of the call. *)
Theorem call_llm_tex_configured_model (E : Env)
    (system_prompt user_prompt : str) (w : World) :
  strip (lower (llm_provider E)) = utf8 "openrouter" ->
  openrouter_api_key E <> [] ->
  strip (openrouter_model E) <> [] ->
  lower (strip (openrouter_model E)) <> utf8 "auto" ->
  let requested := strip (openrouter_model E) in
  let messages :=
    [(utf8 "system", system_prompt); (utf8 "user", user_prompt)] in
  let call := call_llm_tex E system_prompt user_prompt w in
  history (snd call) = history w ++ [EvPost requested messages]
  /\ fst call
     = match fst (_post_chat E requested messages w) with
       | Ok out => Ok (out, requested)
       | Raise e =>
           Raise (RuntimeError (str_or (exn_str e) (utf8 "LLM failed")))
       end.
Proof.
  intros Hprov Hkey Hmodel Hauto requested messages call.
  unfold call, call_llm_tex. rewrite Hprov.
  rewrite (bool_decide_eq_false_2 (utf8 "openrouter" = utf8 "none"))
    by (vm_compute; discriminate).
  rewrite (bool_decide_eq_false_2 (utf8 "openrouter" ≠ utf8 "openrouter"))
    by (intros H; by apply H).
  rewrite (bool_decide_eq_false_2 _ Hkey).
  unfold mbind, M_bind, model_candidates.
  rewrite (bool_decide_eq_true_2 _ Hmodel), (bool_decide_eq_true_2 _ Hauto).
  cbn [andb]. unfold mret, M_ret. fold requested messages.
  cbn [take call_llm_loop]. unfold try_except, mbind, M_bind, raise.
  pose proof (post_chat_world E requested messages w) as Hw.
  destruct (_post_chat E requested messages w) as [[out|e] w'];
    cbn [fst snd] in *; subst w'.
  - done.
  - by destruct (no_endpoints (exn_str e)).
Qed.

(** Witness of X14: the model [m1] is configured. *)
Lemma call_llm_tex_configured_model_witness :
  (strip (lower (llm_provider env_ok)) = utf8 "openrouter"
   /\ openrouter_api_key env_ok <> []
   /\ strip (openrouter_model env_ok) <> []
   /\ lower (strip (openrouter_model env_ok)) <> utf8 "auto")
  /\ history (snd (call_llm_tex env_ok system_prompt (utf8 "Hello world.")
                     empty_world))
     = history empty_world
       ++ [EvPost (strip (openrouter_model env_ok))
             [(utf8 "system", system_prompt);
              (utf8 "user", utf8 "Hello world.")]].
Proof.
  assert (strip (lower (llm_provider env_ok)) = utf8 "openrouter") as H1
    by (vm_compute; reflexivity).
  assert (openrouter_api_key env_ok <> []) as H2
    by (vm_compute; discriminate).
  assert (strip (openrouter_model env_ok) <> []) as H3
    by (vm_compute; discriminate).
  assert (lower (strip (openrouter_model env_ok)) <> utf8 "auto") as H4
    by (vm_compute; discriminate).
  split; [by repeat split|].
  destruct (call_llm_tex_configured_model env_ok system_prompt
              (utf8 "Hello world.") empty_world H1 H2 H3 H4) as (Hh & _).
  exact Hh.
Defined.

(** ** The index and the compiler *)

Lemma drop_while_idem {A} (p : A -> bool) (l : list A) :
  drop_while p (drop_while p l) = drop_while p l.
Proof.
  induction l as [|x l IH]; [done|]. cbn [drop_while].
  destruct (p x) eqn:Hp; [done|]. cbn [drop_while]. by rewrite Hp.
Qed.

Lemma drop_while_keeps_last {A} (p : A -> bool) (l : list A) c :
  p c = false -> exists l', drop_while p (l ++ [c]) = l' ++ [c].
Proof.
  intros Hc. induction l as [|x l IH].
  - exists []. cbn. by rewrite Hc.
  - cbn [app drop_while]. destruct (p x); [done|]. by exists (x :: l).
Qed.

Lemma drop_while_head {A} (p : A -> bool) (l : list A) :
  match drop_while p l with
  | [] => True
  | c :: _ => p c = false
  end.
Proof.
  induction l as [|x l IH]; [done|]. cbn [drop_while].
  by destruct (p x) eqn:Hp.
Qed.

(** [s.strip().strip() == s.strip()] *)
Lemma strip_idem (s : str) : strip (strip s) = strip s.
Proof.
  unfold strip.
  assert (lstrip (rstrip (lstrip s)) = rstrip (lstrip s)) as ->.
  { unfold lstrip. pose proof (drop_while_head py_isspace s) as Hhead.
    destruct (drop_while py_isspace s) as [|c x]; [done|].
    unfold rstrip. rewrite reverse_cons.
    destruct (drop_while_keeps_last py_isspace (reverse x) c Hhead)
      as [l' ->].
    rewrite reverse_app. cbn [reverse app]. change (reverse [c]) with [c].
    cbn [app drop_while]. by rewrite Hhead. }
  unfold rstrip. by rewrite reverse_involutive, drop_while_idem.
Qed.

Lemma fts_delete_app conn conn' doc_id kind :
  fts_delete (conn ++ conn') doc_id kind
  = fts_delete conn doc_id kind ++ fts_delete conn' doc_id kind.
Proof. unfold fts_delete. apply List.filter_app. Qed.

Lemma fts_delete_own_rows doc_id kind rows i :
  fts_delete
    (imap (fun j c => mkChunk doc_id kind (str_of_nat (i + j)) c) rows)
    doc_id kind = [].
Proof.
  unfold fts_delete. revert i.
  induction rows as [|c rows IH]; intros i; [done|].
  cbn [imap List.filter].
  assert (chunk_of doc_id kind (mkChunk doc_id kind (str_of_nat (i + 0)) c)
          = true) as ->.
  { unfold chunk_of. cbn. by rewrite !bool_decide_eq_true_2. }
  cbn [negb]. rewrite <- (IH (S i)). f_equal. apply imap_ext.
  intros j x _. cbn. do 2 f_equal. lia.
Qed.

(** X15. The last rebuild wins: rebuilding the index of a (document, kind)
    pair twice leaves what the second rebuild alone leaves; in particular
    [fts_rebuild] is idempotent. The rows of every other pair keep their
    order. *)
Theorem fts_rebuild_last_wins (conn : list Chunk) (doc_id : Z)
    (kind text text' : str) :
  fts_rebuild (fts_rebuild conn doc_id kind text) doc_id kind text'
  = fts_rebuild conn doc_id kind text'
  /\ fts_rebuild (fts_rebuild conn doc_id kind text) doc_id kind text
     = fts_rebuild conn doc_id kind text
  /\ fts_delete (fts_rebuild conn doc_id kind text) doc_id kind
     = fts_delete conn doc_id kind.
Proof.
  assert (forall t, fts_delete (fts_rebuild conn doc_id kind t) doc_id kind
                    = fts_delete conn doc_id kind) as Hdel.
  { intros t. rewrite fts_rebuild_spec, fts_delete_app, fts_delete_idem.
    rewrite (fts_delete_own_rows doc_id kind _ 0). apply app_nil_r. }
  assert (forall t t',
            fts_rebuild (fts_rebuild conn doc_id kind t) doc_id kind t'
            = fts_rebuild conn doc_id kind t') as Hwins.
  { intros t t'. rewrite (fts_rebuild_spec (fts_rebuild _ _ _ _)), Hdel.
    by rewrite <- fts_rebuild_spec. }
  split; [apply Hwins|]. split; [apply Hwins|apply Hdel].
Qed.

Lemma chunk_text_nil (text : str) (n : nat) :
  (0 < n)%nat -> chunk_text text n = [] <-> strip text = [].
Proof.
  intros Hn. split.
  - intros Hnil. destruct (chunk_text_spec text n Hn) as (Hcat & _).
    by rewrite Hnil in Hcat.
  - intros Hblank. unfold chunk_text. by rewrite Hblank.
Qed.

(** X16. Text that is empty or white space only has no chunks, and only such
    text: rebuilding the index with it is the deletion of the entries of the
    (document, kind) pair. Chunking sees the stripped text only. *)
Theorem fts_rebuild_blank (conn : list Chunk) (doc_id : Z) (kind text : str) :
  (chunk_text text 1000 = [] <-> strip text = [])
  /\ (strip text = [] ->
      fts_rebuild conn doc_id kind text = fts_delete conn doc_id kind
      /\ chunks_of doc_id kind (fts_rebuild conn doc_id kind text) = [])
  /\ (strip text <> [] ->
      chunks_of doc_id kind (fts_rebuild conn doc_id kind text) <> [])
  /\ chunk_text (strip text) 1000 = chunk_text text 1000.
Proof.
  assert (0 < 1000)%nat as Hn by lia.
  pose proof (chunk_text_nil text 1000 Hn) as Hnil.
  split; [exact Hnil|]. split; [|split].
  - intros Hblank. apply Hnil in Hblank.
    rewrite fts_rebuild_spec, Hblank. cbn [imap]. rewrite app_nil_r.
    split; [done|apply fts_delete_none].
  - intros Hne Hempty. rewrite chunks_of_fts_rebuild_same in Hempty.
    apply Hne, Hnil. by destruct (chunk_text text 1000).
  - unfold chunk_text. by rewrite strip_idem.
Qed.

Lemma last_chars_length {A} (s : list A) :
  Z.of_nat (length (last_chars 8000 s)) <= 8000.
Proof.
  unfold last_chars. rewrite length_drop.
  assert (Z.of_nat 8000 = 8000) as H8000 by (vm_compute; reflexivity).
  lia.
Qed.

(** What the passes return is at most 8000 characters of output. *)
Lemma compile_passes_diagnostic E tex_source runs : forall pdf last_out w,
  Z.of_nat (length last_out) <= 8000 ->
  match fst (compile_passes E runs tex_source pdf last_out w) with
  | Ok (out, _) => Z.of_nat (length out) <= 8000
  | Raise e => Z.of_nat (length (exn_str e)) <= 8000
  end.
Proof.
  induction runs as [|runs IH]; intros pdf last_out w Hlen; [done|].
  cbn [compile_passes]. destruct (bool_decide _).
  - cbn [fst exn_str]. apply last_chars_length.
  - apply IH. apply last_chars_length.
Qed.

(** X17. [compile_tex_to_pdf] changes no file but the destination. When it
    returns the destination exists; when it raises, no file has changed at
    all and the diagnostic has at most 8026 characters. *)
Theorem compile_tex_to_pdf_files (E : Env) (tex_source out_pdf_path : str)
    (toc : bool) (w : World) :
  let call := compile_tex_to_pdf E tex_source out_pdf_path toc w in
  (forall p, p <> out_pdf_path -> files (snd call) !! p = files w !! p)
  /\ match fst call with
     | Ok _ => is_Some (files (snd call) !! out_pdf_path)
     | Raise e =>
         files (snd call) = files w
         /\ Z.of_nat (length (exn_str e)) <= 8026
     end.
Proof.
  cbn zeta. unfold compile_tex_to_pdf, mbind, M_bind. cbn [modify].
  set (w0 := record (EvCompile tex_source out_pdf_path toc) w).
  destruct (compile_passes_frame E tex_source
              (Z.to_nat (compile_runs E toc)) None [] w0) as [k Hk].
  pose proof (compile_passes_diagnostic E tex_source
                (Z.to_nat (compile_runs E toc)) None [] w0) as Hlen.
  destruct (compile_passes E _ tex_source None [] w0)
    as [[[last_out [b|]]|e0] w1]; cbn [fst snd] in Hk, Hlen; subst w1.
  - cbn [modify fst snd files set_files after_runs]. split.
    + intros p Hp. by rewrite lookup_insert_ne.
    + rewrite lookup_insert_eq. by eexists.
  - unfold raise. cbn [fst snd files after_runs exn_str]. split; [done|].
    split; [done|]. rewrite !length_app.
    specialize (Hlen ltac:(cbn; lia)).
    change (length (utf8 "PDF not produced. Output:")) with 25%nat.
    change (length nl) with 1%nat. lia.
  - cbn [fst snd files after_runs]. split; [done|]. split; [done|].
    specialize (Hlen ltac:(cbn; lia)). lia.
Qed.

(** ** [escape_tex] *)

Lemma specials_lookup (ch : N) :
  (ch ∈ special_chars
   /\ (exists c rest, tex_utils._SPECIALS !! [ch] = Some (92%N :: c :: rest)))
  \/ ((ch ∉ special_chars) /\ tex_utils._SPECIALS !! [ch] = None).
Proof.
  destruct (decide (ch ∈ special_chars)) as [Hin|Hout].
  - left. split; [done|]. unfold special_chars in Hin.
    repeat (apply elem_of_cons in Hin as [->|Hin];
            [do 2 eexists; vm_compute; reflexivity|]).
    by apply elem_of_nil in Hin.
  - right. split; [done|]. unfold tex_utils._SPECIALS.
    apply not_elem_of_list_to_map_1. intros Hin. apply Hout.
    vm_compute in Hin. unfold special_chars.
    repeat (apply elem_of_cons in Hin as [Hin|Hin];
            [injection Hin as ->; set_solver|]).
    by apply elem_of_nil in Hin.
Qed.

Lemma escape_tex_cons ch s :
  tex_utils.escape_tex (ch :: s) = default [ch] (tex_utils._SPECIALS !! [ch]) ++ tex_utils.escape_tex s.
Proof. done. Qed.

Lemma escape_tex_app s t :
  tex_utils.escape_tex (s ++ t) = tex_utils.escape_tex s ++ tex_utils.escape_tex t.
Proof. unfold tex_utils.escape_tex. cbn zeta. by rewrite fmap_app, concat_app. Qed.

(** No piece is empty, and a piece that starts with a backslash is the
    piece of a special character. *)
Lemma escape_piece_head ch :
  exists c rest,
    default [ch] (tex_utils._SPECIALS !! [ch]) = c :: rest
    /\ (c = 92%N <-> ch ∈ special_chars).
Proof.
  destruct (specials_lookup ch) as [[Hin (c & rest & ->)]|[Hout ->]].
  - exists 92%N, (c :: rest). by split.
  - exists ch, []. split; [done|]. split; [|done].
    intros ->. exfalso. apply Hout. set_solver.
Qed.

(** The replacements form a prefix code. *)
Lemma escape_piece_inj a b x y :
  default [a] (tex_utils._SPECIALS !! [a]) ++ x = default [b] (tex_utils._SPECIALS !! [b]) ++ y ->
  a = b /\ x = y.
Proof.
  assert (92%N ∈ special_chars) as H92 by (unfold special_chars; set_solver).
  destruct (specials_lookup a) as [[Ha (ca & ra & Hra)]|[Ha Hra]];
    destruct (specials_lookup b) as [[Hb (cb & rb & Hrb)]|[Hb Hrb]].
  - clear Hra Hrb. unfold special_chars in Ha, Hb.
    repeat (apply elem_of_cons in Ha as [->|Ha]);
      try (by apply elem_of_nil in Ha);
      repeat (apply elem_of_cons in Hb as [->|Hb]);
      try (by apply elem_of_nil in Hb);
      vm_compute; intros H; by simplify_eq.
  - rewrite Hra, Hrb. cbn [default app]. intros [= <- _]. by destruct Hb.
  - rewrite Hra, Hrb. cbn [default app]. intros [= -> _]. by destruct Ha.
  - rewrite Hra, Hrb. cbn [default app]. by intros [= -> ->].
Qed.

(** X18. [escape_tex] loses nothing: two texts with the same escaped form are
    the same text. It distributes over concatenation. *)
Theorem escape_tex_injective (s t : str) :
  (tex_utils.escape_tex s = tex_utils.escape_tex t -> s = t)
  /\ (forall u, tex_utils.escape_tex (s ++ u) = tex_utils.escape_tex s ++ tex_utils.escape_tex u).
Proof.
  split; [|intros u; apply escape_tex_app].
  revert t. induction s as [|a s IH]; intros [|b t].
  - done.
  - rewrite escape_tex_cons.
    destruct (escape_piece_head b) as (c & rest & -> & _). discriminate.
  - rewrite escape_tex_cons.
    destruct (escape_piece_head a) as (c & rest & -> & _). discriminate.
  - rewrite !escape_tex_cons. intros [-> Heq]%escape_piece_inj.
    f_equal. by apply IH.
Qed.

Lemma escape_tex_length (s : str) :
  (length s <= length (tex_utils.escape_tex s))%nat.
Proof.
  induction s as [|a s IH]; [done|]. rewrite escape_tex_cons.
  destruct (escape_piece_head a) as (c & rest & -> & _).
  rewrite length_app. cbn [length]. lia.
Qed.

(** X19. [escape_tex] leaves a text as it is exactly when none of its
    characters is a key of [_SPECIALS], and it never shortens a text. *)
Theorem escape_tex_plain (s : str) :
  (tex_utils.escape_tex s = s
   <-> forall ch, ch ∈ s -> tex_utils._SPECIALS !! [ch] = None)
  /\ (length s <= length (tex_utils.escape_tex s))%nat.
Proof.
  split; [|apply escape_tex_length].
  induction s as [|a s IH].
  { split; [intros _ ch Hch; by apply elem_of_nil in Hch|done]. }
  rewrite escape_tex_cons. split.
  - intros Heq.
    destruct (specials_lookup a) as [[Ha (c & rest & Hr)]|[Ha Hr]];
      rewrite Hr in Heq; cbn [default app] in Heq.
    + injection Heq as <- Heq. exfalso.
      pose proof (escape_tex_length s) as Hlen.
      apply (f_equal length) in Heq. cbn [length] in Heq.
      rewrite length_app in Heq. lia.
    + injection Heq as Heq. intros ch [->|Hch]%elem_of_cons; [done|].
      by apply IH.
  - intros Hplain. rewrite (Hplain a) by left.
    cbn [default app]. f_equal. apply IH. intros ch Hch.
    apply Hplain. by right.
Qed.

(** ** [extract_body] and [make_full_tex] *)

Lemma lstrip_spaces (ws x : str) :
  Forall (fun c => py_isspace c = true) ws -> lstrip (ws ++ x) = lstrip x.
Proof.
  unfold lstrip. induction 1 as [|c ws Hc _ IH]; [done|].
  cbn [app drop_while]. by rewrite Hc.
Qed.

Lemma rstrip_spaces (ws x : str) :
  Forall (fun c => py_isspace c = true) ws -> rstrip (x ++ ws) = rstrip x.
Proof.
  intros Hws. unfold rstrip. rewrite reverse_app. f_equal.
  apply lstrip_spaces. by apply Forall_reverse.
Qed.

Lemma lstrip_blank (x : str) :
  lstrip x = [] -> Forall (fun c => py_isspace c = true) x.
Proof.
  unfold lstrip. induction x as [|c x IH]; [done|]. cbn [drop_while].
  destruct (py_isspace c) eqn:Hc; [|done]. intros Hx.
  constructor; [done|by apply IH].
Qed.

Lemma lstrip_app (x y : str) :
  lstrip x <> [] -> lstrip (x ++ y) = lstrip x ++ y.
Proof.
  unfold lstrip. induction x as [|c x IH]; [done|]. cbn [app drop_while].
  by destruct (py_isspace c).
Qed.

Lemma rstrip_app (x y : str) :
  rstrip y <> [] -> rstrip (x ++ y) = x ++ rstrip y.
Proof.
  unfold rstrip. intros Hy. rewrite reverse_app.
  fold (lstrip (reverse y ++ reverse x)). fold (lstrip (reverse y)) in *.
  rewrite lstrip_app.
  - by rewrite reverse_app, reverse_involutive.
  - intros Hnil. apply Hy. by rewrite Hnil.
Qed.

(** White space around a text does not change what [strip] gives. *)
Lemma strip_pad (ws1 ws2 x : str) :
  Forall (fun c => py_isspace c = true) ws1 ->
  Forall (fun c => py_isspace c = true) ws2 ->
  strip (ws1 ++ x ++ ws2) = strip x.
Proof.
  intros H1 H2. unfold strip. rewrite lstrip_spaces by done.
  destruct (lstrip x) as [|c y] eqn:Hx.
  - apply lstrip_blank in Hx.
    rewrite lstrip_spaces by done.
    rewrite <- (app_nil_r ws2), lstrip_spaces by done. done.
  - rewrite lstrip_app by (by rewrite Hx). rewrite Hx.
    by apply rstrip_spaces.
Qed.

Lemma lstrip_strip (t : str) : lstrip (strip t) = strip t.
Proof.
  unfold strip, lstrip. pose proof (drop_while_head py_isspace t) as Hhead.
  destruct (drop_while py_isspace t) as [|c x]; [done|].
  unfold rstrip. rewrite reverse_cons.
  destruct (drop_while_keeps_last py_isspace (reverse x) c Hhead) as [l' ->].
  rewrite reverse_app. change (reverse [c]) with [c].
  cbn [app drop_while]. by rewrite Hhead.
Qed.

Lemma rstrip_strip (t : str) : rstrip (strip t) = strip t.
Proof.
  unfold strip, rstrip. by rewrite reverse_involutive, drop_while_idem.
Qed.

Lemma rfind_cons needle c hay :
  tex_utils.rfind needle (c :: hay)
  = match tex_utils.rfind needle hay with
    | Some j => Some (S j)
    | None =>
        if bool_decide (take (length needle) (c :: hay) = needle)
        then Some 0%nat else None
    end.
Proof. done. Qed.

(** The last [\end{document}] of a text that ends with [\end{document}] and
    a line end is that one. *)
Lemma rfind_end_document (x : str) :
  tex_utils.rfind tex_utils.end_document
    (x ++ tex_utils.end_document ++ nl) = Some (length x).
Proof.
  induction x as [|c x IH]; [vm_compute; reflexivity|].
  cbn [app length]. by rewrite rfind_cons, IH.
Qed.

(** The first [\begin{document}] of a wrapped document is the one of the
    wrapper: the preamble has none. *)
Lemma find_begin_document (rest : str) :
  tex_utils.find tex_utils.begin_document
    (tex_utils.preamble
     ++ (nl ++ nl ++ utf8 "\begin{document}" ++ nl) ++ rest)
  = Some (length tex_utils.preamble + 2)%nat
  /\ drop (length tex_utils.preamble + 2 + length tex_utils.begin_document)
       (tex_utils.preamble
        ++ (nl ++ nl ++ utf8 "\begin{document}" ++ nl) ++ rest)
     = nl ++ rest.
Proof. split; vm_compute; reflexivity. Qed.

Lemma search_document_make_full_tex re_subs body toc :
  tex_utils.search_document (tex_utils.make_full_tex re_subs body toc)
  = Some (nl
          ++ ((if toc then utf8 "\tableofcontents\newpage" ++ nl ++ nl
               else [])
              ++ tex_utils.sanitize_body re_subs body)
          ++ (nl ++ nl)).
Proof.
  unfold tex_utils.search_document, tex_utils.make_full_tex. cbn zeta.
  set (b := tex_utils.sanitize_body re_subs body).
  set (tocpart := match (if toc then utf8 "\tableofcontents\newpage" else [])
                  with [] => [] | _ => _ end).
  assert (tocpart = if toc then utf8 "\tableofcontents\newpage" ++ nl ++ nl
                    else []) as -> by (by destruct toc).
  set (tocpart := if toc then _ else []).
  destruct (find_begin_document
              (tocpart ++ b ++ nl ++ nl ++ utf8 "\end{document}" ++ nl))
    as [Hfind Hdrop].
  rewrite Hfind. cbn [mbind option_bind]. rewrite Hdrop.
  replace (nl ++ tocpart ++ b ++ nl ++ nl ++ utf8 "\end{document}" ++ nl)
    with ((nl ++ (tocpart ++ b) ++ (nl ++ nl))
          ++ tex_utils.end_document ++ nl)
    by (unfold tex_utils.end_document; by rewrite <- !app_assoc).
  rewrite rfind_end_document. cbn [mbind option_bind].
  by rewrite take_app_length.
Qed.

(** X20. [extract_body] undoes [make_full_tex]: from a document wrapped
    without a table of contents it gives back the sanitized body, whatever
    the body holds, [\begin{document}] and [\end{document}] included; from
    one wrapped with a table of contents it gives the body after the
    [\tableofcontents\newpage] line. What it gives is stripped. *)
Theorem extract_body_make_full_tex (re_subs : str -> str) (body : str) :
  let b := tex_utils.sanitize_body re_subs body in
  let toc_block := utf8 "\tableofcontents\newpage" in
  tex_utils.extract_body (tex_utils.make_full_tex re_subs body false) = b
  /\ tex_utils.extract_body (tex_utils.make_full_tex re_subs body true)
     = match b with
       | [] => toc_block
       | _ => toc_block ++ nl ++ nl ++ b
       end
  /\ forall tex, strip (tex_utils.extract_body tex)
                 = tex_utils.extract_body tex.
Proof.
  cbn zeta.
  assert (Forall (fun c => py_isspace c = true) nl) as Hnl
    by (repeat constructor).
  assert (Forall (fun c => py_isspace c = true) (nl ++ nl)) as Hnl2
    by (repeat constructor).
  split; [|split].
  - unfold tex_utils.extract_body.
    rewrite search_document_make_full_tex, strip_pad by done.
    cbn [app]. unfold tex_utils.sanitize_body. apply strip_idem.
  - unfold tex_utils.extract_body.
    rewrite search_document_make_full_tex, strip_pad by done.
    set (b := tex_utils.sanitize_body re_subs body).
    set (toc_block := utf8 "\tableofcontents\newpage").
    assert (lstrip toc_block = toc_block /\ rstrip toc_block = toc_block
            /\ toc_block <> []) as (Hl & Hr & Hne)
      by (repeat split; vm_compute; done).
    assert (rstrip b = b) as Hb by apply rstrip_strip.
    unfold strip. rewrite <- !app_assoc.
    rewrite lstrip_app by (by rewrite Hl). rewrite Hl.
    destruct b as [|c b'].
    + rewrite app_nil_r, rstrip_spaces by done. exact Hr.
    + replace (toc_block ++ nl ++ nl ++ c :: b')
        with ((toc_block ++ nl ++ nl) ++ c :: b')
        by (by rewrite <- !app_assoc).
      rewrite rstrip_app by (by rewrite Hb). rewrite Hb.
      by rewrite <- !app_assoc.
  - intros tex. unfold tex_utils.extract_body.
    destruct (tex_utils.search_document tex); apply strip_idem.
Qed.

(** ** The document page *)

Lemma view_names :
  strip (lower original) = original /\ strip (lower saved) = saved
  /\ strip (lower draft) = draft
  /\ original <> [] /\ saved <> [] /\ draft <> []
  /\ original <> saved /\ original <> draft /\ saved <> draft.
Proof. repeat split; vm_compute; done. Qed.

(** X21. [doc_view] redirects at most once: a redirect names one of the three
    views, and the request for the view it names is answered with the page
    of that view as long as the document has the same status and
    versions. *)
Theorem doc_view_redirect_once (doc_id : Z) (v : option str)
    (doc_status : str)
    (has_saved has_draft saved_pdf_ready draft_pdf_ready : bool) (url : str) :
  doc_view doc_id v doc_status has_saved has_draft saved_pdf_ready
    draft_pdf_ready = RedirectResponse url ->
  exists effective_v pdf_url,
    effective_v ∈ [original; saved; draft]
    /\ url = utf8 "/doc/" ++ str_of_Z doc_id ++ utf8 "?v=" ++ effective_v
    /\ doc_view doc_id (Some effective_v) doc_status has_saved has_draft
         saved_pdf_ready draft_pdf_ready
       = TemplateResponse effective_v pdf_url.
Proof.
  destruct view_names as (Ho & Hs & Hd & Ho' & Hs' & Hd' & Hos & Hod & Hsd).
  assert (forall e, e ∈ [original; saved; draft] ->
            (if bool_decide (strip (lower e) ∉ [[]; original; saved; draft])
             then [] else strip (lower e)) = e) as Hreq.
  { intros e He. 
    assert (strip (lower e) = e) as ->
      by (repeat (apply elem_of_cons in He as [->|He]; [done|]);
          by apply elem_of_nil in He).
    rewrite bool_decide_eq_false_2; [done|]. intros Hn. apply Hn.
    by right. }
  unfold doc_view. cbn zeta.
  set (req_v := if bool_decide (_ ∉ _) then [] else _).
  set (busy := bool_decide (doc_status ∈ _)).
  set (effective_v := if bool_decide (req_v = []) then _ else _).
  destruct (bool_decide (effective_v ≠ str_or req_v [])) eqn:Hne; [|done].
  intros [= <-].
  assert (effective_v ∈ [original; saved; draft]) as Hin.
  { unfold effective_v.
    repeat match goal with
           | |- context [if ?c then _ else _] => destruct c
           end; set_solver. }
  exists effective_v. eexists. split; [done|]. split; [done|].
  cbn [default from_option id]. rewrite (Hreq effective_v Hin).
  assert (str_or effective_v [] = effective_v) as -> by (by destruct effective_v).
  assert ((if bool_decide (effective_v = []) then
             if busy || has_draft then draft
             else if has_saved then saved else original
           else if bool_decide (effective_v = saved) then
             if has_saved then saved
             else if busy || has_draft then draft else original
           else if bool_decide (effective_v = draft) then
             if busy || has_draft then draft
             else if has_saved then saved else original
           else original) = effective_v) as ->.
  { unfold effective_v.
    destruct (bool_decide (req_v = [])), (bool_decide (req_v = saved)),
      (bool_decide (req_v = draft)), (busy || has_draft), has_saved;
      rewrite ?(bool_decide_eq_false_2 (saved = [])) by done;
      rewrite ?(bool_decide_eq_false_2 (draft = [])) by done;
      rewrite ?(bool_decide_eq_false_2 (original = [])) by done;
      rewrite ?(bool_decide_eq_true_2 (saved = saved)) by done;
      rewrite ?(bool_decide_eq_true_2 (draft = draft)) by done;
      rewrite ?(bool_decide_eq_false_2 (draft = saved)) by done;
      rewrite ?(bool_decide_eq_false_2 (original = saved)) by done;
      rewrite ?(bool_decide_eq_false_2 (original = draft)) by done;
      reflexivity. }
  rewrite bool_decide_eq_false_2 by (intros H; by apply H). reflexivity.
Qed.

(** Witness of X21: no view asked for, a saved version and no draft. *)
Lemma doc_view_redirect_once_witness :
  doc_view 1 None ready true false true false
  = RedirectResponse (utf8 "/doc/1?v=saved")
  /\ exists effective_v pdf_url,
       effective_v ∈ [original; saved; draft]
       /\ utf8 "/doc/1?v=saved"
          = utf8 "/doc/" ++ str_of_Z 1 ++ utf8 "?v=" ++ effective_v
       /\ doc_view 1 (Some effective_v) ready true false true false
          = TemplateResponse effective_v pdf_url.
Proof.
  assert (doc_view 1 None ready true false true false
          = RedirectResponse (utf8 "/doc/1?v=saved")) as H
    by (vm_compute; reflexivity).
  split; [exact H|].
  exact (doc_view_redirect_once 1 None ready true false true false _ H).
Defined.

Lemma pdf_urls_differ (doc_id : Z) :
  let saved_url :=
    utf8 "/file/generated/" ++ str_of_Z doc_id ++ utf8 "_saved.pdf" in
  let draft_url :=
    utf8 "/file/generated/" ++ str_of_Z doc_id ++ utf8 "_draft.pdf" in
  let original_url :=
    utf8 "/file/original/" ++ str_of_Z doc_id ++ utf8 ".pdf" in
  saved_url <> draft_url /\ saved_url <> original_url
  /\ draft_url <> original_url.
Proof.
  cbn zeta. split; [|split].
  - intros H. do 2 apply app_inv_head in H. vm_compute in H. discriminate.
  - intros H. vm_compute in H. discriminate.
  - intros H. vm_compute in H. discriminate.
Qed.

Ltac solve_urls :=
  split; [|split];
  [split; [intros ?|intros (? & ? & ?)]; (done || congruence)
  |split; [intros ?|intros (? & ? & ?)]; (done || congruence)
  |first [by left|by right; left|by right; right]].

(** X22. The page of [doc_view] links to a generated PDF only when the
    version shown has one on disk: the link is that of the saved PDF only
    for the saved view with a saved row whose file exists, that of the
    draft PDF only for the draft view with a draft row whose file exists,
    and the link of the original in every other case. *)
Theorem doc_view_pdf_url (doc_id : Z) (v : option str) (doc_status : str)
    (has_saved has_draft saved_pdf_ready draft_pdf_ready : bool)
    (effective_v pdf_url : str) :
  doc_view doc_id v doc_status has_saved has_draft saved_pdf_ready
    draft_pdf_ready = TemplateResponse effective_v pdf_url ->
  let saved_url :=
    utf8 "/file/generated/" ++ str_of_Z doc_id ++ utf8 "_saved.pdf" in
  let draft_url :=
    utf8 "/file/generated/" ++ str_of_Z doc_id ++ utf8 "_draft.pdf" in
  let original_url :=
    utf8 "/file/original/" ++ str_of_Z doc_id ++ utf8 ".pdf" in
  (pdf_url = saved_url <->
     effective_v = saved /\ has_saved = true /\ saved_pdf_ready = true)
  /\ (pdf_url = draft_url <->
        effective_v = draft /\ has_draft = true /\ draft_pdf_ready = true)
  /\ (pdf_url = saved_url \/ pdf_url = draft_url \/ pdf_url = original_url).
Proof.
  destruct view_names as (_ & _ & _ & _ & _ & _ & _ & _ & Hsd).
  destruct (pdf_urls_differ doc_id) as (H1 & H2 & H3). cbn zeta in H1, H2, H3.
  unfold doc_view. cbn zeta.
  set (req_v := if bool_decide (_ ∉ _) then [] else _).
  set (busy := bool_decide (doc_status ∈ _)).
  set (e := if bool_decide (req_v = []) then _ else _).
  destruct (bool_decide (e ≠ str_or req_v [])); [done|].
  intros [= <- <-]. clearbody e. unfold _pdf_url.
  destruct (decide (e = saved)) as [->|Hs].
  - rewrite (bool_decide_eq_true_2 (saved = saved)) by done.
    rewrite (bool_decide_eq_false_2 (saved = draft)) by done.
    destruct saved_pdf_ready, has_saved; cbn [negb andb]; solve_urls.
  - rewrite (bool_decide_eq_false_2 (e = saved)) by done. cbn [andb].
    destruct (decide (e = draft)) as [->|Hd].
    + rewrite (bool_decide_eq_true_2 (draft = draft)) by done.
      destruct draft_pdf_ready, has_draft; cbn [negb andb]; solve_urls.
    + rewrite (bool_decide_eq_false_2 (e = draft)) by done. cbn [andb].
      solve_urls.
Qed.

(** Witness of X22: the saved view, with the saved PDF on disk. *)
Lemma doc_view_pdf_url_witness :
  doc_view 1 (Some saved) ready true false true false
  = TemplateResponse saved (utf8 "/file/generated/1_saved.pdf")
  /\ (utf8 "/file/generated/1_saved.pdf"
      = utf8 "/file/generated/" ++ str_of_Z 1 ++ utf8 "_saved.pdf"
      <-> saved = saved /\ true = true /\ true = true).
Proof.
  assert (doc_view 1 (Some saved) ready true false true false
          = TemplateResponse saved (utf8 "/file/generated/1_saved.pdf")) as H
    by (vm_compute; reflexivity).
  split; [exact H|].
  destruct (doc_view_pdf_url 1 (Some saved) ready true false true false _ _ H)
    as (Hs & _).
  exact Hs.
Defined.

(** ** The ranking of the catalog *)

Lemma str_le_total a : forall b, llm.str_le a b = true \/ llm.str_le b a = true.
Proof.
  induction a as [|x a IH]; intros [|y b]; cbn [llm.str_le]; auto.
  destruct (IH b) as [H|H]; rewrite H;
    destruct (N.ltb_spec x y), (N.ltb_spec y x), (N.eqb_spec x y),
      (N.eqb_spec y x); cbn; auto; lia.
Qed.

Lemma str_le_trans a : forall b c,
  llm.str_le a b = true -> llm.str_le b c = true -> llm.str_le a c = true.
Proof.
  induction a as [|x a IH]; intros [|y b] [|z c]; cbn [llm.str_le]; try done.
  intros Hab Hbc.
  destruct (N.ltb_spec x y), (N.eqb_spec x y), (N.ltb_spec y z),
    (N.eqb_spec y z), (N.ltb_spec x z), (N.eqb_spec x z);
    cbn [orb andb] in *; try done; try lia.
  by eapply IH.
Qed.

Lemma tuple_ge_total : Total llm.tuple_ge.
Proof.
  intros [s1 m1] [s2 m2]. unfold llm.tuple_ge, llm.tuple_le. cbn [fst snd].
  destruct (Z.ltb_spec s1 s2), (Z.ltb_spec s2 s1), (Z.eqb_spec s1 s2),
    (Z.eqb_spec s2 s1); cbn [orb andb]; auto; try lia.
  destruct (str_le_total m1 m2) as [->| ->]; auto.
Qed.

Lemma tuple_ge_trans : Transitive llm.tuple_ge.
Proof.
  intros [s1 m1] [s2 m2] [s3 m3]. unfold llm.tuple_ge, llm.tuple_le.
  cbn [fst snd]. intros H12 H23.
  apply Is_true_true in H12, H23. apply Is_true_true.
  destruct (Z.ltb_spec s2 s1), (Z.eqb_spec s2 s1), (Z.ltb_spec s3 s2),
    (Z.eqb_spec s3 s2), (Z.ltb_spec s3 s1), (Z.eqb_spec s3 s1);
    cbn [orb andb] in *; try done; try lia.
  by eapply str_le_trans.
Qed.

(** What the first loop collects. *)
Lemma score_models_elem_of prefer models s mid :
  (s, mid) ∈ llm.score_models prefer models
  <-> exists m, m ∈ models /\ llm.m_id m = Some mid
                /\ 0 < llm._endpoints_count m
                /\ s = llm.score_of prefer m mid.
Proof.
  induction models as [|m models IH]; cbn [llm.score_models].
  { split; [by intros ?%elem_of_nil|]. by intros (m & ?%elem_of_nil & _). }
  assert ((exists m0, m0 ∈ m :: models /\ llm.m_id m0 = Some mid
                      /\ 0 < llm._endpoints_count m0
                      /\ s = llm.score_of prefer m0 mid)
          <-> (llm.m_id m = Some mid /\ 0 < llm._endpoints_count m
               /\ s = llm.score_of prefer m mid)
              \/ (s, mid) ∈ llm.score_models prefer models) as ->.
  { rewrite IH. split.
    - intros (m0 & [->|Hin]%elem_of_cons & H); [by left|right; by exists m0].
    - intros [H|(m0 & Hin & H)]; [exists m; split; [left|done]
                                 |exists m0; split; [by right|done]]. }
  destruct (llm.m_id m) as [mid'|] eqn:Hid.
  - destruct (bool_decide (llm._endpoints_count m <= 0)) eqn:He.
    + apply bool_decide_eq_true in He. split; [by right|].
      intros [(_ & H & _)|H]; [lia|done].
    + apply bool_decide_eq_false in He. rewrite elem_of_cons. split.
      * intros [[= -> ->]|H]; [left; repeat split; lia|by right].
      * intros [([= ->] & _ & ->)|H]; [by left|by right].
  - split; [by right|]. by intros [([=] & _)|H].
Qed.

(** The second loop: it appends to [chosen] ids of [scored] that are not in
    it yet, and stops at [limit]. *)
Lemma choose_spec limit scored : forall chosen seen,
  NoDup chosen -> (forall x, x ∈ seen <-> x ∈ chosen) ->
  Z.of_nat (length chosen) <= limit `max` 1 - 1 ->
  let r := llm.choose limit scored chosen seen in
  NoDup r
  /\ (exists added, r = chosen ++ added
                    /\ forall x, x ∈ added -> x ∈ scored.*2)
  /\ Z.of_nat (length r) <= limit `max` 1
  /\ (chosen = [] -> forall s mid rest, scored = (s, mid) :: rest ->
        exists rest', r = mid :: rest').
Proof.
  induction scored as [|[s mid] scored IH]; intros chosen seen Hnd Hseen Hlen.
  { cbn. split; [done|]. split; [exists []; by rewrite app_nil_r|].
    split; [lia|done]. }
  cbn [llm.choose]. cbn zeta.
  destruct (bool_decide (mid ∈ seen)) eqn:Hmid.
  - apply bool_decide_eq_true in Hmid.
    destruct (IH chosen seen Hnd Hseen Hlen) as (H1 & (added & H2 & H3) & H4 & _).
    split; [done|]. split.
    { exists added. split; [done|]. intros x Hx. cbn. right. by apply H3. }
    split; [done|]. intros ->. apply Hseen in Hmid. by apply elem_of_nil in Hmid.
  - apply bool_decide_eq_false in Hmid.
    assert (NoDup (chosen ++ [mid])) as Hnd'.
    { apply NoDup_app. split; [done|]. split; [|apply NoDup_singleton].
      intros x Hx ->%list_elem_of_singleton. by apply Hmid, Hseen. }
    assert (forall x, x ∈ ({[mid]} ∪ seen : gset str) <-> x ∈ chosen ++ [mid])
      as Hseen'.
    { intros x. rewrite elem_of_union, elem_of_singleton, elem_of_app,
        list_elem_of_singleton, Hseen. tauto. }
    assert (Z.of_nat (length (chosen ++ [mid])) <= limit `max` 1) as Hlen'
      by (rewrite length_app; cbn [length]; lia).
    assert (chosen = [] -> forall s' mid' rest,
              (s, mid) :: scored = (s', mid') :: rest ->
              forall r added, r = (chosen ++ [mid]) ++ added ->
                exists rest', r = mid' :: rest') as Hhead.
    { intros -> s' mid' rest [= _ <- _] r added ->. by eexists. }
    destruct (bool_decide (limit <= Z.of_nat (length (chosen ++ [mid]))))
      eqn:Hstop.
    + split; [done|]. split.
      { exists [mid]. split; [done|]. intros x ->%list_elem_of_singleton.
        cbn. by left. }
      split; [done|]. intros Hc s' mid' rest Heq.
      apply (Hhead Hc s' mid' rest Heq _ []). by rewrite app_nil_r.
    + apply bool_decide_eq_false in Hstop.
      destruct (IH (chosen ++ [mid]) ({[mid]} ∪ seen) Hnd' Hseen')
        as (H1 & (added & H2 & H3) & H4 & _); [lia|].
      split; [done|]. split.
      { exists (mid :: added). split; [by rewrite H2, <- app_assoc|].
        intros x [->|Hx]%elem_of_cons; cbn; [by left|right; by apply H3]. }
      split; [done|]. intros Hc s' mid' rest Heq.
      by apply (Hhead Hc s' mid' rest Heq _ added).
Qed.

(** The ranking as the second loop sees it. *)
Lemma pick_models_loop models prefer limit :
  let prefer' :=
    match prefer with
    | None | Some [] => llm.default_prefer
    | Some prefer => prefer
    end in
  let scored := llm.score_models prefer' models in
  let sorted := merge_sort llm.tuple_ge scored in
  let r := llm.choose limit sorted [] ∅ in
  llm.pick_models models prefer limit
  = match r, omap llm.m_id models with
    | [], _ :: _ => llm.slice_to limit (omap llm.m_id models)
    | _, _ => r
    end
  /\ sorted ≡ₚ scored
  /\ StronglySorted llm.tuple_ge sorted
  /\ NoDup r
  /\ (forall x, x ∈ r -> x ∈ scored.*2)
  /\ Z.of_nat (length r) <= limit `max` 1
  /\ (scored = [] -> r = [])
  /\ (scored <> [] ->
      exists s mid rest rest',
        sorted = (s, mid) :: rest /\ r = mid :: rest').
Proof.
  cbn zeta.
  set (prefer' := match prefer with None | Some [] => _ | Some p => p end).
  set (scored := llm.score_models prefer' models).
  set (sorted := merge_sort llm.tuple_ge scored).
  assert (sorted ≡ₚ scored) as Hperm by apply merge_sort_Permutation.
  assert (StronglySorted llm.tuple_ge sorted) as Hsorted.
  { apply (@Sorted_StronglySorted _ _ tuple_ge_trans).
    apply (@Sorted_merge_sort _ _ _ tuple_ge_total). }
  destruct (choose_spec limit sorted [] ∅) as (Hnd & (added & Hr & Hadded) & Hlen & Hhead).
  { apply NoDup_nil_2. }
  { intros x. set_solver. }
  { cbn. lia. }
  cbn zeta in Hnd, Hr, Hlen, Hhead. cbn [app] in Hr.
  split; [done|]. split; [done|]. split; [done|]. split; [done|].
  split.
  { intros x Hx. rewrite Hr in Hx. apply Hadded in Hx. by rewrite <- Hperm. }
  split; [done|]. split.
  - intros Hnil. rewrite Hnil in Hperm. apply Permutation_nil_r in Hperm.
    by rewrite Hperm.
  - intros Hne. destruct sorted as [|[s mid] rest] eqn:Hs.
    + apply Permutation_nil_l in Hperm. by destruct Hne.
    + destruct (Hhead eq_refl s mid rest eq_refl) as [rest' Hrest].
      by exists s, mid, rest, rest'.
Qed.

(** X23. What [pick_models] returns. Every model returned is in the catalog.
    When some entry has an id and an endpoint, the models returned are
    such entries, each once, at least one and at most [limit] (one when
    [limit] is below 1); when no entry has, they are the first [limit] ids
    of the catalog as they come. *)
Theorem pick_models_chosen (models : list llm.Model)
    (prefer : option (list str)) (limit : Z) :
  let chosen := llm.pick_models models prefer limit in
  (forall mid, mid ∈ chosen ->
     exists m, m ∈ models /\ llm.m_id m = Some mid)
  /\ ((exists m mid, m ∈ models /\ llm.m_id m = Some mid
                     /\ 0 < llm._endpoints_count m) ->
      chosen <> [] /\ NoDup chosen
      /\ Z.of_nat (length chosen) <= limit `max` 1
      /\ forall mid, mid ∈ chosen ->
           exists m, m ∈ models /\ llm.m_id m = Some mid
                     /\ 0 < llm._endpoints_count m)
  /\ ((forall m, m ∈ models -> is_Some (llm.m_id m) ->
         llm._endpoints_count m <= 0) ->
      chosen = llm.slice_to limit (omap llm.m_id models)).
Proof.
  cbn zeta.
  destruct (pick_models_loop models prefer limit)
    as (-> & Hperm & _ & Hnd & Hin & Hlen & Hnil & Hcons).
  set (prefer' := match prefer with None | Some [] => _ | Some p => p end) in *.
  set (scored := llm.score_models prefer' models) in *.
  set (r := llm.choose limit (merge_sort llm.tuple_ge scored) [] ∅) in *.
  assert (forall mid, mid ∈ r ->
            exists m, m ∈ models /\ llm.m_id m = Some mid
                      /\ 0 < llm._endpoints_count m) as Hr.
  { intros mid Hmid. apply Hin in Hmid.
    apply list_elem_of_fmap in Hmid as ([s mid'] & -> & Hmid).
    apply score_models_elem_of in Hmid as (m & ? & ? & ? & _).
    by exists m. }
  split; [|split].
  - intros mid Hmid.
    assert (mid ∈ r \/ mid ∈ omap llm.m_id models) as [H|H].
    { destruct r; [|by left]. destruct (omap llm.m_id models) eqn:Hids;
        [by left|right]. unfold llm.slice_to in Hmid.
      destruct (bool_decide (limit < 0));
        apply elem_of_take in Hmid as (i & Hi & _);
        by apply list_elem_of_lookup_2 in Hi. }
    + destruct (Hr mid H) as (m & ? & ? & _). by exists m.
    + apply list_elem_of_omap in H as (m & ? & ?). by exists m.
  - intros (m & mid & Hm & Hid & Hcount).
    destruct Hcons as (s & mid0 & rest & rest' & _ & Hr').
    { intros Hempty.
      assert ((llm.score_of prefer' m mid, mid) ∈ scored) as Hs
        by (apply score_models_elem_of; by exists m).
      rewrite Hempty in Hs. by apply elem_of_nil in Hs. }
    rewrite Hr' in *. cbv beta iota.
    split; [done|]. split; [done|]. split; [done|]. exact Hr.
  - intros Hnone. rewrite Hnil.
    + destruct (omap llm.m_id models) eqn:Hids; [|done].
      unfold llm.slice_to. destruct (bool_decide (limit < 0)); by rewrite take_nil.
    + destruct scored as [|[s mid] rest] eqn:Hs; [done|].
      assert ((s, mid) ∈ scored) as Hin' by (rewrite Hs; left).
      apply score_models_elem_of in Hin' as (m & Hm & Hid & Hcount & _).
      specialize (Hnone m Hm ltac:(by rewrite Hid)). lia.
Qed.

(** X24. The ranking puts a best model first: the first model returned has an
    id, an endpoint and a score that no entry with an id and an endpoint
    exceeds. *)
Theorem pick_models_best_first (models : list llm.Model)
    (prefer : option (list str)) (limit : Z) (m : llm.Model) (mid : str) :
  m ∈ models -> llm.m_id m = Some mid -> 0 < llm._endpoints_count m ->
  let prefer' :=
    match prefer with
    | None | Some [] => llm.default_prefer
    | Some prefer => prefer
    end in
  exists first rest m0,
    llm.pick_models models prefer limit = first :: rest
    /\ m0 ∈ models /\ llm.m_id m0 = Some first
    /\ 0 < llm._endpoints_count m0
    /\ llm.score_of prefer' m mid <= llm.score_of prefer' m0 first.
Proof.
  intros Hm Hid Hcount. cbn zeta.
  destruct (pick_models_loop models prefer limit)
    as (-> & Hperm & Hsorted & _ & _ & _ & _ & Hcons).
  set (prefer' := match prefer with None | Some [] => _ | Some p => p end) in *.
  set (scored := llm.score_models prefer' models) in *.
  assert ((llm.score_of prefer' m mid, mid) ∈ scored) as Hs
    by (apply score_models_elem_of; by exists m).
  destruct Hcons as (s0 & first & rest & rest' & Hsort & ->).
  { intros Hempty. rewrite Hempty in Hs. by apply elem_of_nil in Hs. }
  assert ((s0, first) ∈ scored) as Hfirst
    by (rewrite <- Hperm, Hsort; left).
  apply score_models_elem_of in Hfirst as (m0 & Hm0 & Hid0 & Hc0 & ->).
  exists first, rest', m0. repeat split; try done.
  rewrite Hsort in Hsorted, Hperm.
  apply StronglySorted_cons in Hsorted as [Hall _].
  rewrite <- Hperm in Hs. apply elem_of_cons in Hs as [[= Heq _]|Hs].
  - lia.
  - rewrite Forall_forall in Hall. specialize (Hall _ Hs).
    unfold llm.tuple_ge, llm.tuple_le in Hall. cbn [fst snd] in Hall.
    apply Is_true_true, orb_true_iff in Hall as [Hlt|[Heq _]%andb_true_iff].
    + apply Z.ltb_lt in Hlt. lia.
    + apply Z.eqb_eq in Heq. lia.
Qed.

(** Witness of X24: the catalog of five entries. *)
Lemma pick_models_best_first_witness :
  (llm.mkModel (Some (utf8 "openai/gpt-4o-mini")) (Some 2%nat) true ∈ catalog
   /\ 0 < llm._endpoints_count
            (llm.mkModel (Some (utf8 "openai/gpt-4o-mini")) (Some 2%nat) true))
  /\ llm.pick_models catalog None 8
     = [utf8 "deepseek/deepseek-chat-v3"; utf8 "openai/gpt-4o-mini";
        utf8 "acme/small"]
  /\ exists first rest m0,
       llm.pick_models catalog None 8 = first :: rest
       /\ m0 ∈ catalog /\ llm.m_id m0 = Some first
       /\ 0 < llm._endpoints_count m0
       /\ llm.score_of llm.default_prefer
            (llm.mkModel (Some (utf8 "openai/gpt-4o-mini")) (Some 2%nat) true)
            (utf8 "openai/gpt-4o-mini")
          <= llm.score_of llm.default_prefer m0 first.
Proof.
  assert (llm.mkModel (Some (utf8 "openai/gpt-4o-mini")) (Some 2%nat) true
          ∈ catalog) as H1 by (unfold catalog; right; left).
  assert (0 < llm._endpoints_count
                (llm.mkModel (Some (utf8 "openai/gpt-4o-mini")) (Some 2%nat)
                   true)) as H2 by (vm_compute; reflexivity).
  split; [by split|]. split; [vm_compute; reflexivity|].
  exact (pick_models_best_first catalog None 8 _ _ H1 eq_refl H2).
Defined.

(** ** Access and the handlers *)

(** X25. The two access checks agree and write nothing: [can_access_doc]
    returns the document exactly when [_access_role] gives the role "owner"
    or "shared", and the role is "owner" exactly for the document's
    owner. *)
Theorem can_access_doc_role (shares : list (Z * Z)) (user_id doc_id : Z)
    (w : World) :
  snd (can_access_doc shares user_id doc_id w) = w
  /\ snd (_access_role shares user_id doc_id w) = w
  /\ exists o role,
       fst (_access_role shares user_id doc_id w) = Ok (o, role)
       /\ role ∈ [utf8 "not_found"; utf8 "owner"; utf8 "shared";
                  utf8 "no_access"]
       /\ fst (can_access_doc shares user_id doc_id w)
          = Ok (if bool_decide (role ∈ [utf8 "owner"; utf8 "shared"])
                then o else None)
       /\ (role = utf8 "owner"
           <-> exists doc, o = Some doc /\ is_owner user_id doc = true)
       /\ (role = utf8 "not_found" <-> documents w !! doc_id = None).
Proof.
  unfold can_access_doc, _access_role, db_session, get_document, gets, mbind,
    M_bind, mret, M_ret, is_owner.
  destruct (documents w !! doc_id) as [doc|] eqn:Hdoc;
    cbn [mbind option_bind fst snd].
  2:{ split; [done|]. split; [done|]. exists None, (utf8 "not_found").
      split; [done|]. split; [by left|]. split; [by destruct (bool_decide _)|].
      split; [|done]. split; [intros H; vm_compute in H; discriminate|].
      by intros (doc & [=] & _). }
  destruct (bool_decide (owner_id doc = user_id)) eqn:Hown; cbn [orb].
  - split; [done|]. split; [done|]. exists (Some doc), (utf8 "owner").
    split; [done|]. split; [by right; left|].
    split; [by rewrite bool_decide_eq_true_2 by (by left)|].
    split; [split; [by exists doc|done]|].
    split; [intros H; vm_compute in H; discriminate|done].
  - destruct (bool_decide ((doc_id, user_id) ∈ shares)) eqn:Hsh.
    + split; [done|]. split; [done|]. exists (Some doc), (utf8 "shared").
      split; [done|]. split; [by right; right; left|].
      split; [by rewrite bool_decide_eq_true_2 by (by right; left)|].
      split; [split; [intros H; vm_compute in H; discriminate
                     |intros (doc' & [= <-] & H); congruence]|].
      split; [intros H; vm_compute in H; discriminate|done].
    + split; [done|]. split; [done|]. exists (Some doc), (utf8 "no_access").
      split; [done|]. split; [by right; right; right; left|].
      split.
      { rewrite bool_decide_eq_false_2; [done|].
        intros [H|[H|H]%elem_of_cons]%elem_of_cons;
          [vm_compute in H; discriminate..|by apply elem_of_nil in H]. }
      split; [split; [intros H; vm_compute in H; discriminate
                     |intros (doc' & [= <-] & H); congruence]|].
      split; [intros H; vm_compute in H; discriminate|done].
Qed.

Lemma can_access_doc_granted shares user_id doc_id w doc :
  documents w !! doc_id = Some doc ->
  owner_id doc = user_id \/ (doc_id, user_id) ∈ shares ->
  can_access_doc shares user_id doc_id w = (Ok (Some doc), w).
Proof.
  intros Hdoc Hacc. unfold can_access_doc, db_session, gets.
  rewrite Hdoc. cbn [mbind option_bind].
  destruct Hacc as [Ho|Hs].
  - by rewrite (bool_decide_eq_true_2 _ Ho).
  - rewrite (bool_decide_eq_true_2 _ Hs). by rewrite orb_true_r.
Qed.

Lemma close_session_run E doc_id w doc :
  documents w !! doc_id = Some doc ->
  close_session E doc_id w
  = (Ok tt,
     set_documents
       (<[doc_id := set_updated_at (utcnow E (history w))
                      (set_editor_heartbeat_at None
                         (set_editor_open false doc))]> (documents w)) w).
Proof.
  intros Hdoc.
  unfold close_session, db_session, get_document, gets, now, mbind, M_bind,
    update_document, modify.
  rewrite Hdoc. do 2 f_equal. f_equal.
  apply map_eq. intros k. destruct (decide (k = doc_id)) as [->|Hk].
  - by rewrite lookup_alter_eq, lookup_insert_eq, Hdoc.
  - by rewrite lookup_alter_ne, lookup_insert_ne.
Qed.

(** X26. Closing the editor cancels what is pending. For a user with access,
    [close_editor] answers "ok" and leaves the document with its editor
    closed and no heartbeat, hence inactive at every time, without a draft
    row, draft index entries or generated draft file; and while the
    document row stays so, the persistence step of a job that finishes
    later returns without writing a version or an index entry.
    [close_editor_page] leaves the same state. *)
Theorem close_editor_cancels (E : Env) (shares : list (Z * Z))
    (user_id doc_id : Z) (w : World) (doc : Document) :
  documents w !! doc_id = Some doc ->
  owner_id doc = user_id \/ (doc_id, user_id) ∈ shares ->
  uq_doc_kind (versions w) ->
  let call := close_editor E shares user_id doc_id w in
  let w' := snd call in
  fst call = Ok (PlainTextResponse (utf8 "ok") 200)
  /\ (exists doc',
        documents w' !! doc_id = Some doc'
        /\ editor_open doc' = false /\ editor_heartbeat_at doc' = None
        /\ forall t, _editor_active t doc' = false)
  /\ versions_of doc_id draft (versions w') = []
  /\ chunks_of doc_id draft (chunks_fts w') = []
  /\ files w' !! _generated_pdf_path E doc_id draft = None
  /\ (forall w2 full_tex out_pdf,
        documents w2 !! doc_id = documents w' !! doc_id ->
        let late := transform_persist E doc_id full_tex out_pdf w2 in
        fst late = Ok tt
        /\ versions (snd late) = versions w2
        /\ chunks_fts (snd late) = chunks_fts w2
        /\ files (snd late) = files w2)
  /\ snd (close_editor_page E shares user_id doc_id w) = w'.
Proof.
  intros Hdoc Hacc Huq call w'. unfold w', call. clear w' call.
  unfold close_editor, close_editor_page, mbind, M_bind.
  rewrite (can_access_doc_granted shares user_id doc_id w doc Hdoc Hacc).
  rewrite (close_session_run E doc_id w doc Hdoc).
  set (doc' := set_updated_at _ _).
  set (wa := set_documents _ w).
  assert (documents wa !! doc_id = Some doc') as Hdoc'
    by apply lookup_insert_eq.
  destruct (discard_run E doc_id wa _ (ex_intro _ doc' Hdoc') eq_refl)
    as (wb & -> & Hvs & Hcs & Hfs & Hds & _).
  unfold mret, M_ret. cbn [fst snd].
  change (versions wa) with (versions w) in Hvs.
  split; [done|]. split; [|split; [|split; [|split; [|split]]]].
  - exists doc'. rewrite Hds. split; [done|]. by repeat split.
  - rewrite Hvs.
    destruct (List.find (version_of doc_id draft) (versions w)) as [d|] eqn:Hd.
    + rewrite uq_versions_of by (by apply NoDup_fmap_filter).
      by rewrite (delete_row_unique doc_id draft (versions w) d).
    + by rewrite uq_versions_of, Hd.
  - rewrite Hcs. apply fts_delete_none.
  - rewrite Hfs. apply lookup_delete_eq.
  - intros w2 full_tex out_pdf Hsame. cbn zeta.
    rewrite Hds, Hdoc' in Hsame.
    by rewrite (transform_persist_inactive E doc_id full_tex out_pdf w2 doc'
                  Hsame).
  - done.
Qed.

(** Witness of X26: the owner closes the editor of document 1, which has a draft. *)
Lemma close_editor_cancels_witness :
  (documents world_draft_and_saved !! 1 = Some doc_1
   /\ (owner_id doc_1 = 1 \/ (1, 1) ∈ ([] : list (Z * Z)))
   /\ uq_doc_kind (versions world_draft_and_saved))
  /\ fst (close_editor env_ok [] 1 1 world_draft_and_saved)
     = Ok (PlainTextResponse (utf8 "ok") 200)
  /\ versions_of 1 draft
       (versions (snd (close_editor env_ok [] 1 1 world_draft_and_saved)))
     = [].
Proof.
  assert (documents world_draft_and_saved !! 1 = Some doc_1) as H1
    by (vm_compute; reflexivity).
  assert (owner_id doc_1 = 1 \/ (1, 1) ∈ ([] : list (Z * Z))) as H2
    by (left; reflexivity).
  assert (uq_doc_kind (versions world_draft_and_saved)) as H3
    by (apply (bool_decide_unpack _); vm_compute; exact I).
  split; [by repeat split|].
  destruct (close_editor_cancels env_ok [] 1 1 world_draft_and_saved doc_1
              H1 H2 H3) as (Hr & _ & Hv & _).
  split; [exact Hr|exact Hv].
Defined.

(** The saved artifact after a promotion whose draft file exists. *)
Lemma promote_saved_file E doc_id w doc dr b :
  documents w !! doc_id = Some doc ->
  List.find (version_of doc_id draft) (versions w) = Some dr ->
  files w !! pdf_path dr = Some b ->
  (forall old, List.find (version_of doc_id saved) (versions w) = Some old ->
     pdf_path old <> pdf_path dr) ->
  files (snd (promote_draft_to_saved E doc_id w))
    !! _generated_pdf_path E doc_id saved = Some b.
Proof.
  intros Hdoc Hdr Hfile Hold.
  destruct (promote_run E doc_id w doc dr _ Hdoc Hdr eq_refl)
    as (w' & t & t' & -> & _ & _ & Hfs & _).
  cbn [snd]. rewrite Hfs, lookup_delete_ne.
  2:{ intros Heq%generated_pdf_path_inj. by apply draft_not_saved. }
  unfold copied.
  assert (match List.find (version_of doc_id saved) (versions w) with
          | Some old =>
              if bool_decide (pdf_path old ≠ [])
              then delete (pdf_path old) (files w) else files w
          | None => files w
          end !! pdf_path dr = Some b) as ->.
  { destruct (List.find (version_of doc_id saved) (versions w)) as [old|];
      [|done].
    destruct (bool_decide (pdf_path old ≠ [])); [|done].
    rewrite lookup_delete_ne; [done|]. by apply Hold. }
  cbn [from_option]. apply lookup_insert_eq.
Qed.

(** X27. [save_changes] promotes the draft only when the document is ready
    and the draft's PDF is on disk; otherwise it redirects to the draft and
    changes nothing. When it promotes, the state is that of
    [promote_draft_to_saved]: the draft row has become the one saved row,
    and (the draft's file not being the prior saved artifact) the saved PDF
    is on disk with the bytes of the draft's. *)
Theorem save_changes_guard (E : Env) (shares : list (Z * Z))
    (user_id doc_id : Z) (w : World) (doc : Document) (dr : Version) :
  documents w !! doc_id = Some doc ->
  owner_id doc = user_id \/ (doc_id, user_id) ∈ shares ->
  versions_pk (versions w) -> uq_doc_kind (versions w) ->
  List.find (version_of doc_id draft) (versions w) = Some dr ->
  let call := save_changes E shares user_id doc_id w in
  let to v := RedirectResponse (utf8 "/doc/" ++ str_of_Z doc_id ++ v) in
  (status doc <> ready \/ pdf_path dr = [] \/ files w !! pdf_path dr = None ->
   call = (Ok (to (utf8 "?v=draft")), w))
  /\ (forall b,
        status doc = ready -> pdf_path dr <> [] ->
        files w !! pdf_path dr = Some b ->
        fst call = Ok (to (utf8 "?v=saved"))
        /\ snd call = snd (promote_draft_to_saved E doc_id w)
        /\ (exists t, versions_of doc_id saved (versions (snd call))
                      = [promoted E doc_id t dr])
        /\ versions_of doc_id draft (versions (snd call)) = []
        /\ ((forall old,
               List.find (version_of doc_id saved) (versions w) = Some old ->
               pdf_path old <> pdf_path dr) ->
            files (snd call) !! _generated_pdf_path E doc_id saved = Some b)).
Proof.
  intros Hdoc Hacc Hpk Huq Hdr call to. unfold call, to. clear call to.
  destruct (promote_run E doc_id w doc dr _ Hdoc Hdr eq_refl)
    as (w' & t & t' & Hrun & Hvs & _).
  assert (save_changes E shares user_id doc_id w
          = if bool_decide (status doc ≠ ready)
               || negb (bool_decide (pdf_path dr ≠ [])
                        && bool_decide (is_Some (files w !! pdf_path dr)))
            then (Ok (RedirectResponse
                        (utf8 "/doc/" ++ str_of_Z doc_id ++ utf8 "?v=draft")),
                  w)
            else (Ok (RedirectResponse
                        (utf8 "/doc/" ++ str_of_Z doc_id ++ utf8 "?v=saved")),
                  w')) as ->.
  { unfold save_changes, mbind at 1, M_bind at 1.
    rewrite (can_access_doc_granted shares user_id doc_id w doc Hdoc Hacc).
    unfold try_except, mbind, M_bind, db_session, get_document, query_version,
      os_path_exists, gets, mret, M_ret.
    rewrite Hdoc, Hdr.
    destruct (bool_decide (status doc ≠ ready) || _); [done|].
    by rewrite Hrun. }
  split.
  - intros Hbad.
    assert (bool_decide (status doc ≠ ready)
            || negb (bool_decide (pdf_path dr ≠ [])
                     && bool_decide (is_Some (files w !! pdf_path dr)))
            = true) as ->; [|done].
    destruct Hbad as [H|[H|H]].
    + by rewrite (bool_decide_eq_true_2 _ H).
    + rewrite (bool_decide_eq_false_2 (pdf_path dr ≠ [])) by (by intros Hn).
      apply orb_true_r.
    + rewrite (bool_decide_eq_false_2 (is_Some _))
        by (rewrite H; by intros [? [=]]).
      rewrite andb_false_r. apply orb_true_r.
  - intros b Hready Hpath Hfile.
    rewrite (bool_decide_eq_false_2 (status doc ≠ ready))
      by (by intros Hn).
    rewrite (bool_decide_eq_true_2 (pdf_path dr ≠ [])) by done.
    rewrite (bool_decide_eq_true_2 (is_Some _)) by (by rewrite Hfile).
    cbn [orb andb negb fst snd].
    pose proof (promote_saved_file E doc_id w doc dr b Hdoc Hdr Hfile) as Hsaved.
    rewrite Hrun in *. cbn [fst snd] in *.
    destruct (promote_versions_after E doc_id (versions w) dr t Hpk Huq Hdr)
      as (H1 & H2 & _).
    split; [done|]. split; [done|]. rewrite Hvs.
    split; [by exists t|]. by split.
Qed.

(** Witness of X27: the owner saves the draft of document 1, whose PDF is on disk. *)
Lemma save_changes_guard_witness :
  (documents world_draft_and_saved !! 1 = Some doc_1
   /\ (owner_id doc_1 = 1 \/ (1, 1) ∈ ([] : list (Z * Z)))
   /\ versions_pk (versions world_draft_and_saved)
   /\ uq_doc_kind (versions world_draft_and_saved)
   /\ List.find (version_of 1 draft) (versions world_draft_and_saved)
      = Some draft_row_1)
  /\ fst (save_changes env_ok [] 1 1 world_draft_and_saved)
     = Ok (RedirectResponse (utf8 "/doc/" ++ str_of_Z 1 ++ utf8 "?v=saved"))
  /\ snd (save_changes env_ok [] 1 1 world_draft_and_saved) = world_promoted.
Proof.
  assert (documents world_draft_and_saved !! 1 = Some doc_1) as H1
    by (vm_compute; reflexivity).
  assert (owner_id doc_1 = 1 \/ (1, 1) ∈ ([] : list (Z * Z))) as H2
    by (left; reflexivity).
  assert (versions_pk (versions world_draft_and_saved)) as H3
    by (apply (bool_decide_unpack _); vm_compute; exact I).
  assert (uq_doc_kind (versions world_draft_and_saved)) as H4
    by (apply (bool_decide_unpack _); vm_compute; exact I).
  assert (List.find (version_of 1 draft) (versions world_draft_and_saved)
          = Some draft_row_1) as H5 by (vm_compute; reflexivity).
  split; [by repeat split|].
  destruct (save_changes_guard env_ok [] 1 1 world_draft_and_saved doc_1
              draft_row_1 H1 H2 H3 H4 H5) as (_ & Hsave).
  destruct (Hsave (utf8 "new pdf")) as (Hr & Hw & _);
    [vm_compute; reflexivity|vm_compute; discriminate
    |vm_compute; reflexivity|].
  split; [exact Hr|exact Hw].
Defined.
